(** * KatikaNaMe: the document-generation pipeline

    A shallow embedding of the portfolio back end's two composers:

    - [backend/server.js]: [generatePortfolioHTML] and its three template
      functions, which build an HTML document by string interpolation;
    - the MongoDB variant of the server: the [generate-pdf] route, which
      draws a PDF page by page through a PDFKit document object, together
      with its local helper [hexToRgb];

    and of what surrounds the first of them in [backend/server.js]: the
    handlers of the upload storage, and the routes that create and find
    artists and portfolios, write the page of a portfolio and print its
    PDF, over the two arrays and the files that make the server's state.

    JavaScript strings are modelled as [string] (the UTF-8 bytes of the
    text), JavaScript numbers as [Z] where the code only counts or prints
    integers and as the binary64 numbers of [Floats] where it measures and
    compares lengths on the page, objects as records, optional properties
    as the small value type [jsval], and the PDFKit document as an explicit
    state threaded through the calls made on it, whose trace of calls is
    the composer's output. *)

From Stdlib Require Import String Ascii List Bool Arith ZArith Lia.
From Stdlib Require Import DecimalString DecimalZ Floats Uint63.
Import ListNotations.

(** Decimal numerals are read as JavaScript reads them, as the nearest
    binary64 number. *)
Set Warnings "-inexact-float".

Local Open Scope Z_scope.
Local Open Scope list_scope.
Local Open Scope string_scope.

(** ** JavaScript values and strings *)

Module JS.

(** The values a property of the content record can hold: absent
    ([undefined]), [null], a string, or a plain object. *)
Inductive jsval : Type :=
| JUndefined
| JNull
| JStr (s : string)
| JObj.

(** [ToBoolean]: what [v ? a : b], [v || d] and [if (v)] test. *)
Definition truthy (v : jsval) : bool :=
  match v with
  | JUndefined | JNull => false
  | JStr s => negb (String.eqb s "")
  | JObj => true
  end.

(** [ToString]: what a template literal does to [${v}]. *)
Definition toString (v : jsval) : string :=
  match v with
  | JUndefined => "undefined"
  | JNull => "null"
  | JStr s => s
  | JObj => "[object Object]"
  end.

(** [v || d] where the result is interpolated into a template. *)
Definition or_else (v : jsval) (d : string) : string :=
  if truthy v then toString v else d.

(** A number: an integer, or [NaN]. *)
Inductive number : Type :=
| NaN
| Num (z : Z).

(** The double quote, which a Rocq string literal cannot hold plainly. *)
Definition dq : string := String "034"%char EmptyString.

Definition code (c : ascii) : N := N_of_ascii c.

Definition in_range (lo hi : N) (c : ascii) : bool :=
  (N.leb lo (code c)) && (N.leb (code c) hi).

(** [\d] *)
Definition isDigit (c : ascii) : bool := in_range 48 57 c.

(** [[a-f]] under the [i] flag: the letters a to f in either case. *)
Definition isHexLetter (c : ascii) : bool := in_range 97 102 c || in_range 65 70 c.

(** [[a-f\d]] under the [i] flag. *)
Definition isHexChar (c : ascii) : bool := isHexLetter c || isDigit c.

(** The value of one digit in radix 16, as [parseInt] reads it. *)
Definition hexDigitValue (c : ascii) : option Z :=
  if isDigit c then Some (Z.of_N (code c) - 48)
  else if in_range 97 102 c then Some (Z.of_N (code c) - 87)
  else if in_range 65 70 c then Some (Z.of_N (code c) - 55)
  else None.

(** [parseInt(s, 16)] on a string without leading blanks, sign or [0x]
    prefix (a captured group of [hexToRgb]'s pattern has none of them): the
    longest prefix of hexadecimal digits is read, and [NaN] is the result
    when that prefix is empty. *)
Fixpoint parseHexDigits (acc : Z) (s : string) : Z :=
  match s with
  | EmptyString => acc
  | String c rest =>
      match hexDigitValue c with
      | Some d => parseHexDigits (16 * acc + d) rest
      | None => acc
      end
  end.

Definition parseInt16 (s : string) : number :=
  match s with
  | EmptyString => NaN
  | String c _ =>
      match hexDigitValue c with
      | Some _ => Num (parseHexDigits 0 s)
      | None => NaN
      end
  end.

(** The outcome of a call that can raise. *)
Inductive result (A : Type) : Type :=
| Ok (a : A)
| Raise (error : string).
Arguments Ok {A} a.
Arguments Raise {A} error.

(** What the code observes of a [new Date()]: the time value in
    milliseconds ([Date.now()]), and the results of the two methods it
    calls, which also depend on the process's time zone and locale. *)
Record Date : Type := mkDate {
  getTime : Z;
  getFullYear : Z;
  toLocaleDateString : string
}.

(** [ToString] of an integer: its decimal digits, with a sign. *)
Definition numberToString (z : Z) : string :=
  NilEmpty.string_of_int (Z.to_int z).

Definition nl : string := String "010"%char EmptyString.

(** The text of consecutive source lines, joined by line breaks. *)
Definition lines (ls : list string) : string := String.concat nl ls.

(** [s.split(',')]: the pieces between commas; the first piece and the
    list of the others.  The empty string has the single piece [""]. *)
Fixpoint split_pieces (s : string) : string * list string :=
  match s with
  | EmptyString => (EmptyString, [])
  | String c rest =>
      let (piece, others) := split_pieces rest in
      if Ascii.eqb c ","%char then (EmptyString, piece :: others)
      else (String c piece, others)
  end.

Definition split_comma (s : string) : list string :=
  let (piece, others) := split_pieces s in piece :: others.

(** White space and line terminators as [trim] knows them, in UTF-8: the
    one-byte ones (TAB, LF, VT, FF, CR, space), U+00A0, and the three-byte
    ones (U+1680, U+2000 to U+200A, U+2028, U+2029, U+202F, U+205F,
    U+3000, U+FEFF). *)
Definition ws1 (c : ascii) : bool :=
  in_range 9 13 c || N.eqb (code c) 32.

Definition ws2 (c1 c2 : ascii) : bool :=
  N.eqb (code c1) 194 && N.eqb (code c2) 160.

Definition ws3 (c1 c2 c3 : ascii) : bool :=
  let '(x, y, z) := (code c1, code c2, code c3) in
  (N.eqb x 225 && N.eqb y 154 && N.eqb z 128)
  || (N.eqb x 226 && N.eqb y 128
      && (N.leb 128 z && N.leb z 138 || N.eqb z 168 || N.eqb z 169 || N.eqb z 175))
  || (N.eqb x 226 && N.eqb y 129 && N.eqb z 159)
  || (N.eqb x 227 && N.eqb y 128 && N.eqb z 128)
  || (N.eqb x 239 && N.eqb y 187 && N.eqb z 191).

(** Drops the white space at the head of a byte list.  With [fwd] the list
    is read forwards; without it the list is a reversed string, and a
    multi-byte character shows its last byte first. *)
Fixpoint dropSpace (fwd : bool) (l : list ascii) : list ascii :=
  match l with
  | [] => []
  | c1 :: l1 =>
      if ws1 c1 then dropSpace fwd l1
      else
        match l1 with
        | [] => l
        | c2 :: l2 =>
            if (if fwd then ws2 c1 c2 else ws2 c2 c1) then dropSpace fwd l2
            else
              match l2 with
              | [] => l
              | c3 :: l3 =>
                  if (if fwd then ws3 c1 c2 c3 else ws3 c3 c2 c1)
                  then dropSpace fwd l3
                  else l
              end
        end
  end.

(** [s.trim()] *)
Definition trim (s : string) : string :=
  string_of_list_ascii
    (rev (dropSpace false (rev (dropSpace true (list_ascii_of_string s))))).

End JS.
Import JS.

(** ** The PDF variant: [hexToRgb] *)

Record rgb : Type := mkRgb { r : number; g : number; b : number }.

(** The pattern [[a-f\d]{2}] three times, anchored at both ends by [^] and
    [$]: the input left after the optional [#] has exactly six characters,
    all of them hexadecimal digits.  The result holds the three captured
    groups. *)
Definition sixHexDigits (s : string) : option (string * string * string) :=
  match s with
  | String c1 (String c2 (String c3 (String c4 (String c5 (String c6 EmptyString))))) =>
      if forallb isHexChar [c1; c2; c3; c4; c5; c6]
      then Some (String c1 (String c2 EmptyString),
                 String c3 (String c4 EmptyString),
                 String c5 (String c6 EmptyString))
      else None
  | _ => None
  end.

(** [/^#?([a-f\d]{2})([a-f\d]{2})([a-f\d]{2})$/i.exec(hex)]: [#?] is greedy,
    so the branch that consumes a leading [#] is tried first and the branch
    that skips it second. *)
Definition hexPattern_exec (hex : string) : option (string * string * string) :=
  match hex with
  | String "#"%char rest =>
      match sixHexDigits rest with
      | Some groups => Some groups
      | None => sixHexDigits hex
      end
  | _ => sixHexDigits hex
  end.

Definition fallbackRgb : rgb := mkRgb (Num 176) (Num 38) (Num 255).

Definition hexToRgb (hex : string) : rgb :=
  match hexPattern_exec hex with
  | Some (g1, g2, g3) => mkRgb (parseInt16 g1) (parseInt16 g2) (parseInt16 g3)
  | None => fallbackRgb
  end.


(** ** The file-backed variant: the HTML composer *)

Module Html.

(** A template literal is a sequence of literal parts and substitutions;
    its value is their concatenation.  The two are kept apart so that what
    the template itself writes can be told from what the record supplies. *)
Inductive chunk : Type :=
| Lit (s : string)
| Sub (s : string).

Definition chunk_text (c : chunk) : string :=
  match c with
  | Lit s => s
  | Sub s => s
  end.

Fixpoint render (cs : list chunk) : string :=
  match cs with
  | [] => ""
  | c :: rest => chunk_text c ++ render rest
  end.

(** [cond ? `...` : ''] *)
Definition when (cond : bool) (cs : list chunk) : list chunk :=
  if cond then cs else [].

(** The [skills] property: an array (each item as the text that the
    templates write for it), a number, a boolean, or any other value. *)
Inductive skillsValue : Type :=
| SkArray (items : list string)
| SkNumber (n : float)
| SkBoolean (b : bool)
| SkOther (v : jsval).

(** [ToBoolean] of a number: false for [0], [-0] and [NaN]. *)
Definition numberTruthy (n : float) : bool :=
  negb (PrimFloat.eqb n 0%float) && PrimFloat.eqb n n.

(** The record the composer reads ([data]): every property may be absent. *)
Record ContentRecord : Type := mkContent {
  name : jsval;
  title : jsval;
  experience : jsval;
  location : jsval;
  aboutMe : jsval;
  jobs : jsval;
  skills : skillsValue;
  services : jsval;
  testimonials : jsval;
  instagram : jsval;
  youtube : jsval;
  tiktok : jsval;
  facebook : jsval;
  twitter : jsval;
  website : jsval;
  email : jsval;
  phone : jsval
}.

Record Colors : Type := mkColors {
  primary : jsval;
  accent : jsval;
  background : jsval
}.

(** The [customizations] argument; other keys are never read. *)
Record Customizations : Type := mkCustomizations {
  colors : option Colors
}.

Definition defaultColors : Colors :=
  mkColors (JStr "#B026FF") (JStr "#FFD23F") (JStr "#0a0a12").

(** [customizations = {}] in the parameter list, then
    [customizations.colors || { primary: ..., accent: ..., background: ... }]. *)
Definition resolveColors (customizations : option Customizations) : Colors :=
  let customizations :=
    match customizations with
    | Some c => c
    | None => mkCustomizations None
    end in
  match colors customizations with
  | Some c => c
  | None => defaultColors
  end.

(** [Array.isArray(data.skills) ? data.skills
      : (data.skills || '').split(',').map(s => s.trim())].
    A truthy value that is neither an array nor a string has no [split]
    method, and the call raises a [TypeError]. *)
Definition skillsListOf (v : skillsValue) : result (list string) :=
  match v with
  | SkArray items => Ok items
  | SkNumber n =>
      if numberTruthy n
      then Raise "TypeError: (data.skills || '').split is not a function"
      else Ok (map trim (split_comma ""))
  | SkBoolean b =>
      if b
      then Raise "TypeError: (data.skills || '').split is not a function"
      else Ok (map trim (split_comma ""))
  | SkOther v =>
      if truthy v then
        match v with
        | JStr s => Ok (map trim (split_comma s))
        | _ => Raise "TypeError: (data.skills || '').split is not a function"
        end
      else Ok (map trim (split_comma ""))
  end.

(** The template literal of [generateModernTemplate], part by part; [now]
    stands for the [new Date()] of the footer. *)
Definition generateModernTemplate_parts (now : Date)
    (data : ContentRecord) (skillsList : list string) (colors : Colors) : list chunk :=
    [ Lit (lines
        [ "";
          "    <header>";
          "        <div class=" ++ dq ++ "container" ++ dq ++ ">";
          "            <img src=" ++ dq ++ "https://images.unsplash.com/photo-1583864697784-a0efc8379f70?ixlib=rb-4.0.3&auto=format&fit=crop&w=600&q=80" ++ dq ++ " alt=" ++ dq ]);
      Sub (toString (name data));
      Lit (lines
        [ dq ++ " class=" ++ dq ++ "profile-img" ++ dq ++ ">";
          "            <h1>" ]);
      Sub (toString (name data));
      Lit (lines
        [ "</h1>";
          "            <h3>" ]);
      Sub (toString (title data));
      Lit (lines
        [ "</h3>";
          "            <p>" ]);
      Sub (toString (experience data));
      Lit " • ";
      Sub (or_else (location data) "Creative Professional");
      Lit (lines
        [ "</p>";
          "        </div>";
          "    </header>";
          "";
          "    <main class=" ++ dq ++ "container" ++ dq ++ ">";
          "        <section>";
          "            <h2>About Me</h2>";
          "            <div class=" ++ dq ++ "section-content" ++ dq ++ ">" ]);
      Sub (toString (aboutMe data));
      Lit (lines
        [ "</div>";
          "        </section>";
          "";
          "        " ]) ]
    ++ when (truthy (jobs data))
      ([ Lit (lines
          [ "";
            "        <section>";
            "            <h2>Experience</h2>";
            "            <div class=" ++ dq ++ "section-content" ++ dq ++ ">" ]);
        Sub (toString (jobs data));
        Lit (lines
          [ "</div>";
            "        </section>";
            "        " ]) ])
    ++ [ Lit (lines
        [ "";
          "";
          "        <section>";
          "            <h2>Skills</h2>";
          "            <div class=" ++ dq ++ "skills" ++ dq ++ ">";
          "                " ]) ]
    ++ flat_map (fun skill : string =>
      [ Lit ("<span class=" ++ dq ++ "skill" ++ dq ++ ">");
        Sub skill;
        Lit "</span>" ])
      skillsList
    ++ [ Lit (lines
        [ "";
          "            </div>";
          "        </section>";
          "";
          "        " ]) ]
    ++ when (truthy (services data))
      ([ Lit (lines
          [ "";
            "        <section>";
            "            <h2>Services</h2>";
            "            <div class=" ++ dq ++ "section-content" ++ dq ++ ">" ]);
        Sub (toString (services data));
        Lit (lines
          [ "</div>";
            "        </section>";
            "        " ]) ])
    ++ [ Lit (lines
        [ "";
          "";
          "        " ]) ]
    ++ when (truthy (testimonials data))
      ([ Lit (lines
          [ "";
            "        <section>";
            "            <h2>Testimonials</h2>";
            "            <div class=" ++ dq ++ "section-content" ++ dq ++ " style=" ++ dq ++ "font-style: italic;" ++ dq ++ ">" ]);
        Sub (toString (testimonials data));
        Lit (lines
          [ "</div>";
            "        </section>";
            "        " ]) ])
    ++ [ Lit (lines
        [ "";
          "";
          "        <section>";
          "            <h2>Connect With Me</h2>";
          "            <div class=" ++ dq ++ "social-links" ++ dq ++ ">";
          "                " ]) ]
    ++ when (truthy (instagram data))
      ([ Lit ("<a href=" ++ dq);
        Sub (toString (instagram data));
        Lit (dq ++ " target=" ++ dq ++ "_blank" ++ dq ++ "><i class=" ++ dq ++ "fab fa-instagram" ++ dq ++ "></i></a>") ])
    ++ [ Lit (lines
        [ "";
          "                " ]) ]
    ++ when (truthy (youtube data))
      ([ Lit ("<a href=" ++ dq);
        Sub (toString (youtube data));
        Lit (dq ++ " target=" ++ dq ++ "_blank" ++ dq ++ "><i class=" ++ dq ++ "fab fa-youtube" ++ dq ++ "></i></a>") ])
    ++ [ Lit (lines
        [ "";
          "                " ]) ]
    ++ when (truthy (tiktok data))
      ([ Lit ("<a href=" ++ dq);
        Sub (toString (tiktok data));
        Lit (dq ++ " target=" ++ dq ++ "_blank" ++ dq ++ "><i class=" ++ dq ++ "fab fa-tiktok" ++ dq ++ "></i></a>") ])
    ++ [ Lit (lines
        [ "";
          "                " ]) ]
    ++ when (truthy (facebook data))
      ([ Lit ("<a href=" ++ dq);
        Sub (toString (facebook data));
        Lit (dq ++ " target=" ++ dq ++ "_blank" ++ dq ++ "><i class=" ++ dq ++ "fab fa-facebook" ++ dq ++ "></i></a>") ])
    ++ [ Lit (lines
        [ "";
          "                " ]) ]
    ++ when (truthy (twitter data))
      ([ Lit ("<a href=" ++ dq);
        Sub (toString (twitter data));
        Lit (dq ++ " target=" ++ dq ++ "_blank" ++ dq ++ "><i class=" ++ dq ++ "fab fa-twitter" ++ dq ++ "></i></a>") ])
    ++ [ Lit (lines
        [ "";
          "                " ]) ]
    ++ when (truthy (website data))
      ([ Lit ("<a href=" ++ dq);
        Sub (toString (website data));
        Lit (dq ++ " target=" ++ dq ++ "_blank" ++ dq ++ "><i class=" ++ dq ++ "fas fa-globe" ++ dq ++ "></i></a>") ])
    ++ [ Lit (lines
        [ "";
          "            </div>";
          "            <div style=" ++ dq ++ "margin-top: 1rem;" ++ dq ++ ">";
          "                <p>Email: <a href=" ++ dq ++ "mailto:" ]);
      Sub (toString (email data));
      Lit (dq ++ " style=" ++ dq ++ "color: var(--accent);" ++ dq ++ ">");
      Sub (toString (email data));
      Lit (lines
        [ "</a></p>";
          "                " ]) ]
    ++ when (truthy (phone data))
      ([ Lit "<p>Phone: ";
        Sub (toString (phone data));
        Lit "</p>" ])
    ++ [ Lit (lines
        [ "";
          "            </div>";
          "        </section>";
          "    </main>";
          "";
          "    <footer>";
          "        <p>&copy; " ]);
      Sub (numberToString (getFullYear now));
      Lit " ";
      Sub (toString (name data));
      Lit (lines
        [ ". All rights reserved.</p>";
          "    </footer>" ]) ].

Definition generateModernTemplate (now : Date)
    (data : ContentRecord) (skillsList : list string) (colors : Colors) : string :=
  render (generateModernTemplate_parts now data skillsList colors).

(** The template literal of [generateClassicTemplate]. *)
Definition generateClassicTemplate_parts (now : Date)
    (data : ContentRecord) (skillsList : list string) (colors : Colors) : list chunk :=
    [ Lit (lines
        [ "";
          "    <div class=" ++ dq ++ "container" ++ dq ++ ">";
          "        <header style=" ++ dq ++ "background: none; color: inherit; padding: 2rem 0; text-align: left; border-bottom: 2px solid var(--primary);" ++ dq ++ ">";
          "            <div style=" ++ dq ++ "display: flex; align-items: center; gap: 2rem;" ++ dq ++ ">";
          "                <img src=" ++ dq ++ "https://images.unsplash.com/photo-1583864697784-a0efc8379f70?ixlib=rb-4.0.3&auto=format&fit=crop&w=600&q=80" ++ dq ++ " ";
          "                     alt=" ++ dq ]);
      Sub (toString (name data));
      Lit (lines
        [ dq ++ " ";
          "                     style=" ++ dq ++ "width: 120px; height: 120px; border-radius: 50%; object-fit: cover; border: 3px solid var(--primary);" ++ dq ++ ">";
          "                <div>";
          "                    <h1 style=" ++ dq ++ "margin-bottom: 0.5rem;" ++ dq ++ ">" ]);
      Sub (toString (name data));
      Lit (lines
        [ "</h1>";
          "                    <h3 style=" ++ dq ++ "color: var(--primary); margin-bottom: 0.5rem;" ++ dq ++ ">" ]);
      Sub (toString (title data));
      Lit (lines
        [ "</h3>";
          "                    <p>" ]);
      Sub (or_else (location data) "");
      Lit (lines
        [ "</p>";
          "                </div>";
          "            </div>";
          "        </header>";
          "";
          "        <main style=" ++ dq ++ "display: grid; grid-template-columns: 2fr 1fr; gap: 3rem; margin-top: 2rem;" ++ dq ++ ">";
          "            <div>";
          "                <section>";
          "                    <h2>About Me</h2>";
          "                    <div class=" ++ dq ++ "section-content" ++ dq ++ ">" ]);
      Sub (toString (aboutMe data));
      Lit (lines
        [ "</div>";
          "                </section>";
          "";
          "                " ]) ]
    ++ when (truthy (jobs data))
      ([ Lit (lines
          [ "";
            "                <section>";
            "                    <h2>Experience</h2>";
            "                    <div class=" ++ dq ++ "section-content" ++ dq ++ ">" ]);
        Sub (toString (jobs data));
        Lit (lines
          [ "</div>";
            "                </section>";
            "                " ]) ])
    ++ [ Lit (lines
        [ "";
          "";
          "                " ]) ]
    ++ when (truthy (services data))
      ([ Lit (lines
          [ "";
            "                <section>";
            "                    <h2>Services</h2>";
            "                    <div class=" ++ dq ++ "section-content" ++ dq ++ ">" ]);
        Sub (toString (services data));
        Lit (lines
          [ "</div>";
            "                </section>";
            "                " ]) ])
    ++ [ Lit (lines
        [ "";
          "            </div>";
          "";
          "            <div>";
          "                <section>";
          "                    <h2>Contact</h2>";
          "                    <p><strong>Email:</strong><br><a href=" ++ dq ++ "mailto:" ]);
      Sub (toString (email data));
      Lit (dq ++ " style=" ++ dq ++ "color: var(--accent);" ++ dq ++ ">");
      Sub (toString (email data));
      Lit (lines
        [ "</a></p>";
          "                    " ]) ]
    ++ when (truthy (phone data))
      ([ Lit "<p><strong>Phone:</strong><br>";
        Sub (toString (phone data));
        Lit "</p>" ])
    ++ [ Lit (lines
        [ "";
          "                    ";
          "                    <div style=" ++ dq ++ "margin-top: 1rem;" ++ dq ++ ">";
          "                        <h3>Social Links</h3>";
          "                        <div class=" ++ dq ++ "social-links" ++ dq ++ ">";
          "                            " ]) ]
    ++ when (truthy (instagram data))
      ([ Lit ("<a href=" ++ dq);
        Sub (toString (instagram data));
        Lit (dq ++ " target=" ++ dq ++ "_blank" ++ dq ++ "><i class=" ++ dq ++ "fab fa-instagram" ++ dq ++ "></i></a>") ])
    ++ [ Lit (lines
        [ "";
          "                            " ]) ]
    ++ when (truthy (youtube data))
      ([ Lit ("<a href=" ++ dq);
        Sub (toString (youtube data));
        Lit (dq ++ " target=" ++ dq ++ "_blank" ++ dq ++ "><i class=" ++ dq ++ "fab fa-youtube" ++ dq ++ "></i></a>") ])
    ++ [ Lit (lines
        [ "";
          "                            " ]) ]
    ++ when (truthy (tiktok data))
      ([ Lit ("<a href=" ++ dq);
        Sub (toString (tiktok data));
        Lit (dq ++ " target=" ++ dq ++ "_blank" ++ dq ++ "><i class=" ++ dq ++ "fab fa-tiktok" ++ dq ++ "></i></a>") ])
    ++ [ Lit (lines
        [ "";
          "                        </div>";
          "                    </div>";
          "                </section>";
          "";
          "                <section>";
          "                    <h2>Skills</h2>";
          "                    <div class=" ++ dq ++ "skills" ++ dq ++ ">";
          "                        " ]) ]
    ++ flat_map (fun skill : string =>
      [ Lit ("<span class=" ++ dq ++ "skill" ++ dq ++ ">");
        Sub skill;
        Lit "</span>" ])
      skillsList
    ++ [ Lit (lines
        [ "";
          "                    </div>";
          "                </section>";
          "";
          "                " ]) ]
    ++ when (truthy (testimonials data))
      ([ Lit (lines
          [ "";
            "                <section>";
            "                    <h2>Testimonials</h2>";
            "                    <div class=" ++ dq ++ "section-content" ++ dq ++ " style=" ++ dq ++ "font-size: 0.9rem; font-style: italic;" ++ dq ++ ">" ]);
        Sub (toString (testimonials data));
        Lit (lines
          [ "</div>";
            "                </section>";
            "                " ]) ])
    ++ [ Lit (lines
        [ "";
          "            </div>";
          "        </main>";
          "    </div>";
          "";
          "    <footer>";
          "        <p>&copy; " ]);
      Sub (numberToString (getFullYear now));
      Lit " ";
      Sub (toString (name data));
      Lit (lines
        [ ". All rights reserved.</p>";
          "    </footer>" ]) ].

Definition generateClassicTemplate (now : Date)
    (data : ContentRecord) (skillsList : list string) (colors : Colors) : string :=
  render (generateClassicTemplate_parts now data skillsList colors).

(** The template literal of [generateArtisticTemplate]. *)
Definition generateArtisticTemplate_parts (now : Date)
    (data : ContentRecord) (skillsList : list string) (colors : Colors) : list chunk :=
    [ Lit (lines
        [ "";
          "    <header style=" ++ dq ++ "background: linear-gradient(135deg, " ]);
      Sub (toString (primary colors));
      Lit ", #540d6e, ";
      Sub (toString (accent colors));
      Lit (lines
        [ "); background-size: 400% 400%; animation: gradient 15s ease infinite; min-height: 100vh; display: flex; align-items: center; justify-content: center; text-align: center;" ++ dq ++ ">";
          "        <style>";
          "            @keyframes gradient {";
          "                0% { background-position: 0% 50%; }";
          "                50% { background-position: 100% 50%; }";
          "                100% { background-position: 0% 50%; }";
          "            }";
          "        </style>";
          "        <div class=" ++ dq ++ "container" ++ dq ++ ">";
          "            <img src=" ++ dq ++ "https://images.unsplash.com/photo-1583864697784-a0efc8379f70?ixlib=rb-4.0.3&auto=format&fit=crop&w=600&q=80" ++ dq ++ " ";
          "                 alt=" ++ dq ]);
      Sub (toString (name data));
      Lit (lines
        [ dq ++ " ";
          "                 class=" ++ dq ++ "profile-img" ++ dq;
          "                 style=" ++ dq ++ "border: 5px solid " ]);
      Sub (toString (accent colors));
      Lit (lines
        [ "; box-shadow: 0 0 30px rgba(255, 210, 63, 0.5);" ++ dq ++ ">";
          "            <h1 style=" ++ dq ++ "font-size: 3.5rem; text-shadow: 2px 2px 4px rgba(0,0,0,0.5);" ++ dq ++ ">" ]);
      Sub (toString (name data));
      Lit (lines
        [ "</h1>";
          "            <h3 style=" ++ dq ++ "font-size: 1.5rem; margin-bottom: 1rem;" ++ dq ++ ">" ]);
      Sub (toString (title data));
      Lit (lines
        [ "</h3>";
          "            <p style=" ++ dq ++ "font-size: 1.1rem;" ++ dq ++ ">" ]);
      Sub (toString (experience data));
      Lit " Artist • ";
      Sub (or_else (location data) "Creative Visionary");
      Lit (lines
        [ "</p>";
          "        </div>";
          "    </header>";
          "";
          "    <main class=" ++ dq ++ "container" ++ dq ++ ">";
          "        <section style=" ++ dq ++ "text-align: center; padding: 4rem 0;" ++ dq ++ ">";
          "            <h2 style=" ++ dq ++ "font-size: 2.5rem; margin-bottom: 2rem;" ++ dq ++ ">My Artistic Journey</h2>";
          "            <div class=" ++ dq ++ "section-content" ++ dq ++ " style=" ++ dq ++ "font-size: 1.1rem; line-height: 1.8; max-width: 800px; margin: 0 auto;" ++ dq ++ ">";
          "                " ]);
      Sub (toString (aboutMe data));
      Lit (lines
        [ "";
          "            </div>";
          "        </section>";
          "";
          "        " ]) ]
    ++ when (truthy (jobs data))
      ([ Lit (lines
          [ "";
            "        <section style=" ++ dq ++ "background: rgba(176, 38, 255, 0.1); padding: 3rem; border-radius: 20px; margin: 2rem 0;" ++ dq ++ ">";
            "            <h2 style=" ++ dq ++ "text-align: center; font-size: 2rem;" ++ dq ++ ">Performance History</h2>";
            "            <div class=" ++ dq ++ "section-content" ++ dq ++ " style=" ++ dq ++ "font-size: 1.1rem;" ++ dq ++ ">" ]);
        Sub (toString (jobs data));
        Lit (lines
          [ "</div>";
            "        </section>";
            "        " ]) ])
    ++ [ Lit (lines
        [ "";
          "";
          "        <section style=" ++ dq ++ "text-align: center;" ++ dq ++ ">";
          "            <h2 style=" ++ dq ++ "font-size: 2rem;" ++ dq ++ ">Artistic Skills</h2>";
          "            <div class=" ++ dq ++ "skills" ++ dq ++ " style=" ++ dq ++ "justify-content: center; margin-top: 2rem;" ++ dq ++ ">";
          "                " ]) ]
    ++ flat_map (fun skill : string =>
      [ Lit ("<span class=" ++ dq ++ "skill" ++ dq ++ " style=" ++ dq ++ "background: linear-gradient(135deg, ");
        Sub (toString (primary colors));
        Lit ", ";
        Sub (toString (accent colors));
        Lit ("); font-size: 1rem; padding: 0.75rem 1.5rem;" ++ dq ++ ">");
        Sub skill;
        Lit "</span>" ])
      skillsList
    ++ [ Lit (lines
        [ "";
          "            </div>";
          "        </section>";
          "";
          "        " ]) ]
    ++ when (truthy (testimonials data))
      ([ Lit (lines
          [ "";
            "        <section style=" ++ dq ++ "text-align: center; padding: 4rem 0;" ++ dq ++ ">";
            "            <h2 style=" ++ dq ++ "font-size: 2rem;" ++ dq ++ ">Voices of Appreciation</h2>";
            "            <div class=" ++ dq ++ "section-content" ++ dq ++ " style=" ++ dq ++ "font-style: italic; font-size: 1.1rem; max-width: 800px; margin: 0 auto; background: rgba(255, 210, 63, 0.1); padding: 2rem; border-radius: 15px;" ++ dq ++ ">";
            "                " ]);
        Sub (toString (testimonials data));
        Lit (lines
          [ "";
            "            </div>";
            "        </section>";
            "        " ]) ])
    ++ [ Lit (lines
        [ "";
          "";
          "        <section style=" ++ dq ++ "text-align: center; padding: 3rem 0;" ++ dq ++ ">";
          "            <h2 style=" ++ dq ++ "font-size: 2rem;" ++ dq ++ ">Let's Create Together</h2>";
          "            <div class=" ++ dq ++ "social-links" ++ dq ++ " style=" ++ dq ++ "justify-content: center; margin: 2rem 0;" ++ dq ++ ">";
          "                " ]) ]
    ++ when (truthy (instagram data))
      ([ Lit ("<a href=" ++ dq);
        Sub (toString (instagram data));
        Lit (dq ++ " target=" ++ dq ++ "_blank" ++ dq ++ " style=" ++ dq ++ "font-size: 2rem; margin: 0 1rem;" ++ dq ++ "><i class=" ++ dq ++ "fab fa-instagram" ++ dq ++ "></i></a>") ])
    ++ [ Lit (lines
        [ "";
          "                " ]) ]
    ++ when (truthy (youtube data))
      ([ Lit ("<a href=" ++ dq);
        Sub (toString (youtube data));
        Lit (dq ++ " target=" ++ dq ++ "_blank" ++ dq ++ " style=" ++ dq ++ "font-size: 2rem; margin: 0 1rem;" ++ dq ++ "><i class=" ++ dq ++ "fab fa-youtube" ++ dq ++ "></i></a>") ])
    ++ [ Lit (lines
        [ "";
          "                " ]) ]
    ++ when (truthy (tiktok data))
      ([ Lit ("<a href=" ++ dq);
        Sub (toString (tiktok data));
        Lit (dq ++ " target=" ++ dq ++ "_blank" ++ dq ++ " style=" ++ dq ++ "font-size: 2rem; margin: 0 1rem;" ++ dq ++ "><i class=" ++ dq ++ "fab fa-tiktok" ++ dq ++ "></i></a>") ])
    ++ [ Lit (lines
        [ "";
          "            </div>";
          "            <div>";
          "                <p style=" ++ dq ++ "font-size: 1.1rem;" ++ dq ++ ">Email: <a href=" ++ dq ++ "mailto:" ]);
      Sub (toString (email data));
      Lit (dq ++ " style=" ++ dq ++ "color: var(--accent); font-weight: bold;" ++ dq ++ ">");
      Sub (toString (email data));
      Lit (lines
        [ "</a></p>";
          "                " ]) ]
    ++ when (truthy (phone data))
      ([ Lit ("<p style=" ++ dq ++ "font-size: 1.1rem;" ++ dq ++ ">Phone: ");
        Sub (toString (phone data));
        Lit "</p>" ])
    ++ [ Lit (lines
        [ "";
          "            </div>";
          "        </section>";
          "    </main>";
          "";
          "    <footer style=" ++ dq ++ "background: rgba(10, 10, 18, 0.8); padding: 2rem 0;" ++ dq ++ ">";
          "        <p>&copy; " ]);
      Sub (numberToString (getFullYear now));
      Lit " ";
      Sub (toString (name data));
      Lit (lines
        [ ". All artistic rights reserved.</p>";
          "    </footer>" ]) ].

Definition generateArtisticTemplate (now : Date)
    (data : ContentRecord) (skillsList : list string) (colors : Colors) : string :=
  render (generateArtisticTemplate_parts now data skillsList colors).

(** The [switch (template)] statement: the cases compare with [===], so
    only the three strings select their own template. *)
Definition switch_template (now : Date) (template : jsval)
    (data : ContentRecord) (skillsList : list string) (colors : Colors) : string :=
  match template with
  | JStr t =>
      if String.eqb t "modern" then generateModernTemplate now data skillsList colors
      else if String.eqb t "classic" then generateClassicTemplate now data skillsList colors
      else if String.eqb t "artistic" then generateArtisticTemplate now data skillsList colors
      else generateModernTemplate now data skillsList colors
  | _ => generateModernTemplate now data skillsList colors
  end.

(** The template literal that [generatePortfolioHTML] returns: the document
    around the body [html] of the chosen template. *)
Definition document_parts (data : ContentRecord) (colors : Colors) (html : string) : list chunk :=
    [ Lit (lines
        [ "<!DOCTYPE html>";
          "<html lang=" ++ dq ++ "en" ++ dq ++ ">";
          "<head>";
          "    <meta charset=" ++ dq ++ "UTF-8" ++ dq ++ ">";
          "    <meta name=" ++ dq ++ "viewport" ++ dq ++ " content=" ++ dq ++ "width=device-width, initial-scale=1.0" ++ dq ++ ">";
          "    <title>" ]);
      Sub (toString (name data));
      Lit " - ";
      Sub (toString (title data));
      Lit (lines
        [ "</title>";
          "    <link rel=" ++ dq ++ "stylesheet" ++ dq ++ " href=" ++ dq ++ "https://cdnjs.cloudflare.com/ajax/libs/font-awesome/6.4.0/css/all.min.css" ++ dq ++ ">";
          "    <link href=" ++ dq ++ "https://fonts.googleapis.com/css2?family=Poppins:wght@400;600&family=Montserrat:wght@700&display=swap" ++ dq ++ " rel=" ++ dq ++ "stylesheet" ++ dq ++ ">";
          "    <style>";
          "        :root {";
          "            --primary: " ]);
      Sub (toString (primary colors));
      Lit (lines
        [ ";";
          "            --accent: " ]);
      Sub (toString (accent colors));
      Lit (lines
        [ ";";
          "            --background: " ]);
      Sub (toString (background colors));
      Lit (lines
        [ ";";
          "            --light: #f5f5f7;";
          "            --text-gray: #a1a1a6;";
          "        }";
          "        * { margin: 0; padding: 0; box-sizing: border-box; }";
          "        body {";
          "            font-family: 'Poppins', sans-serif;";
          "            background-color: var(--background);";
          "            color: var(--light);";
          "            line-height: 1.6;";
          "        }";
          "        .container { max-width: 1200px; margin: 0 auto; padding: 0 20px; }";
          "        header {";
          "            background: linear-gradient(135deg, var(--primary), var(--accent));";
          "            color: white;";
          "            padding: 4rem 0;";
          "            text-align: center;";
          "        }";
          "        .profile-img {";
          "            width: 180px;";
          "            height: 180px;";
          "            border-radius: 50%;";
          "            object-fit: cover;";
          "            border: 5px solid var(--accent);";
          "            margin-bottom: 2rem;";
          "        }";
          "        h1 { font-family: 'Montserrat', sans-serif; font-size: 2.5rem; margin-bottom: 1rem; }";
          "        h2 { color: var(--accent); margin: 2rem 0 1rem; }";
          "        section { padding: 2rem 0; }";
          "        .skills { display: flex; flex-wrap: wrap; gap: 10px; }";
          "        .skill {";
          "            background: var(--primary);";
          "            color: white;";
          "            padding: 0.5rem 1rem;";
          "            border-radius: 20px;";
          "            font-size: 0.9rem;";
          "        }";
          "        .social-links { display: flex; gap: 15px; margin-top: 1rem; }";
          "        .social-links a {";
          "            color: var(--accent);";
          "            font-size: 1.5rem;";
          "            text-decoration: none;";
          "            transition: color 0.3s;";
          "        }";
          "        .social-links a:hover {";
          "            color: var(--primary);";
          "        }";
          "        footer { text-align: center; padding: 2rem 0; color: var(--text-gray); }";
          "        .section-content { white-space: pre-line; }";
          "    </style>";
          "</head>";
          "<body>";
          "    " ]);
      Sub html;
      Lit (lines
        [ "";
          "</body>";
          "</html>" ]) ].

(** [generatePortfolioHTML(data, template, customizations = {})].  The
    constant [year] that the function computes first is never used; the
    year of the footer is read by the template functions themselves. *)
Definition generatePortfolioHTML (now : Date) (data : ContentRecord) (template : jsval)
    (customizations : option Customizations) : result string :=
  match skillsListOf (skills data) with
  | Raise e => Raise e
  | Ok skillsList =>
      let colors := resolveColors customizations in
      let html := switch_template now template data skillsList colors in
      Ok (render (document_parts data colors html))
  end.

End Html.

(** ** The MongoDB variant: the PDF composer *)

Module Pdf.

Local Open Scope float_scope.

(** What the route takes from outside its own file: PDFKit's page size,
    its text measurement and the height of a line of text (which depend on
    the font size in force), and the string method [toUpperCase]. *)
Class Runtime : Type := {
  pageWidth : float;
  pageHeight : float;
  widthOfString : float -> string -> float;
  currentLineHeight : float -> float;
  toUpperCase : string -> string
}.

(** A colour argument: a name or hex string, or an array [[r, g, b]]. *)
Inductive color : Type :=
| Named (s : string)
| Channels (r g b : number).

Definition channels (c : rgb) : color := Channels (r c) (g c) (b c).

(** The options object of [text]. *)
Record TextOptions : Type := mkOptions {
  align : option string;
  width : option float
}.

Definition noOptions : TextOptions := mkOptions None None.

(** A vertical position: a number, or the document's own cursor [doc.y]. *)
Inductive ypos : Type :=
| At (y : float)
| DocY.

(** The calls the route makes on the document: [pipe] to the stream of
    the file of the given name, the drawing calls, [end], and [on] for the
    listener of the ['end'] event. *)
Inductive call : Type :=
| Pipe (file : string)
| Rect (x y w h : float)
| Fill (c : color)
| FontSize (size : float)
| FillColor (c : color)
| Text (s : string) (x : float) (y : ypos) (options : TextOptions)
| MoveDown (n : float)
| AddPage
| End
| OnEnd.

Record Info : Type := mkInfo {
  Title : string;
  Author : string;
  Subject : string
}.

(** The document: its [info], the calls received so far, in order, and the
    font size in force. *)
Record Document : Type := mkDocument {
  info : Info;
  calls : list call;
  currentFontSize : float
}.

(** [new PDFDocument({ margin: 50, size: 'A4', info })]: one page, the
    default font size. *)
Definition newDocument (info : Info) : Document := mkDocument info [] 12.

(** Drawing code: it reads and updates the document. *)
Definition Draw (A : Type) : Type := Document -> A * Document.

Definition ret {A : Type} (a : A) : Draw A := fun doc => (a, doc).

Definition bind {A B : Type} (m : Draw A) (k : A -> Draw B) : Draw B :=
  fun doc => let (a, doc') := m doc in k a doc'.

Notation "x <- m ;; k" := (bind m (fun x => k))
  (at level 61, m at next level, right associativity).
Notation "m ;; k" := (bind m (fun _ => k))
  (at level 61, right associativity).

Definition record (c : call) : Draw unit :=
  fun doc => (tt, mkDocument (info doc) (calls doc ++ [c]) (currentFontSize doc)).

Definition doc_fontSize (size : float) : Draw unit :=
  fun doc => (tt, mkDocument (info doc) (calls doc ++ [FontSize size]) size).

Definition doc_widthOfString `{Runtime} (s : string) : Draw float :=
  fun doc => (widthOfString (currentFontSize doc) s, doc).

Definition whenM (cond : bool) (m : Draw unit) : Draw unit :=
  if cond then m else ret tt.

(** [array.forEach(f)] *)
Fixpoint forEach {A : Type} (f : A -> Draw unit) (items : list A) : Draw unit :=
  match items with
  | [] => ret tt
  | item :: rest => f item ;; forEach f rest
  end.

(** [array.forEach(f)] where [f] updates local variables of the enclosing
    function, here carried as [vars]. *)
Fixpoint forEachWith {A V : Type} (f : V -> A -> Draw V) (vars : V) (items : list A) : Draw V :=
  match items with
  | [] => ret vars
  | item :: rest => vars' <- f vars item ;; forEachWith f vars' rest
  end.

(** An optional string property of a stored document. *)
Definition present (v : option string) : bool :=
  match v with
  | Some s => negb (String.eqb s "")
  | None => false
  end.

Record Location : Type := mkLocation {
  city : option string;
  country : option string
}.

Record Artist : Type := mkArtist {
  name : string;
  email : string;
  bio : option string;
  category : option string;
  experience : option string;
  genres : option (list string);
  location : option Location;
  socialLinks : option (list (string * option string))
}.

Module Sec.
Record t : Type := mk {
  type : string;
  title : option string;
  content : option string;
  order : option Z
}.
End Sec.

Record Colors : Type := mkColors {
  primary : jsval;
  accent : jsval
}.

Record Customizations : Type := mkCustomizations {
  colors : option Colors
}.

Record Portfolio : Type := mkPortfolio {
  _id : string;
  artist : Artist;
  title : string;
  description : option string;
  sections : list Sec.t;
  customizations : option Customizations
}.

Definition defaultColors : Colors := mkColors (JStr "#B026FF") (JStr "#FFD23F").

(** [portfolio.customizations?.colors || { primary: ..., accent: ... }] *)
Definition resolveColors (customizations : option Customizations) : Colors :=
  match customizations with
  | Some c =>
      match colors c with
      | Some cs => cs
      | None => defaultColors
      end
  | None => defaultColors
  end.

(** A path of the schema declared [{ type: String, default: d }]: a
    document that mongoose builds from a stored record has the default
    where the record leaves the path out. *)
Definition schemaDefault (d : string) (stored : jsval) : jsval :=
  match stored with
  | JUndefined => JStr d
  | _ => stored
  end.

(** [customizations.colors] of the portfolio schema, of which the route
    reads [primary] and [accent].  The nested objects [customizations] and
    [colors] are there in every document that mongoose builds. *)
Definition schemaCustomizations (stored : option Customizations) : Customizations :=
  let cs :=
    match stored with
    | Some (mkCustomizations (Some cs)) => cs
    | _ => mkColors JUndefined JUndefined
    end in
  mkCustomizations
    (Some (mkColors (schemaDefault "#B026FF" (primary cs))
                    (schemaDefault "#FFD23F" (accent cs)))).

(** The document that mongoose builds from a stored portfolio. *)
Definition hydrate (stored : Portfolio) : Portfolio :=
  mkPortfolio (_id stored) (artist stored) (title stored) (description stored)
              (sections stored) (Some (schemaCustomizations (customizations stored))).

(** [s.replace('_', ' ')]: a string pattern replaces its first occurrence. *)
Fixpoint replaceFirstUnderscore (s : string) : string :=
  match s with
  | EmptyString => EmptyString
  | String c rest =>
      if Ascii.eqb c "_"%char then String " "%char rest
      else String c (replaceFirstUnderscore rest)
  end.

(** [category?.replace('_', ' ').toUpperCase() || 'CREATIVE PROFESSIONAL'] *)
Definition categoryLabel `{Runtime} (category : option string) : string :=
  match category with
  | Some s =>
      let label := toUpperCase (replaceFirstUnderscore s) in
      if String.eqb label "" then "CREATIVE PROFESSIONAL" else label
  | None => "CREATIVE PROFESSIONAL"
  end.

(** [`${experience?.toUpperCase()} LEVEL`] *)
Definition experienceLabel `{Runtime} (experience : option string) : string :=
  match experience with
  | Some s => toUpperCase s ++ " LEVEL"
  | None => "undefined LEVEL"
  end.

(** [(section.title || section.type).toUpperCase()] *)
Definition sectionLabel `{Runtime} (section : Sec.t) : string :=
  toUpperCase (if present (Sec.title section)
               then match Sec.title section with Some s => s | None => "" end
               else Sec.type section).

(** [[city, country].filter(Boolean).join(', ')] *)
Definition locationLine (l : Location) : string :=
  String.concat ", "
    (flat_map (fun v : option string =>
                 match v with
                 | Some s => if String.eqb s "" then [] else [s]
                 | None => []
                 end)
              [city l; country l]).

(** The number of bytes of the character that a byte opens in UTF-8 when
    that character is a single unit of a JavaScript string (a code point
    below 0x10000); [0] for the four-byte characters, which make two
    units. *)
Definition unitBytes (lead : ascii) : nat :=
  let n := N_of_ascii lead in
  if (n <? 224)%N then (if (n <? 192)%N then 1%nat else 2%nat)
  else if (n <? 240)%N then 3%nat
  else 0%nat.

(** [platform.charAt(0).toUpperCase() + platform.slice(1)].  [charAt(0)]
    is the first unit of the string.  When the first character makes two
    units, [charAt(0)] is its first half, which [toUpperCase] leaves as it
    is, and the sum is the string itself. *)
Definition capitalize `{Runtime} (platform : string) : string :=
  match platform with
  | EmptyString => toUpperCase ""
  | String lead _ =>
      match unitBytes lead with
      | O => platform
      | n =>
          toUpperCase (substring 0 n platform)
          ++ substring n (String.length platform - n) platform
      end
  end.

Section Compose.

Context `{Runtime}.

Definition center : TextOptions := mkOptions (Some "center") None.

Definition justified : TextOptions := mkOptions (Some "justify") (Some (pageWidth - 100)).

(** The cover, drawn on the page the document starts with. *)
Definition coverPage (portfolio : Portfolio) (primaryRgb accentRgb : rgb) : Draw unit :=
  record (Rect 0 0 pageWidth 200) ;;
  record (Fill (channels primaryRgb)) ;;
  doc_fontSize 32 ;;
  record (FillColor (Named "white")) ;;
  record (Text (name (artist portfolio)) 50 (At 80) center) ;;
  doc_fontSize 18 ;;
  record (Text (categoryLabel (category (artist portfolio))) 50 (At 120) center) ;;
  doc_fontSize 14 ;;
  record (Text (experienceLabel (experience (artist portfolio))) 50 (At 145) center) ;;
  record (Rect 50 180 (pageWidth - 100) 3) ;;
  record (Fill (channels accentRgb)) ;;
  doc_fontSize 24 ;;
  record (FillColor (channels primaryRgb)) ;;
  record (Text (title portfolio) 50 (At 220) noOptions) ;;
  record (MoveDown 1) ;;
  whenM (present (description portfolio))
    (doc_fontSize 12 ;;
     record (FillColor (Named "#333333")) ;;
     record (Text (match description portfolio with Some s => s | None => "" end)
                  50 DocY justified) ;;
     record (MoveDown 2)).

Definition aboutPage (portfolio : Portfolio) (accentRgb : rgb) : Draw unit :=
  whenM (present (bio (artist portfolio)))
    (record AddPage ;;
     record (Rect 50 50 (pageWidth - 100) 40) ;;
     record (Fill (channels accentRgb)) ;;
     doc_fontSize 18 ;;
     record (FillColor (Named "white")) ;;
     record (Text "ABOUT THE ARTIST" 60 (At 65) noOptions) ;;
     doc_fontSize 12 ;;
     record (FillColor (Named "#333333")) ;;
     record (Text (match bio (artist portfolio) with Some s => s | None => "" end)
                  50 (At 110) justified)).

(** The body of [portfolio.sections.forEach]. *)
Definition sectionPage (accentRgb : rgb) (section : Sec.t) : Draw unit :=
  record AddPage ;;
  record (Rect 50 50 (pageWidth - 100) 40) ;;
  record (Fill (channels accentRgb)) ;;
  doc_fontSize 18 ;;
  record (FillColor (Named "white")) ;;
  record (Text (sectionLabel section) 60 (At 65) noOptions) ;;
  whenM (present (Sec.content section))
    (doc_fontSize 12 ;;
     record (FillColor (Named "#333333")) ;;
     record (Text (match Sec.content section with Some s => s | None => "" end)
                  50 (At 110) justified)).

(** The body of [portfolio.artist.genres.forEach]; the pair is
    [(skillX, skillY)]. *)
Definition skillChip (primaryRgb : rgb) (cursor : float * float) (genre : string) :
    Draw (float * float) :=
  let (skillX, skillY) := cursor in
  measured <- doc_widthOfString genre ;;
  let skillWidth := measured + 20 in
  let (skillX, skillY) :=
    if pageWidth - 50 <? skillX + skillWidth
    then (50, skillY + 35)
    else (skillX, skillY) in
  record (Rect skillX skillY skillWidth 25) ;;
  record (Fill (channels primaryRgb)) ;;
  doc_fontSize 10 ;;
  record (FillColor (Named "white")) ;;
  record (Text genre (skillX + 10) (At (skillY + 8)) noOptions) ;;
  ret (skillX + (skillWidth + 10), skillY).

Definition skillsPage (portfolio : Portfolio) (primaryRgb accentRgb : rgb) : Draw unit :=
  match genres (artist portfolio) with
  | Some (genre :: others) =>
      record AddPage ;;
      record (Rect 50 50 (pageWidth - 100) 40) ;;
      record (Fill (channels accentRgb)) ;;
      doc_fontSize 18 ;;
      record (FillColor (Named "white")) ;;
      record (Text "SKILLS & SPECIALTIES" 60 (At 65) noOptions) ;;
      forEachWith (skillChip primaryRgb) (50, 120) (genre :: others) ;;
      ret tt
  | _ => ret tt
  end.

(** The body of [Object.entries(socialLinks).forEach]; the variable is
    [contactY]. *)
Definition socialLine (contactY : float) (entry : string * option string) : Draw float :=
  let (platform, url) := entry in
  if present url then
    doc_fontSize 12 ;;
    record (FillColor (Named "#0066cc")) ;;
    record (Text (capitalize platform ++ ": " ++ match url with Some s => s | None => "" end)
                 50 (At contactY) noOptions) ;;
    ret (contactY + 20)
  else ret contactY.

Definition contactPage (now : Date) (portfolio : Portfolio) (primaryRgb accentRgb : rgb) : Draw unit :=
  record AddPage ;;
  record (Rect 50 50 (pageWidth - 100) 40) ;;
  record (Fill (channels accentRgb)) ;;
  doc_fontSize 18 ;;
  record (FillColor (Named "white")) ;;
  record (Text "CONTACT INFORMATION" 60 (At 65) noOptions) ;;
  let contactY := 120 in
  doc_fontSize 14 ;;
  record (FillColor (channels primaryRgb)) ;;
  record (Text "Email:" 50 (At contactY) noOptions) ;;
  doc_fontSize 12 ;;
  record (FillColor (Named "#333333")) ;;
  record (Text (email (artist portfolio)) 50 (At (contactY + 20)) noOptions) ;;
  let contactY := contactY + 50 in
  contactY <-
    match location (artist portfolio) with
    | Some l =>
        if present (city l) || present (country l) then
          doc_fontSize 14 ;;
          record (FillColor (channels primaryRgb)) ;;
          record (Text "Location:" 50 (At contactY) noOptions) ;;
          doc_fontSize 12 ;;
          record (FillColor (Named "#333333")) ;;
          record (Text (locationLine l) 50 (At (contactY + 20)) noOptions) ;;
          ret (contactY + 50)
        else ret contactY
    | None => ret contactY
    end ;;
  match socialLinks (artist portfolio) with
  | Some links =>
      doc_fontSize 14 ;;
      record (FillColor (channels primaryRgb)) ;;
      record (Text "Connect Online:" 50 (At contactY) noOptions) ;;
      forEachWith socialLine (contactY + 25) links ;;
      ret tt
  | None => ret tt
  end ;;
  doc_fontSize 8 ;;
  record (FillColor (Named "#666666")) ;;
  record (Text ("Generated by KatikaNaMe Platform â€¢ " ++ toLocaleDateString now)
               50 (At (pageHeight - 30))
               (mkOptions (Some "center") (Some (pageWidth - 100)))).

(** Everything the route draws between piping the document and ending
    it, and [doc.end()]. *)
Definition drawPortfolio (now : Date) (portfolio : Portfolio) : Draw unit :=
  let colors := resolveColors (customizations portfolio) in
  let primaryRgb := hexToRgb (toString (primary colors)) in
  let accentRgb := hexToRgb (toString (accent colors)) in
  coverPage portfolio primaryRgb accentRgb ;;
  aboutPage portfolio accentRgb ;;
  forEach (sectionPage accentRgb) (sections portfolio) ;;
  skillsPage portfolio primaryRgb accentRgb ;;
  contactPage now portfolio primaryRgb accentRgb ;;
  record End.

(** [`portfolio-${portfolio._id}-${Date.now()}.pdf`] *)
Definition filename (now : Date) (portfolio : Portfolio) : string :=
  "portfolio-" ++ _id portfolio ++ "-" ++ numberToString (getTime now) ++ ".pdf".

(** What [Portfolio.findById(id).populate('artist')] yields: nothing, a
    portfolio whose artist reference resolves to no artist, or a portfolio
    with its artist. *)
Inductive lookup : Type :=
| Missing
| Orphan
| Found (portfolio : Portfolio).

(** What a request to the route leads to: an error answer with its status,
    or a file of the given name holding the document drawn. *)
Inductive outcome : Type :=
| Failed (status : Z) (error : string)
| Generated (file : string) (doc : Document).

(** The route.  Reading [portfolio.artist.name] of a portfolio without
    artist raises, and the [catch] block answers 500.  The document is
    piped to its file before anything is drawn, and the listener that
    answers the request is registered after [doc.end()]. *)
Definition generatePdf (now : Date) (found : lookup) : outcome :=
  match found with
  | Missing => Failed 404 "Portfolio not found"
  | Orphan => Failed 500 "Cannot read properties of null (reading 'name')"
  | Found portfolio =>
      let doc :=
        newDocument (mkInfo (title portfolio) (name (artist portfolio))
                            "Professional Portfolio") in
      Generated (filename now portfolio)
                (snd ((record (Pipe (filename now portfolio)) ;;
                       drawPortfolio now portfolio ;;
                       record OnEnd) doc))
  end.

End Compose.

End Pdf.

(** ** The MongoDB variant: the categories of the artist schema *)

(** The [enum] of [category] in [artistSchema]. *)
Definition categoryEnum : list string :=
  [ "dancer"; "musician"; "visual_artist"; "multi_disciplinary" ].

(** ** The file-backed variant: the PDF file of a portfolio *)

(** [`${portfolio.id}.pdf`], joined to the directory [generated/pdfs]. *)
Definition pdfFilePath (id : string) : string :=
  "generated/pdfs/" ++ id ++ ".pdf".

(** ** The file-backed variant: uploads *)

Module Upload.

(** [s.startsWith(prefix)] *)
Fixpoint startsWith (s prefix : string) {struct prefix} : bool :=
  match prefix with
  | EmptyString => true
  | String p prefix' =>
      match s with
      | EmptyString => false
      | String c s' => Ascii.eqb c p && startsWith s' prefix'
      end
  end.

(** What multer tells the handlers about a file: its type and the name
    it had on the client. *)
Record File : Type := mkFile {
  mimetype : string;
  originalname : string
}.

(** The directories that [ensureDirectories] creates. *)
Definition dirs : list string :=
  [ "uploads/images"; "uploads/videos"; "uploads/pdfs";
    "generated/portfolios"; "generated/pdfs"; "data" ].

(** The [destination] handler: the path it passes to its callback. *)
Definition destination (file : File) : string :=
  let uploadPath := "uploads/" in
  if startsWith (mimetype file) "image/" then uploadPath ++ "images/"
  else if startsWith (mimetype file) "video/" then uploadPath ++ "videos/"
  else uploadPath ++ "pdfs/".

(** The [fileFilter] handler: it accepts the file, or passes an error. *)
Definition fileFilter (file : File) : result bool :=
  if startsWith (mimetype file) "image/"
     || startsWith (mimetype file) "video/"
     || String.eqb (mimetype file) "application/pdf"
  then Ok true
  else Raise "Invalid file type. Only images, videos, and PDFs are allowed.".

End Upload.

(** ** The MongoDB variant: the upload filter *)

Module MongoUpload.

Definition allowedTypes : list string :=
  [ "image/jpeg"; "image/png"; "image/gif"; "video/mp4"; "application/pdf" ].

(** [fileFilter]: [allowedTypes.includes(file.mimetype)] decides. *)
Definition fileFilter (file : Upload.File) : result bool :=
  if existsb (String.eqb (Upload.mimetype file)) allowedTypes
  then Ok true
  else Raise "Invalid file type. Only images, videos, and PDFs are allowed.".

End MongoUpload.

(** ** The file-backed variant: the routes

    The server keeps its artists and portfolios in two arrays, writes each
    array to a JSON file when it grows, and writes one HTML file for each
    portfolio.  A route is modelled as a function from the state before
    the request to the answer and the state after it.  What a route takes
    from outside the file is passed in: [JSON.parse], the identifier from
    [uuidv4()] and the dates.  The file system is taken to accept every
    write, a JSON file to hold what was last written to it, and the PDF
    printer to print every document it is given. *)

Module Server.

(** [JSON.parse], read at the type of the property that receives the
    value: the [genres] of an artist are what the composer later reads as
    [skills]; [location] and [socialLinks] are single values.  A text that
    is not JSON raises a [SyntaxError]. *)
Class Json : Type := {
  parseSkills : string -> result Html.skillsValue;
  parseValue : string -> result jsval
}.

(** A text field of a multipart form: absent, or a string. *)
Definition given (v : option string) : bool :=
  match v with
  | Some s => negb (String.eqb s "")
  | None => false
  end.

(** [v || d] *)
Definition orDefault (v : option string) (d : string) : string :=
  match v with
  | Some s => if String.eqb s "" then d else s
  | None => d
  end.

(** [v ? JSON.parse(v) : d] *)
Definition parseOr {A : Type} (parse : string -> result A) (v : option string) (d : A) :
    result A :=
  match v with
  | Some s => if String.eqb s "" then Ok d else parse s
  | None => Ok d
  end.

(** [v || d] on a value of a JSON body. *)
Definition valueOr (v : jsval) (d : jsval) : jsval :=
  if truthy v then v else d.

(** An entry of [req.files], and what the route keeps of it. *)
Module Uploaded.
Record t : Type := mk {
  filename : string;
  originalname : string;
  path : string;
  mimetype : string
}.
End Uploaded.

Module Kept.
Record t : Type := mk {
  filename : string;
  originalName : string;
  path : string;
  mimetype : string
}.
End Kept.

(** The body of [POST /api/artists]. *)
Module Form.
Record t : Type := mk {
  name : option string;
  email : option string;
  bio : option string;
  category : option string;
  experience : option string;
  genres : option string;
  location : option string;
  socialLinks : option string
}.
End Form.

Module Artist.
Record t : Type := mk {
  id : string;
  name : string;
  email : string;
  bio : string;
  category : string;
  experience : string;
  genres : Html.skillsValue;
  location : jsval;
  socialLinks : jsval;
  files : list Kept.t;
  createdAt : string;
  updatedAt : string
}.
End Artist.

(** The body of [POST /api/portfolios]: [sections] is absent or an array,
    [customizations] absent or an object. *)
Module Request.
Record t : Type := mk {
  artistId : jsval;
  template : jsval;
  title : jsval;
  description : jsval;
  sections : option (list jsval);
  customizations : option Html.Customizations
}.
End Request.

Module Portfolio.
Record t : Type := mk {
  id : string;
  artistId : jsval;
  template : jsval;
  title : jsval;
  description : jsval;
  sections : list jsval;
  customizations : Html.Customizations;
  createdAt : string;
  updatedAt : string;
  htmlUrl : option string;
  pdfUrl : option string
}.

(** [portfolio.htmlUrl = url] and [portfolio.pdfUrl = url] *)
Definition setHtmlUrl (url : string) (portfolio : t) : t :=
  mk (id portfolio) (artistId portfolio) (template portfolio) (title portfolio)
     (description portfolio) (sections portfolio) (customizations portfolio)
     (createdAt portfolio) (updatedAt portfolio) (Some url) (pdfUrl portfolio).

Definition setPdfUrl (url : string) (portfolio : t) : t :=
  mk (id portfolio) (artistId portfolio) (template portfolio) (title portfolio)
     (description portfolio) (sections portfolio) (customizations portfolio)
     (createdAt portfolio) (updatedAt portfolio) (htmlUrl portfolio) (Some url).
End Portfolio.

(** The two arrays, the two JSON files under [data] (which may not exist),
    the files under [generated/portfolios], by path, and the files under
    [generated/pdfs], each known by the HTML it was printed from. *)
Record State : Type := mkState {
  artists : list Artist.t;
  portfolios : list Portfolio.t;
  artistsJson : option (list Artist.t);
  portfoliosJson : option (list Portfolio.t);
  pages : string -> option string;
  pdfs : string -> option string
}.

(** What a request meets: the result of [uuidv4()], of the two
    [new Date().toISOString()], and the [new Date()] of the composer. *)
Record Env : Type := mkEnv {
  uuidv4 : string;
  createdNow : string;
  updatedNow : string;
  today : Date
}.

Inductive Body : Type :=
| Error (error : string)
| ArtistCreated (message : string) (artist : Artist.t)
| PortfolioCreated (message : string) (portfolio : Portfolio.t)
| ArtistList (all : list Artist.t)
| ArtistFound (artist : Artist.t)
| PortfolioFound (portfolio : Portfolio.t) (artist : option (string * string))
| PortfolioList (all : list (Portfolio.t * option (string * string)))
| PdfGenerated (message : string) (downloadUrl : string).

Record Response : Type := mkResponse {
  status : Z;
  body : Body
}.

(** [a.id === id], for the identifier of a path and for a value of a
    body. *)
Definition hasId (id : string) (artist : Artist.t) : bool :=
  String.eqb (Artist.id artist) id.

Definition sameId (id : jsval) (artist : Artist.t) : bool :=
  match id with
  | JStr s => String.eqb (Artist.id artist) s
  | _ => false
  end.

(** [fs.writeFile(path, content)] *)
Definition writeFile (path content : string) (pages : string -> option string) :
    string -> option string :=
  fun p => if String.eqb p path then Some content else pages p.

Section Routes.

Context `{Json}.

(** [POST /api/artists] *)
Definition createArtist (env : Env) (form : Form.t) (files : option (list Uploaded.t))
    (st : State) : Response * State :=
  if negb (given (Form.name form)) || negb (given (Form.email form)) then
    (mkResponse 400 (Error "Name and email are required"), st)
  else
    let failed := mkResponse 500 (Error "Failed to create artist profile") in
    match parseOr parseSkills (Form.genres form) (Html.SkArray []) with
    | Raise _ => (failed, st)
    | Ok genres =>
        match parseOr parseValue (Form.location form) JObj with
        | Raise _ => (failed, st)
        | Ok location =>
            match parseOr parseValue (Form.socialLinks form) JObj with
            | Raise _ => (failed, st)
            | Ok socialLinks =>
                let artist :=
                  Artist.mk (uuidv4 env)
                    (orDefault (Form.name form) "")
                    (orDefault (Form.email form) "")
                    (orDefault (Form.bio form) "")
                    (orDefault (Form.category form) "multi_disciplinary")
                    (orDefault (Form.experience form) "beginner")
                    genres location socialLinks
                    (match files with
                     | Some files =>
                         map (fun file =>
                                Kept.mk (Uploaded.filename file)
                                        (Uploaded.originalname file)
                                        (Uploaded.path file)
                                        (Uploaded.mimetype file))
                             files
                     | None => []
                     end)
                    (createdNow env) (updatedNow env) in
                let artists := (artists st ++ [artist])%list in
                (mkResponse 201
                   (ArtistCreated "Artist profile created successfully" artist),
                 mkState artists (portfolios st) (Some artists)
                         (portfoliosJson st) (pages st) (pdfs st))
            end
        end
    end.

(** [GET /api/artists] and [GET /api/artists/:id] *)
Definition getArtists (st : State) : Response :=
  mkResponse 200 (ArtistList (artists st)).

Definition getArtist (id : string) (st : State) : Response :=
  match find (hasId id) (artists st) with
  | Some artist => mkResponse 200 (ArtistFound artist)
  | None => mkResponse 404 (Error "Artist not found")
  end.

(** [{ ...artist, ...portfolio, skills: artist.genres }], as the composer
    reads it: of the properties it reads, the artist has [name],
    [experience], [location] and [email], the portfolio has [title], and
    [skills] is set; no object has the others. *)
Definition pageData (artist : Artist.t) (portfolio : Portfolio.t) : Html.ContentRecord :=
  Html.mkContent
    (JStr (Artist.name artist))
    (Portfolio.title portfolio)
    (JStr (Artist.experience artist))
    (Artist.location artist)
    JUndefined
    JUndefined
    (Artist.genres artist)
    JUndefined JUndefined
    JUndefined JUndefined JUndefined JUndefined JUndefined JUndefined
    (JStr (Artist.email artist))
    JUndefined.

(** [path.join('generated/portfolios', `${portfolio.id}.html`)] *)
Definition htmlFilePath (id : string) : string :=
  "generated/portfolios/" ++ id ++ ".html".

(** The object that [POST /api/portfolios] builds for an artist. *)
Definition newPortfolio (env : Env) (request : Request.t) (artist : Artist.t) :
    Portfolio.t :=
  Portfolio.mk (uuidv4 env)
    (Request.artistId request)
    (valueOr (Request.template request) (JStr "modern"))
    (valueOr (Request.title request) (JStr (Artist.name artist ++ " Portfolio")))
    (valueOr (Request.description request) (JStr (Artist.bio artist)))
    (match Request.sections request with
     | Some sections => sections
     | None => []
     end)
    (match Request.customizations request with
     | Some customizations => customizations
     | None => Html.mkCustomizations None
     end)
    (createdNow env) (updatedNow env) None None.

(** [POST /api/portfolios].  The object that is pushed on the array is the
    one that gets its [htmlUrl] in the end, after the array was written to
    its file. *)
Definition createPortfolio (env : Env) (request : Request.t) (st : State) :
    Response * State :=
  match find (sameId (Request.artistId request)) (artists st) with
  | None => (mkResponse 404 (Error "Artist not found"), st)
  | Some artist =>
      let failed := mkResponse 500 (Error "Failed to create portfolio") in
      let portfolio := newPortfolio env request artist in
      let pushed := (portfolios st ++ [portfolio])%list in
      match Html.generatePortfolioHTML (today env) (pageData artist portfolio)
              (Portfolio.template portfolio)
              (Some (Portfolio.customizations portfolio)) with
      | Raise _ =>
          (failed,
           mkState (artists st) pushed (artistsJson st) (Some pushed) (pages st) (pdfs st))
      | Ok htmlContent =>
          let htmlFilePath := htmlFilePath (Portfolio.id portfolio) in
          let portfolio' :=
            Portfolio.setHtmlUrl ("/portfolios/" ++ Portfolio.id portfolio ++ ".html")
                                 portfolio in
          (mkResponse 201 (PortfolioCreated "Portfolio created successfully" portfolio'),
           mkState (artists st) (portfolios st ++ [portfolio'])%list (artistsJson st)
                   (Some pushed)
                   (writeFile htmlFilePath htmlContent (pages st))
                   (pdfs st))
      end
  end.

(** [portfolio.pdfUrl = url] on the object that [find] returned: the first
    portfolio of the array that passes the test. *)
Fixpoint updateFirst {A : Type} (test : A -> bool) (change : A -> A) (l : list A) :
    list A :=
  match l with
  | [] => []
  | x :: rest =>
      if test x then change x :: rest else x :: updateFirst test change rest
  end.

Definition isPortfolio (id : string) (portfolio : Portfolio.t) : bool :=
  String.eqb (Portfolio.id portfolio) id.

(** [{ name: artist.name, email: artist.email }], or [null]. *)
Definition artistOf (portfolio : Portfolio.t) (st : State) : option (string * string) :=
  match find (sameId (Portfolio.artistId portfolio)) (artists st) with
  | Some artist => Some (Artist.name artist, Artist.email artist)
  | None => None
  end.

(** [POST /api/portfolios/:id/generate-pdf] *)
Definition generatePdf (env : Env) (id : string) (st : State) : Response * State :=
  match find (isPortfolio id) (portfolios st) with
  | None => (mkResponse 404 (Error "Portfolio not found"), st)
  | Some portfolio =>
      match find (sameId (Portfolio.artistId portfolio)) (artists st) with
      | None => (mkResponse 404 (Error "Artist not found"), st)
      | Some artist =>
          match Html.generatePortfolioHTML (today env) (pageData artist portfolio)
                  (Portfolio.template portfolio)
                  (Some (Portfolio.customizations portfolio)) with
          | Raise _ => (mkResponse 500 (Error "Failed to generate PDF"), st)
          | Ok htmlContent =>
              let pdfUrl := "/pdfs/" ++ Portfolio.id portfolio ++ ".pdf" in
              (mkResponse 200 (PdfGenerated "PDF generated successfully" pdfUrl),
               mkState (artists st)
                 (updateFirst (isPortfolio id) (Portfolio.setPdfUrl pdfUrl) (portfolios st))
                 (artistsJson st) (portfoliosJson st) (pages st)
                 (writeFile (pdfFilePath (Portfolio.id portfolio)) htmlContent (pdfs st)))
          end
      end
  end.

(** [GET /api/portfolios] *)
Definition getPortfolios (st : State) : Response :=
  mkResponse 200
    (PortfolioList (map (fun portfolio => (portfolio, artistOf portfolio st))
                        (portfolios st))).

(** [GET /api/portfolios/:id] *)
Definition getPortfolio (id : string) (st : State) : Response :=
  match find (isPortfolio id) (portfolios st) with
  | None => mkResponse 404 (Error "Portfolio not found")
  | Some portfolio => mkResponse 200 (PortfolioFound portfolio (artistOf portfolio st))
  end.

(** [loadInitialData]: each array is replaced by the content of its file
    when the file exists. *)
Definition loadInitialData (st : State) : State :=
  let artists :=
    match artistsJson st with
    | Some artists => artists
    | None => artists st
    end in
  let portfolios :=
    match portfoliosJson st with
    | Some portfolios => portfolios
    | None => portfolios st
    end in
  mkState artists portfolios (artistsJson st) (portfoliosJson st) (pages st) (pdfs st).

(** A new process: the arrays start empty, the files are as they were
    left, and [loadInitialData] runs. *)
Definition restart (st : State) : State :=
  loadInitialData
    (mkState [] [] (artistsJson st) (portfoliosJson st) (pages st) (pdfs st)).

End Routes.

End Server.

(** * The vocabulary of the statements

    What the properties below speak of: the specification's own notions
    (named [spec_...]), the markup looked for in a document, and the pages
    and calls of a drawn document. *)

(** ** Colours *)

(** A hexadecimal digit, as the specification means it. *)
Definition spec_hexDigit (c : ascii) : Prop :=
  In c (list_ascii_of_string "0123456789abcdefABCDEF").

(** A well-formed colour: six hexadecimal digits after an optional [#]. *)
Definition spec_wellFormedHex (hex : string) : Prop :=
  exists digits : list ascii,
    length digits = 6%nat
    /\ Forall spec_hexDigit digits
    /\ (hex = string_of_list_ascii digits
        \/ hex = String "#"%char (string_of_list_ascii digits)).

(** The two-digit hexadecimal writing of a channel, in either case. *)
Definition spec_hexByte (upper : bool) (n : Z) : string :=
  let digits :=
    list_ascii_of_string (if upper then "0123456789ABCDEF" else "0123456789abcdef") in
  let digit d := nth (Z.to_nat d) digits "0"%char in
  String (digit (n / 16)) (String (digit (n mod 16)) EmptyString).

Definition spec_hexColor (hash upper : bool) (r g b : Z) : string :=
  (if hash then "#" else "")
  ++ spec_hexByte upper r ++ spec_hexByte upper g ++ spec_hexByte upper b.

(** ** Templates and themes *)

(** The three rendering strategies, and the selector as the specification
    words it. *)
Inductive spec_strategy : Type := Modern | Classic | Artistic.

Definition spec_select (template : string) : spec_strategy :=
  if String.eqb template "classic" then Classic
  else if String.eqb template "artistic" then Artistic
  else Modern.

Definition spec_run (strategy : spec_strategy) :
    Date -> Html.ContentRecord -> list string -> Html.Colors -> string :=
  match strategy with
  | Modern => Html.generateModernTemplate
  | Classic => Html.generateClassicTemplate
  | Artistic => Html.generateArtisticTemplate
  end.

(** A theme with all three colours set. *)
Definition spec_populated (theme : Html.Colors) : Prop :=
  truthy (Html.primary theme) = true
  /\ truthy (Html.accent theme) = true
  /\ truthy (Html.background theme) = true.

(** What filling each gap on its own would give. *)
Definition spec_fillGaps (supplied : Html.Colors) : Html.Colors :=
  Html.mkColors
    (if truthy (Html.primary supplied)
     then Html.primary supplied else Html.primary Html.defaultColors)
    (if truthy (Html.accent supplied)
     then Html.accent supplied else Html.accent Html.defaultColors)
    (if truthy (Html.background supplied)
     then Html.background supplied else Html.background Html.defaultColors).

(** The colours that the stored record of a portfolio sets. *)
Definition spec_storedColors (stored : Pdf.Portfolio) : Pdf.Colors :=
  match Pdf.customizations stored with
  | Some (Pdf.mkCustomizations (Some supplied)) => supplied
  | _ => Pdf.mkColors JUndefined JUndefined
  end.

(** ** Markup in a document *)

(** [s] contains [needle]. *)
Definition contains (s needle : string) : Prop :=
  exists pre post, s = pre ++ needle ++ post.

(** [p] is a beginning of [s]. *)
Fixpoint prefixb (p s : string) : bool :=
  match p, s with
  | EmptyString, _ => true
  | String _ _, EmptyString => false
  | String a p', String b s' => Ascii.eqb a b && prefixb p' s'
  end.

(** [contains], as a test. *)
Fixpoint occurs (needle s : string) : bool :=
  prefixb needle s
  || match s with
     | EmptyString => false
     | String _ rest => occurs needle rest
     end.

(** The character [c] occurs in [s]. *)
Fixpoint memb (c : ascii) (s : string) : bool :=
  match s with
  | EmptyString => false
  | String x rest => Ascii.eqb x c || memb c rest
  end.

(** Some non-empty end of [l] is a proper beginning of [needle]: only then
    can an occurrence of [needle] start inside [l] and run past its end. *)
Fixpoint has_border (needle l : string) : bool :=
  match l with
  | EmptyString => false
  | String _ rest =>
      (prefixb l needle && Nat.ltb (String.length l) (String.length needle))
      || has_border needle rest
  end.

(** A literal part of the template contains [needle]. *)
Definition emits (needle : string) (cs : list Html.chunk) : bool :=
  existsb (fun c => match c with
                    | Html.Lit l => occurs needle l
                    | Html.Sub _ => false
                    end) cs.

(** No substituted text contains the character [<]. *)
Definition markup_free (cs : list Html.chunk) : bool :=
  forallb (fun c => match c with
                    | Html.Lit _ => true
                    | Html.Sub t => negb (memb "<"%char t)
                    end) cs.

(** No occurrence of [needle] can run past the end of a literal part. *)
Definition border_free (needle : string) (cs : list Html.chunk) : bool :=
  forallb (fun c => match c with
                    | Html.Lit l => negb (has_border needle l)
                    | Html.Sub _ => true
                    end) cs.

(** [t] is an end of [s]. *)
Fixpoint suffixb (t s : string) : bool :=
  String.eqb t s
  || match s with
     | EmptyString => false
     | String _ rest => suffixb t rest
     end.

(** One chip of the modern template, and its skills container around the
    chips. *)
Definition chip (skill : string) : string :=
  "<span class=" ++ dq ++ "skill" ++ dq ++ ">" ++ skill ++ "</span>".

Definition skillsOpen : string :=
  "<div class=" ++ dq ++ "skills" ++ dq ++ ">" ++ nl ++ "                ".

Definition skillsClose : string := nl ++ "            </div>".

Definition skillsBlock (chips : list string) : string :=
  skillsOpen ++ String.concat "" chips ++ skillsClose.

(** The About block of the modern template up to its body. *)
Definition aboutOpen : string :=
  "<h2>About Me</h2>" ++ nl
  ++ "            <div class=" ++ dq ++ "section-content" ++ dq ++ ">".

(** The markup of a heading, of a heading with a style, and of an icon. *)
Definition heading (text : string) : string := "<h2>" ++ text ++ "</h2>".

Definition styledHeading (style text : string) : string :=
  "<h2 style=" ++ dq ++ style ++ dq ++ ">" ++ text ++ "</h2>".

Definition icon (classes : string) : string :=
  "<i class=" ++ dq ++ classes ++ dq ++ "></i>".

(** The template writes [markup] exactly when [shown] holds; and so does
    the document it yields, as long as no substituted text brings markup
    of its own (substituted text is not escaped). *)
Definition section_rule (parts : list Html.chunk) (markup : string) (shown : bool) : Prop :=
  emits markup parts = shown
  /\ (markup_free parts = true ->
      (contains (Html.render parts) markup <-> shown = true)).

(** ** Drawn documents *)

Section PdfVocabulary.

Import Pdf.
Context `{Runtime}.
Local Open Scope float_scope.
Local Open Scope list_scope.

(** The document with the calls received so far forgotten. *)
Definition blank (doc : Document) : Document :=
  mkDocument (info doc) [] (currentFontSize doc).

(** The calls a piece of drawing code adds to a document. *)
Definition drawn {A : Type} (m : Draw A) (doc : Document) : list call :=
  calls (snd (m (blank doc))).

(** Drawing code only adds calls: what it returns, what it adds and the
    font size it leaves depend on the document through the font size in
    force alone. *)
Definition appends {A : Type} (m : Draw A) : Prop :=
  forall doc,
    m doc = (fst (m (blank doc)),
             mkDocument (info doc) (calls doc ++ drawn m doc)
                        (currentFontSize (snd (m (blank doc))))).

(** A chip as drawn: its text, its corner and its width. *)
Record placedChip : Type := mkPlaced {
  chipLabel : string;
  chipX : float;
  chipY : float;
  chipWidth : float
}.


(** The same layout as a function; [size] is the font size in force when
    the first chip is measured, and each chip leaves size 10 in force. *)
Fixpoint spec_place (size x y : float) (genres : list string) : list placedChip :=
  match genres with
  | [] => []
  | genre :: rest =>
      let w := widthOfString size genre + 20 in
      if pageWidth - 50 <? x + w
      then mkPlaced genre 50 (y + 35) w :: spec_place 10 (50 + (w + 10)) (y + 35) rest
      else mkPlaced genre x y w :: spec_place 10 (x + (w + 10)) y rest
  end.

(** The calls that draw one chip: its rectangle, and its text on it. *)
Definition chipCalls (primaryRgb : rgb) (chip : placedChip) : list call :=
  [ Rect (chipX chip) (chipY chip) (chipWidth chip) 25;
    Fill (channels primaryRgb);
    FontSize 10;
    FillColor (Named "white");
    Text (chipLabel chip) (chipX chip + 10) (At (chipY chip + 8)) noOptions ].


(** The [addPage] calls, and runs of calls without one. *)
Definition isAddPage (c : call) : bool :=
  match c with
  | AddPage => true
  | _ => false
  end.

Definition noAddPage (cs : list call) : bool := forallb (fun c => negb (isAddPage c)) cs.

(** The pages that the route starts itself: the one the document starts
    with, and one more for each [addPage]; each holds the calls made from
    its start to the next [addPage]. *)
Fixpoint pagesFrom (current : list call) (cs : list call) : list (list call) :=
  match cs with
  | [] => [current]
  | AddPage :: rest => current :: pagesFrom [] rest
  | c :: rest => pagesFrom (current ++ [c]) rest
  end.

(** PDFKit's [page.maxY()]: the height of the page less its bottom margin,
    the [margin: 50] of the constructor. *)
Definition maxY : float := pageHeight - 50.

(** PDFKit's [text] writes its first line on the current page only where
    there is room for it: at a position below [maxY], or less than a line
    above it, it starts a new page first and writes at the top of that one
    ([document.y > maxY || document.y + currentLineHeight(true) > maxY] in
    its line wrapper). *)
Definition noRoom (size y : float) : bool :=
  (maxY <? y) || (maxY <? y + currentLineHeight size).

(** The height at which a text is placed. *)
Definition textHeight (c : call) : option float :=
  match c with
  | Text _ _ (At y) _ => Some y
  | _ => None
  end.

(** The calls of a trace that start a page, [size] being the font size in
    force where the trace begins: the [addPage] calls of the route, and the
    texts placed where there is no room.  A text that runs past the bottom
    margin while its lines are wrapped, or that is placed at the document's
    own cursor, can start pages as well; these depend on the metrics of the
    font and are not counted, so that a document has at least one page more
    than it has calls of this kind. *)
Fixpoint pageStarts (size : float) (cs : list call) : list call :=
  match cs with
  | [] => []
  | AddPage :: rest => AddPage :: pageStarts size rest
  | FontSize s :: rest => pageStarts s rest
  | Text t x (At y) o :: rest =>
      if noRoom size y
      then Text t x (At y) o :: pageStarts size rest
      else pageStarts size rest
  | _ :: rest => pageStarts size rest
  end.

(** The band and the label at the top of a page. *)
Definition headerBand (accentRgb : rgb) (label : string) : list call :=
  [ Rect 50 50 (pageWidth - 100) 40;
    Fill (channels accentRgb);
    FontSize 18;
    FillColor (Named "white");
    Text label 60 (At 65) noOptions ].

(** Drawing code that starts no page. *)
Definition quiet {A : Type} (m : Draw A) : Prop :=
  appends m /\ forall doc, noAddPage (drawn m doc) = true.

(** The label a page starts with: the text drawn after a rectangle, its
    fill, a font size and a text colour. *)
Definition pageLabel (page : list call) : option string :=
  match page with
  | Rect _ _ _ _ :: Fill _ :: FontSize _ :: FillColor _ :: Text s _ _ _ :: _ => Some s
  | _ => None
  end.

(** The calls that draw the given pages one after the other, each opened
    by [addPage]. *)
Definition pageCalls (bodies : list (list call)) : list call :=
  flat_map (cons AddPage) bodies.

(** [cs] draws one page for each label, in order. *)
Definition page_run (labels : list string) (cs : list call) : Prop :=
  exists bodies,
    cs = pageCalls bodies
    /\ forallb noAddPage bodies = true
    /\ map pageLabel bodies = map Some labels.

(** The labels of the pages after the cover, and the number of pages, as
    the specification gives them. *)
Definition spec_pageLabels (portfolio : Portfolio) : list string :=
  ((if present (bio (artist portfolio)) then ["ABOUT THE ARTIST"] else [])
   ++ map sectionLabel (sections portfolio)
   ++ match genres (artist portfolio) with
      | Some (_ :: _) => ["SKILLS & SPECIALTIES"]
      | _ => []
      end
   ++ ["CONTACT INFORMATION"]).

Definition spec_pageCount (portfolio : Portfolio) : nat :=
  (1 + (if present (bio (artist portfolio)) then 1 else 0)
   + length (sections portfolio)
   + match genres (artist portfolio) with
     | Some (_ :: _) => 1
     | _ => 0
     end
   + 1)%nat.

End PdfVocabulary.

(** ** Splitting and trimming *)

(** The number of commas of a string. *)
Fixpoint commas (s : string) : nat :=
  match s with
  | EmptyString => 0
  | String c rest => (if Ascii.eqb c ","%char then 1 else 0) + commas rest
  end.

(** A byte list starts with white space; [fwd] as for [dropSpace]. *)
Definition headSpace (fwd : bool) (l : list ascii) : bool :=
  match l with
  | [] => false
  | c1 :: l1 =>
      ws1 c1
      || match l1 with
         | [] => false
         | c2 :: l2 =>
             (if fwd then ws2 c1 c2 else ws2 c2 c1)
             || match l2 with
                | [] => false
                | c3 :: _ => if fwd then ws3 c1 c2 c3 else ws3 c3 c2 c1
                end
         end
  end.

(** ** The skills containers of the classic and artistic templates *)

Definition classicSkillsBlock (chips : list string) : string :=
  "<div class=" ++ dq ++ "skills" ++ dq ++ ">" ++ nl ++ "                        "
  ++ String.concat "" chips ++ nl ++ "                    </div>".

(** A chip of the artistic template, with the theme's colours in its
    style. *)
Definition artisticChip (colors : Html.Colors) (skill : string) : string :=
  "<span class=" ++ dq ++ "skill" ++ dq ++ " style=" ++ dq
  ++ "background: linear-gradient(135deg, " ++ toString (Html.primary colors) ++ ", "
  ++ toString (Html.accent colors) ++ "); font-size: 1rem; padding: 0.75rem 1.5rem;"
  ++ dq ++ ">" ++ skill ++ "</span>".

Definition artisticSkillsBlock (chips : list string) : string :=
  "<div class=" ++ dq ++ "skills" ++ dq ++ " style=" ++ dq
  ++ "justify-content: center; margin-top: 2rem;" ++ dq ++ ">" ++ nl
  ++ "                " ++ String.concat "" chips ++ nl ++ "            </div>".

(** ** The stylesheet *)

(** The three custom properties that the stylesheet of a document opens
    with. *)
Definition themeRule (primary accent background : string) : string :=
  "--primary: " ++ primary
  ++ (";" ++ nl ++ "            --accent: ") ++ accent
  ++ (";" ++ nl ++ "            --background: ") ++ background
  ++ ";".

(** The text fields that every template writes. *)
Definition writtenFields (data : Html.ContentRecord) : list string :=
  [ toString (Html.name data);
    toString (Html.title data);
    toString (Html.aboutMe data);
    toString (Html.email data) ].

(** ** The blocks of a served page *)

(** The About block of the classic template up to its body, and the one
    of the artistic template around a body. *)
Definition classicAboutOpen : string :=
  "<h2>About Me</h2>" ++ nl
  ++ "                    <div class=" ++ dq ++ "section-content" ++ dq ++ ">".

Definition artisticAbout (text : string) : string :=
  ("line-height: 1.8; max-width: 800px; margin: 0 auto;" ++ dq ++ ">" ++ nl
   ++ "                ")
  ++ text ++ (nl ++ "            </div>").

(** The strategy that the selector runs for a template argument: that of
    its name for a string, the modern one for any other value. *)
Definition spec_strategyOf (template : jsval) : spec_strategy :=
  match template with
  | JStr t => spec_select t
  | _ => Modern
  end.

(** The About block of each template around its text. *)
Definition aboutBlock (strategy : spec_strategy) (text : string) : string :=
  match strategy with
  | Modern => aboutOpen ++ text ++ "</div>"
  | Classic => classicAboutOpen ++ text ++ "</div>"
  | Artistic => artisticAbout text
  end.

(** The line of the header that opens with the experience; the classic
    template has none. *)
Definition experienceLine (strategy : spec_strategy) (text : string) : option string :=
  match strategy with
  | Modern => Some ("<p>" ++ text ++ " • ")
  | Classic => None
  | Artistic => Some (("font-size: 1.1rem;" ++ dq ++ ">") ++ text ++ " Artist • ")
  end.

(** A [skills] value that is truthy and has no [split] method: an object,
    a number other than [0] and [NaN], or [true]. *)
Definition noSplit (v : Html.skillsValue) : Prop :=
  match v with
  | Html.SkNumber n => Html.numberTruthy n = true
  | Html.SkBoolean b => b = true
  | Html.SkOther JObj => True
  | _ => False
  end.

(** A [skills] value that is an array, a string, or falsy: absent, [null],
    [0], [NaN] or [false]. *)
Definition skillsUsable (v : Html.skillsValue) : Prop :=
  match v with
  | Html.SkArray _ => True
  | Html.SkNumber n => Html.numberTruthy n = false
  | Html.SkBoolean b => b = false
  | Html.SkOther JObj => False
  | Html.SkOther _ => True
  end.

(** The markup of the blocks that each template writes for a field of its
    own only. *)
Definition modernOptional : list string :=
  [ heading "Experience"; heading "Services"; heading "Testimonials";
    icon "fab fa-instagram"; icon "fab fa-youtube"; icon "fab fa-tiktok";
    icon "fab fa-facebook"; icon "fab fa-twitter"; icon "fas fa-globe";
    "<p>Phone: " ].

Definition classicOptional : list string :=
  [ heading "Experience"; heading "Services"; heading "Testimonials";
    icon "fab fa-instagram"; icon "fab fa-youtube"; icon "fab fa-tiktok";
    "<strong>Phone:</strong>" ].

Definition artisticOptional : list string :=
  [ styledHeading "text-align: center; font-size: 2rem;" "Performance History";
    styledHeading "font-size: 2rem;" "Voices of Appreciation";
    icon "fab fa-instagram"; icon "fab fa-youtube"; icon "fab fa-tiktok";
    "<p style=" ++ dq ++ "font-size: 1.1rem;" ++ dq ++ ">Phone: " ].

(** ** More on drawn documents *)

Section PdfVocabularyMore.

Import Pdf.
Context `{Runtime}.
Local Open Scope float_scope.
Local Open Scope list_scope.

(** Drawing code all of whose calls satisfy [P]. *)
Definition keeps {A : Type} (P : call -> bool) (m : Draw A) : Prop :=
  appends m /\ forall doc, forallb P (drawn m doc) = true.

(** A colour channel within 0 to 255. *)
Definition channelOk (n : number) : bool :=
  match n with
  | Num z => (Z.leb 0 z && Z.leb z 255)%bool
  | NaN => false
  end.

(** A colour argument that is well-formed: one of the four fixed inks, or
    three channels in range. *)
Definition colorOk (c : color) : bool :=
  match c with
  | Named s => existsb (String.eqb s) ["white"; "#333333"; "#0066cc"; "#666666"]%string
  | Channels r g b => (channelOk r && channelOk g && channelOk b)%bool
  end.

Definition callColorOk (c : call) : bool :=
  match c with
  | Fill col => colorOk col
  | FillColor col => colorOk col
  | _ => true
  end.

Definition isEnd (c : call) : bool :=
  match c with
  | End => true
  | _ => false
  end.

(** The calls that name the file and register the listener. *)
Definition isStream (c : call) : bool :=
  match c with
  | Pipe _ | OnEnd => true
  | _ => false
  end.

(** The calls that write one line of text at height [y] in ink [ink]. *)
Definition lineCalls (size : float) (ink : color) (text : string) (y : float) : list call :=
  [ FontSize size; FillColor ink; Text text 50 (At y) noOptions ].

(** A social link that is drawn, and its line. *)
Definition populated (entry : string * option string) : bool := present (snd entry).

Definition linkText (entry : string * option string) : string :=
  (capitalize (fst entry) ++ ": "
   ++ match snd entry with Some url => url | None => "" end)%string.

(** The location block is drawn. *)
Definition locationShown (l : option Location) : bool :=
  match l with
  | Some l => (present (city l) || present (country l))%bool
  | None => false
  end.

(** The location block of the contact page. *)
Definition locationCalls (primaryRgb : rgb) (l : option Location) : list call :=
  match l with
  | Some l =>
      if (present (city l) || present (country l))%bool
      then lineCalls 14 (channels primaryRgb) "Location:" 170
           ++ lineCalls 12 (Named "#333333") (locationLine l) 190
      else []
  | None => []
  end.

(** The footer, the last text of the contact page. *)
Definition footerText (now : Date) : call :=
  Text ("Generated by KatikaNaMe Platform â€¢ " ++ toLocaleDateString now)
       50 (At (pageHeight - 30))
       (mkOptions (Some "center") (Some (pageWidth - 100))).

Definition footerCalls (now : Date) : list call :=
  [ FontSize 8; FillColor (Named "#666666"); footerText now ].

(** The lines of the links, each with its height. *)
Definition linkCalls (lines : list (string * float)) : list call :=
  flat_map (fun line => lineCalls 12 (Named "#0066cc") (fst line) (snd line)) lines.

(** [n] heights from [y] downwards, each 20 below the one before. *)
Fixpoint heightsFrom (y : float) (n : nat) : list float :=
  match n with
  | O => []
  | S n => y :: heightsFrom (y + 20) n
  end.

End PdfVocabularyMore.

(** ** A runtime and a portfolio to evaluate with *)

(** Upper case for the letters a to z. *)
Definition asciiUpper (s : string) : string :=
  string_of_list_ascii
    (map (fun c => if in_range 97 122 c
                   then ascii_of_N (code c - 32)
                   else c)
         (list_ascii_of_string s)).

(** The A4 page of PDFKit, a measure that gives every character half the
    font size, and the line height of PDFKit's standard font. *)
Definition sampleRuntime : Pdf.Runtime :=
  {| Pdf.pageWidth := 595.28%float;
     Pdf.pageHeight := 841.89%float;
     Pdf.widthOfString size s :=
       (size * of_uint63 (Uint63.of_Z (Z.of_nat (String.length s))) * 0.5)%float;
     Pdf.currentLineHeight size := (size * 1.156)%float;
     Pdf.toUpperCase := asciiUpper |}.

Definition sampleArtist : Pdf.Artist :=
  Pdf.mkArtist "Ama K." "ama@x.com" (Some "Singer from Accra")
    (Some "multi_disciplinary") (Some "advanced")
    (Some ["vocals"; "guitar"; "afrobeat"; "songwriting"; "highlife";
           "percussion"; "arranging"; "session work"; "live looping";
           "choir direction"])
    (Some (Pdf.mkLocation (Some "Accra") None))
    (Some [("instagram", Some "https://instagram.com/ama"); ("youtube", None)]).

Definition samplePortfolio : Pdf.Portfolio :=
  Pdf.mkPortfolio "66f1a2b3c4d5e6f7a8b9c0d1" sampleArtist "Ama K. Portfolio" None
    [ Pdf.Sec.mk "gallery" (Some "Stage") (Some "Festival sets, 2023") (Some 1);
      Pdf.Sec.mk "press" None None None ]
    None.

(** The sample portfolio as a record that sets one colour only. *)
Definition tintedPortfolio : Pdf.Portfolio :=
  Pdf.mkPortfolio "66f1a2b3c4d5e6f7a8b9c0d1" sampleArtist "Ama K. Portfolio" None []
    (Some (Pdf.mkCustomizations (Some (Pdf.mkColors (JStr "#112233") JUndefined)))).

(** The sample portfolio of an artist with twenty genres, each too long to
    share a row with another. *)
Definition crowdedPortfolio : Pdf.Portfolio :=
  Pdf.mkPortfolio "66f1a2b3c4d5e6f7a8b9c0d1"
    (Pdf.mkArtist "Ama K." "ama@x.com" (Some "Singer from Accra")
       (Some "multi_disciplinary") (Some "advanced")
       (Some (repeat "contemporary and traditional East African dance with live percussion"
                     20))
       (Some (Pdf.mkLocation (Some "Accra") None))
       (Some [("instagram", Some "https://instagram.com/ama"); ("youtube", None)]))
    "Ama K. Portfolio" None
    [ Pdf.Sec.mk "gallery" (Some "Stage") (Some "Festival sets, 2023") (Some 1);
      Pdf.Sec.mk "press" None None None ]
    None.

(** ** A parser to evaluate with *)

(** [JSON.parse] on the texts [[]], [{}], [null], [5], [0], [true] and
    [false]; any other text is refused. *)
Definition sampleJson : Server.Json :=
  {| Server.parseSkills text :=
       if String.eqb text "[]" then Ok (Html.SkArray [])
       else if String.eqb text "{}" then Ok (Html.SkOther JObj)
       else if String.eqb text "null" then Ok (Html.SkOther JNull)
       else if String.eqb text "5" then Ok (Html.SkNumber 5%float)
       else if String.eqb text "0" then Ok (Html.SkNumber 0%float)
       else if String.eqb text "true" then Ok (Html.SkBoolean true)
       else if String.eqb text "false" then Ok (Html.SkBoolean false)
       else Raise "SyntaxError";
     Server.parseValue text :=
       if String.eqb text "{}" then Ok JObj
       else if String.eqb text "null" then Ok JNull
       else Raise "SyntaxError" |}.

Definition sampleEnv : Server.Env :=
  Server.mkEnv "0b5f7c1e" "2023-11-14T22:13:20.000Z" "2023-11-14T22:13:20.001Z"
    (mkDate 1700000000000 2023 "11/14/2023").

Definition sampleForm : Server.Form.t :=
  Server.Form.mk (Some "Ama K.") (Some "ama@x.com") (Some "Singer from Accra")
    None None None None None.

Definition emptyState : Server.State :=
  Server.mkState [] [] None None (fun _ => None) (fun _ => None).

(** The state after the sample form was sent to a server without data,
    and a request for a portfolio of that artist. *)
Definition oneArtistState : Server.State :=
  snd (Server.createArtist (H := sampleJson) sampleEnv sampleForm None emptyState).

Definition laterEnv : Server.Env :=
  Server.mkEnv "7d2a" "2023-11-14T22:14:00.000Z" "2023-11-14T22:14:00.000Z"
    (mkDate 1700000040000 2023 "11/14/2023").

Definition sampleRequest : Server.Request.t :=
  Server.Request.mk (JStr "0b5f7c1e") JUndefined JUndefined JUndefined None None.

(** ** Runs of the file-backed server *)

Section ServerRuns.

Import Server.
Context `{Json}.

(** The requests that the routes answer. *)
Inductive request : Type :=
| PostArtist (env : Env) (form : Form.t) (files : option (list Uploaded.t))
| GetArtists
| GetArtist (id : string)
| PostPortfolio (env : Env) (body : Request.t)
| PostPdf (env : Env) (id : string)
| GetPortfolios
| GetPortfolio (id : string).

Definition serve (r : request) (st : State) : Response * State :=
  match r with
  | PostArtist env form files => createArtist env form files st
  | GetArtists => (getArtists st, st)
  | GetArtist id => (getArtist id st, st)
  | PostPortfolio env body => createPortfolio env body st
  | PostPdf env id => generatePdf env id st
  | GetPortfolios => (getPortfolios st, st)
  | GetPortfolio id => (getPortfolio id st, st)
  end.

(** The states of a server that started without data: what requests and
    restarts lead to from the empty arrays and no files. *)
Inductive reachable : State -> Prop :=
| reach_start : reachable emptyState
| reach_serve (r : request) (st : State) :
    reachable st -> reachable (snd (serve r st))
| reach_restart (st : State) :
    reachable st -> reachable (restart st).

(** What ties a portfolio to its artist. *)
Definition link (portfolio : Portfolio.t) : string * jsval :=
  (Portfolio.id portfolio, Portfolio.artistId portfolio).

(** Every portfolio has its artist; the file of the artists holds the
    array; and the file of the portfolios holds the portfolios of the
    array, up to their URLs. *)
Definition sound (st : State) : Prop :=
  (forall portfolio, In portfolio (portfolios st) -> artistOf portfolio st <> None)
  /\ (artistsJson st = Some (artists st)
      \/ (artistsJson st = None /\ artists st = []))
  /\ match portfoliosJson st with
     | Some saved => map link saved = map link (portfolios st)
     | None => portfolios st = []
     end.

End ServerRuns.

(** * Properties *)

(** ** Strings and characters *)

Lemma all_ascii (P : ascii -> bool) :
  forallb P (map ascii_of_nat (seq 0 256)) = true -> forall c, P c = true.
Proof.
  intros Hall c.
  rewrite forallb_forall in Hall.
  apply Hall.
  rewrite <- (ascii_nat_embedding c).
  apply in_map, in_seq.
  pose proof (nat_ascii_bounded c). lia.
Qed.

Lemma hexDigitValue_range (c : ascii) :
  isHexChar c = true ->
  exists d, hexDigitValue c = Some d /\ 0 <= d <= 15.
Proof.
  revert c.
  assert (Hall : forall c,
             (negb (isHexChar c)
              || match hexDigitValue c with
                 | Some d => Z.leb 0 d && Z.leb d 15
                 | None => false
                 end)%bool = true).
  { apply all_ascii. vm_compute. reflexivity. }
  intros c Hc. specialize (Hall c). rewrite Hc in Hall. simpl in Hall.
  destruct (hexDigitValue c) as [d|]; [|discriminate].
  exists d. split; [reflexivity|]. lia.
Qed.

Lemma hash_not_hex : isHexChar "#"%char = false.
Proof. reflexivity. Qed.

Lemma parseInt16_two_digits (c1 c2 : ascii) :
  isHexChar c1 = true -> isHexChar c2 = true ->
  exists z, parseInt16 (String c1 (String c2 EmptyString)) = Num z /\ 0 <= z <= 255.
Proof.
  intros H1 H2.
  destruct (hexDigitValue_range c1 H1) as (d1 & E1 & B1).
  destruct (hexDigitValue_range c2 H2) as (d2 & E2 & B2).
  exists (16 * d1 + d2). split; [|lia].
  unfold parseInt16. rewrite E1. simpl. rewrite E1, E2. reflexivity.
Qed.

Lemma hexPattern_exec_cons (c : ascii) (rest : string) :
  hexPattern_exec (String c rest) =
  if Ascii.eqb c "#"%char
  then match sixHexDigits rest with
       | Some groups => Some groups
       | None => sixHexDigits (String c rest)
       end
  else sixHexDigits (String c rest).
Proof.
  destruct c as [[] [] [] [] [] [] [] []]; reflexivity.
Qed.

Lemma sixHexDigits_Some (s : string) (groups : string * string * string) :
  sixHexDigits s = Some groups ->
  exists c1 c2 c3 c4 c5 c6,
    s = String c1 (String c2 (String c3 (String c4 (String c5 (String c6 EmptyString)))))
    /\ forallb isHexChar [c1; c2; c3; c4; c5; c6] = true
    /\ groups = (String c1 (String c2 EmptyString),
                 String c3 (String c4 EmptyString),
                 String c5 (String c6 EmptyString)).
Proof.
  destruct s as [|c1 [|c2 [|c3 [|c4 [|c5 [|c6 [|c7 s]]]]]]]; try discriminate.
  unfold sixHexDigits.
  destruct (forallb isHexChar [c1; c2; c3; c4; c5; c6]) eqn:E; [|discriminate].
  intros [= <-]. exists c1, c2, c3, c4, c5, c6. auto.
Qed.

Lemma sixHexDigits_starts_hex (c : ascii) (rest : string) :
  isHexChar c = false -> sixHexDigits (String c rest) = None.
Proof.
  intros Hc.
  destruct rest as [|c2 [|c3 [|c4 [|c5 [|c6 [|c7 s]]]]]]; try reflexivity.
  unfold sixHexDigits. simpl. rewrite Hc. reflexivity.
Qed.

(** ** [hexToRgb] *)

Lemma spec_hexDigit_iff (c : ascii) : spec_hexDigit c <-> isHexChar c = true.
Proof.
  assert (Hall : forall c,
             Bool.eqb (existsb (Ascii.eqb c)
                               (list_ascii_of_string "0123456789abcdefABCDEF"))
                      (isHexChar c) = true).
  { apply all_ascii. vm_compute. reflexivity. }
  specialize (Hall c). apply Bool.eqb_prop in Hall.
  unfold spec_hexDigit. rewrite <- Hall, existsb_exists.
  split.
  - intros Hin. exists c. split; [assumption | apply Ascii.eqb_refl].
  - intros (x & Hin & Hx). apply Ascii.eqb_eq in Hx. subst. assumption.
Qed.

Lemma hexChar_not_hash (c : ascii) :
  isHexChar c = true -> Ascii.eqb c "#"%char = false.
Proof.
  intros Hc. destruct (Ascii.eqb c "#"%char) eqn:E; [|reflexivity].
  apply Ascii.eqb_eq in E. subst. discriminate.
Qed.

Lemma hexPattern_exec_digits (c1 c2 c3 c4 c5 c6 : ascii) (hash : bool) :
  forallb isHexChar [c1; c2; c3; c4; c5; c6] = true ->
  hexPattern_exec
    ((if hash then "#" else "")
     ++ String c1 (String c2 (String c3 (String c4 (String c5 (String c6 EmptyString))))))
  = Some (String c1 (String c2 EmptyString),
          String c3 (String c4 EmptyString),
          String c5 (String c6 EmptyString)).
Proof.
  intros Hall.
  destruct hash; cbn [append]; rewrite hexPattern_exec_cons.
  - cbn [Ascii.eqb Bool.eqb]. unfold sixHexDigits. rewrite Hall. reflexivity.
  - simpl in Hall. apply andb_prop in Hall as [H1 Hrest].
    rewrite (hexChar_not_hash c1 H1).
    unfold sixHexDigits. simpl. rewrite H1, Hrest. reflexivity.
Qed.

Lemma hexPattern_exec_Some (hex : string) (groups : string * string * string) :
  hexPattern_exec hex = Some groups ->
  exists c1 c2 c3 c4 c5 c6 hash,
    hex = ((if hash : bool then "#" else "")
           ++ String c1 (String c2 (String c3 (String c4 (String c5 (String c6 EmptyString))))))
    /\ forallb isHexChar [c1; c2; c3; c4; c5; c6] = true
    /\ groups = (String c1 (String c2 EmptyString),
                 String c3 (String c4 EmptyString),
                 String c5 (String c6 EmptyString)).
Proof.
  destruct hex as [|c rest]; [discriminate|].
  rewrite hexPattern_exec_cons.
  destruct (Ascii.eqb c "#"%char) eqn:Ec.
  - apply Ascii.eqb_eq in Ec. subst c.
    rewrite (sixHexDigits_starts_hex _ rest hash_not_hex).
    destruct (sixHexDigits rest) as [gs|] eqn:Er; [|discriminate].
    intros [= <-].
    destruct (sixHexDigits_Some _ _ Er) as (c1 & c2 & c3 & c4 & c5 & c6 & -> & Hall & ->).
    exists c1, c2, c3, c4, c5, c6, true. auto.
  - intros Hs.
    destruct (sixHexDigits_Some _ _ Hs) as (c1 & c2 & c3 & c4 & c5 & c6 & E & Hall & ->).
    exists c1, c2, c3, c4, c5, c6, false. auto.
Qed.

Lemma spec_wellFormedHex_iff (hex : string) :
  spec_wellFormedHex hex <-> hexPattern_exec hex <> None.
Proof.
  split.
  - intros (digits & Hlen & Hdig & Hhex).
    destruct digits as [|c1 [|c2 [|c3 [|c4 [|c5 [|c6 [|c7 l]]]]]]]; try discriminate.
    assert (Hall : forallb isHexChar [c1; c2; c3; c4; c5; c6] = true).
    { apply forallb_forall. intros x Hx. apply spec_hexDigit_iff.
      rewrite Forall_forall in Hdig. auto. }
    pose proof (hexPattern_exec_digits c1 c2 c3 c4 c5 c6 false Hall) as Eplain.
    pose proof (hexPattern_exec_digits c1 c2 c3 c4 c5 c6 true Hall) as Ehash.
    cbn [append] in Eplain, Ehash.
    destruct Hhex as [-> | ->]; cbn [string_of_list_ascii]; congruence.
  - destruct (hexPattern_exec hex) as [groups|] eqn:E; [intros _ | congruence].
    destruct (hexPattern_exec_Some _ _ E)
      as (c1 & c2 & c3 & c4 & c5 & c6 & hash & -> & Hall & _).
    exists [c1; c2; c3; c4; c5; c6]. split; [reflexivity|]. split.
    + apply Forall_forall. intros x Hx. apply spec_hexDigit_iff.
      rewrite forallb_forall in Hall. auto.
    + destruct hash; auto.
Qed.

Lemma spec_hexByte_parses (upper : bool) (n : Z) :
  0 <= n <= 255 ->
  exists c1 c2,
    spec_hexByte upper n = String c1 (String c2 EmptyString)
    /\ isHexChar c1 = true /\ isHexChar c2 = true
    /\ parseInt16 (String c1 (String c2 EmptyString)) = Num n.
Proof.
  intros Hn.
  pose (ok := fun (u : bool) (k : nat) =>
    match spec_hexByte u (Z.of_nat k) with
    | String c1 (String c2 EmptyString) =>
        isHexChar c1 && isHexChar c2
        && match parseInt16 (String c1 (String c2 EmptyString)) with
           | Num z => Z.eqb z (Z.of_nat k)
           | NaN => false
           end
    | _ => false
    end).
  assert (Hall : forall u, forallb (ok u) (seq 0 256) = true).
  { intros [|]; vm_compute; reflexivity. }
  specialize (Hall upper). rewrite forallb_forall in Hall.
  specialize (Hall (Z.to_nat n)).
  assert (Hin : In (Z.to_nat n) (seq 0 256)) by (apply in_seq; lia).
  specialize (Hall Hin). unfold ok in Hall.
  rewrite Z2Nat.id in Hall by lia.
  destruct (spec_hexByte upper n) as [|c1 [|c2 [|c3 s]]]; try discriminate.
  apply andb_prop in Hall as [Hcs Hp]. apply andb_prop in Hcs as [H1 H2].
  exists c1, c2. repeat split; try assumption.
  destruct (parseInt16 (String c1 (String c2 "")%string)) as [|z]; [discriminate|].
  apply Z.eqb_eq in Hp. subst. reflexivity.
Qed.

Lemma hexToRgb_channels (hex : string) :
  exists r g b,
    hexToRgb hex = mkRgb (Num r) (Num g) (Num b)
    /\ 0 <= r <= 255 /\ 0 <= g <= 255 /\ 0 <= b <= 255.
Proof.
  unfold hexToRgb.
  destruct (hexPattern_exec hex) as [groups|] eqn:E.
  - destruct (hexPattern_exec_Some _ _ E)
      as (c1 & c2 & c3 & c4 & c5 & c6 & hash & _ & Hall & ->).
    simpl in Hall.
    repeat (apply andb_prop in Hall; destruct Hall as [?H Hall]).
    destruct (parseInt16_two_digits c1 c2) as (r & -> & ?); try assumption.
    destruct (parseInt16_two_digits c3 c4) as (g & -> & ?); try assumption.
    destruct (parseInt16_two_digits c5 c6) as (b & -> & ?); try assumption.
    exists r, g, b. auto.
  - exists 176, 38, 255. unfold fallbackRgb. repeat split; lia.
Qed.

Lemma hexToRgb_roundtrip (hash upper : bool) (r g b : Z) :
  0 <= r <= 255 -> 0 <= g <= 255 -> 0 <= b <= 255 ->
  hexToRgb (spec_hexColor hash upper r g b) = mkRgb (Num r) (Num g) (Num b).
Proof.
  intros Hr Hg Hb.
  destruct (spec_hexByte_parses upper r Hr) as (c1 & c2 & Er & H1 & H2 & Pr).
  destruct (spec_hexByte_parses upper g Hg) as (c3 & c4 & Eg & H3 & H4 & Pg).
  destruct (spec_hexByte_parses upper b Hb) as (c5 & c6 & Eb & H5 & H6 & Pb).
  unfold hexToRgb, spec_hexColor. rewrite Er, Eg, Eb. cbn [append].
  rewrite (hexPattern_exec_digits c1 c2 c3 c4 c5 c6 hash).
  - rewrite Pr, Pg, Pb. reflexivity.
  - simpl. rewrite H1, H2, H3, H4, H5, H6. reflexivity.
Qed.

(** C3: [hexToRgb] returns, for every string, three channels between 0 and
    255; it takes the pattern's branch exactly on six hexadecimal digits in
    either case after an optional [#], and gives the fallback triple
    [{176, 38, 255}] on every other string; it reads back the channels of a
    well-formed colour, and [hexToRgb("#B026FF")] is [{176, 38, 255}]. *)
Theorem hexToRgb_total :
  (forall hex, exists r g b,
      hexToRgb hex = mkRgb (Num r) (Num g) (Num b)
      /\ 0 <= r <= 255 /\ 0 <= g <= 255 /\ 0 <= b <= 255)
  /\ (forall hex, spec_wellFormedHex hex <-> hexPattern_exec hex <> None)
  /\ (forall hex, ~ spec_wellFormedHex hex -> hexToRgb hex = fallbackRgb)
  /\ (forall hash upper r g b,
         0 <= r <= 255 -> 0 <= g <= 255 -> 0 <= b <= 255 ->
         spec_wellFormedHex (spec_hexColor hash upper r g b)
         /\ hexToRgb (spec_hexColor hash upper r g b) = mkRgb (Num r) (Num g) (Num b))
  /\ hexToRgb "#B026FF" = mkRgb (Num 176) (Num 38) (Num 255)
  /\ fallbackRgb = mkRgb (Num 176) (Num 38) (Num 255).
Proof.
  split; [exact hexToRgb_channels|].
  split; [exact spec_wellFormedHex_iff|].
  split.
  { intros hex Hnot. unfold hexToRgb.
    destruct (hexPattern_exec hex) eqn:E; [|reflexivity].
    exfalso. apply Hnot, spec_wellFormedHex_iff. congruence. }
  split.
  { intros hash upper r g b Hr Hg Hb.
    pose proof (hexToRgb_roundtrip hash upper r g b Hr Hg Hb) as Hrt.
    split; [|exact Hrt].
    apply spec_wellFormedHex_iff.
    destruct (spec_hexByte_parses upper r Hr) as (c1 & c2 & Er & H1 & H2 & _).
    destruct (spec_hexByte_parses upper g Hg) as (c3 & c4 & Eg & H3 & H4 & _).
    destruct (spec_hexByte_parses upper b Hb) as (c5 & c6 & Eb & H5 & H6 & _).
    unfold spec_hexColor. rewrite Er, Eg, Eb. cbn [append].
    rewrite (hexPattern_exec_digits c1 c2 c3 c4 c5 c6 hash); [discriminate|].
    simpl. rewrite H1, H2, H3, H4, H5, H6. reflexivity. }
  split; reflexivity.
Qed.

Lemma hexToRgb_total_witness :
  hexToRgb "ffd23f" = mkRgb (Num 255) (Num 210) (Num 63)
  /\ hexToRgb "#fff" = fallbackRgb.
Proof.
  split.
  - apply (proj2 (proj1 (proj2 (proj2 (proj2 hexToRgb_total)))
                    false false 255 210 63
                    ltac:(lia) ltac:(lia) ltac:(lia))).
  - apply (proj1 (proj2 (proj2 hexToRgb_total))).
    intros (digits & Hlen & _ & [E | E]);
      do 7 (destruct digits as [|? digits]; try discriminate).
Defined.

(** ** String concatenation *)

Lemma append_assoc (a b c : string) : (a ++ b) ++ c = a ++ (b ++ c).
Proof. induction a as [|x a IH]; simpl; [reflexivity | now rewrite IH]. Qed.

Lemma append_nil_r (a : string) : a ++ "" = a.
Proof. induction a as [|x a IH]; simpl; [reflexivity | now rewrite IH]. Qed.

Lemma append_cancel_l (p a b : string) : p ++ a = p ++ b -> a = b.
Proof.
  induction p as [|x p IH]; simpl; [trivial|].
  intros [= E]. auto.
Qed.

Lemma list_ascii_of_append (a b : string) :
  list_ascii_of_string (a ++ b) = (list_ascii_of_string a ++ list_ascii_of_string b)%list.
Proof. induction a as [|x a IH]; simpl; [reflexivity | now rewrite IH]. Qed.

Lemma append_cancel_r (a b x : string) : a ++ x = b ++ x -> a = b.
Proof.
  intros E. apply (f_equal list_ascii_of_string) in E.
  rewrite !list_ascii_of_append in E. apply app_inv_tail in E.
  rewrite <- (string_of_list_ascii_of_string a), <- (string_of_list_ascii_of_string b).
  now rewrite E.
Qed.

Lemma numberToString_inj (m n : Z) : numberToString m = numberToString n -> m = n.
Proof.
  unfold numberToString. intros E.
  apply DecimalZ.to_int_inj.
  pose proof (NilEmpty.isi (Z.to_int m)) as Hm.
  rewrite E, NilEmpty.isi in Hm. congruence.
Qed.

Lemma render_app (xs ys : list Html.chunk) :
  Html.render (xs ++ ys) = Html.render xs ++ Html.render ys.
Proof.
  induction xs as [|c xs IH]; simpl; [reflexivity|].
  now rewrite IH, append_assoc.
Qed.

(** ** The template selector *)

(** C7: the [switch] of [generatePortfolioHTML] runs the modern template
    for ['modern'], the classic one for ['classic'], the artistic one for
    ['artistic'], and the modern one for every other string, the empty one
    included, and for a value that is no string; the choice of template
    never makes the composer raise. *)
Theorem template_selector :
  forall (now : Date) (data : Html.ContentRecord) (skillsList : list string)
         (colors : Html.Colors),
    Html.switch_template now (JStr "modern") data skillsList colors
      = Html.generateModernTemplate now data skillsList colors
    /\ Html.switch_template now (JStr "classic") data skillsList colors
      = Html.generateClassicTemplate now data skillsList colors
    /\ Html.switch_template now (JStr "artistic") data skillsList colors
      = Html.generateArtisticTemplate now data skillsList colors
    /\ Html.switch_template now (JStr "") data skillsList colors
      = Html.generateModernTemplate now data skillsList colors
    /\ (forall template : string,
          Html.switch_template now (JStr template) data skillsList colors
          = spec_run (spec_select template) now data skillsList colors)
    /\ (forall template : string,
          template <> "classic" -> template <> "artistic" ->
          Html.switch_template now (JStr template) data skillsList colors
          = Html.generateModernTemplate now data skillsList colors)
    /\ (forall template : jsval,
          (forall s, template <> JStr s) ->
          Html.switch_template now template data skillsList colors
          = Html.generateModernTemplate now data skillsList colors)
    /\ (forall (template : jsval) (customizations : option Html.Customizations),
          Html.skillsListOf (Html.skills data) = Ok skillsList ->
          Html.generatePortfolioHTML now data template customizations
          = Ok (Html.render
                  (Html.document_parts data (Html.resolveColors customizations)
                     (Html.switch_template now template data skillsList
                        (Html.resolveColors customizations))))).
Proof.
  intros now data skillsList colors.
  assert (Hsel : forall template : string,
             Html.switch_template now (JStr template) data skillsList colors
             = spec_run (spec_select template) now data skillsList colors).
  { intros template. unfold Html.switch_template, spec_select.
    destruct (String.eqb template "modern") eqn:Em.
    - apply String.eqb_eq in Em. subst. reflexivity.
    - destruct (String.eqb template "classic"); [reflexivity|].
      destruct (String.eqb template "artistic"); reflexivity. }
  repeat split; try reflexivity.
  - exact Hsel.
  - intros template Hc Ha. rewrite Hsel. unfold spec_select.
    apply String.eqb_neq in Hc, Ha. rewrite Hc, Ha. reflexivity.
  - intros template Hns. destruct template; try reflexivity.
    exfalso. eapply Hns. reflexivity.
  - intros template customizations Hs.
    unfold Html.generatePortfolioHTML. rewrite Hs. reflexivity.
Qed.

Lemma template_selector_witness :
  let now := mkDate 1700000000000 2023 "11/14/2023" in
  let data :=
    Html.mkContent (JStr "Ama K.") JUndefined JUndefined JUndefined (JStr "")
      JUndefined (Html.SkArray ["vocals"; "guitar"]) JUndefined JUndefined
      (JStr "https://instagram.com/ama") JUndefined JUndefined JUndefined
      JUndefined JUndefined (JStr "ama@x.com") JUndefined in
  Html.switch_template now (JStr "minimal") data ["vocals"; "guitar"] Html.defaultColors
  = Html.generateModernTemplate now data ["vocals"; "guitar"] Html.defaultColors
  /\ Html.switch_template now JUndefined data ["vocals"; "guitar"] Html.defaultColors
     = Html.generateModernTemplate now data ["vocals"; "guitar"] Html.defaultColors.
Proof.
  intros now data.
  destruct (template_selector now data ["vocals"; "guitar"] Html.defaultColors)
    as (_ & _ & _ & _ & _ & Hother & Hnostr & _).
  split.
  - apply Hother; discriminate.
  - apply Hnostr. discriminate.
Defined.

(** ** The colour theme *)

(** C5, as stated, fails: a [colors] object that sets only [primary] is
    taken as the theme as it is, so [accent] and [background] stay
    undefined instead of getting their defaults. *)
Lemma theme_gaps_not_filled :
  let supplied := Html.mkColors (JStr "#ff0000") JUndefined JUndefined in
  let theme := Html.resolveColors (Some (Html.mkCustomizations (Some supplied))) in
  Html.primary theme = JStr "#ff0000"
  /\ Html.accent theme = JUndefined
  /\ Html.background theme = JUndefined
  /\ theme <> spec_fillGaps supplied
  /\ ~ spec_populated theme.
Proof.
  cbv zeta. repeat split; try reflexivity.
  - discriminate.
  - intros (_ & Ha & _). discriminate.
Qed.

(** C5, amended.  In the HTML composer the theme is chosen as a whole:
    without customizations, or without a [colors] object in them, it is the
    default palette (primary [#B026FF], accent [#FFD23F], background
    [#0a0a12]), which is fully populated; with a [colors] object it is that
    object, every supplied colour kept and nothing added, so it is fully
    populated exactly when the object sets all its colours.  In the PDF
    route the portfolio is a document of the database, in which each of
    [primary] and [accent] that the stored record leaves out has its
    default ([#B026FF], [#FFD23F]) and a supplied colour is kept. *)
Theorem theme_resolved_as_a_whole :
  Html.resolveColors None = Html.defaultColors
  /\ Html.resolveColors (Some (Html.mkCustomizations None)) = Html.defaultColors
  /\ Html.defaultColors = Html.mkColors (JStr "#B026FF") (JStr "#FFD23F") (JStr "#0a0a12")
  /\ spec_populated Html.defaultColors
  /\ (forall supplied : Html.Colors,
        Html.resolveColors (Some (Html.mkCustomizations (Some supplied))) = supplied)
  /\ (forall customizations : option Html.Customizations,
        spec_populated (Html.resolveColors customizations)
        <-> match customizations with
            | Some (Html.mkCustomizations (Some supplied)) => spec_populated supplied
            | _ => True
            end)
  /\ (forall stored : Pdf.Portfolio,
        let supplied := spec_storedColors stored in
        let theme := Pdf.resolveColors (Pdf.customizations (Pdf.hydrate stored)) in
        (Pdf.primary supplied = JUndefined -> Pdf.primary theme = JStr "#B026FF")
        /\ (Pdf.primary supplied <> JUndefined -> Pdf.primary theme = Pdf.primary supplied)
        /\ (Pdf.accent supplied = JUndefined -> Pdf.accent theme = JStr "#FFD23F")
        /\ (Pdf.accent supplied <> JUndefined -> Pdf.accent theme = Pdf.accent supplied)).
Proof.
  assert (Hdefault : spec_populated Html.defaultColors)
    by (repeat split; reflexivity).
  split; [reflexivity|]. split; [reflexivity|]. split; [reflexivity|].
  split; [exact Hdefault|]. split; [reflexivity|].
  split.
  { intros [[[supplied|]]|]; simpl; tauto. }
  intros stored supplied theme. subst supplied theme.
  unfold spec_storedColors, Pdf.hydrate, Pdf.schemaCustomizations.
  cbn [Pdf.customizations Pdf.resolveColors Pdf.colors Pdf.primary Pdf.accent].
  destruct (Pdf.customizations stored) as [[[[p a]|]]|];
    cbn [Pdf.primary Pdf.accent Pdf.schemaDefault].
  - repeat split.
    + intros ->. reflexivity.
    + destruct p; try reflexivity. intros Hp. now destruct Hp.
    + intros ->. reflexivity.
    + destruct a; try reflexivity. intros Ha. now destruct Ha.
  - repeat split; try reflexivity; intros Hn; now destruct Hn.
  - repeat split; try reflexivity; intros Hn; now destruct Hn.
Qed.

(** ** File names of generated PDFs *)

(** C6, as stated, fails in both variants: two requests served within the
    same millisecond get the same timestamped name, and the file-backed
    route names the file by the portfolio alone, whatever the time. *)
Lemma regenerated_pdf_same_filename :
  let artist :=
    Pdf.mkArtist "Ama K." "ama@x.com" (Some "Singer") None None None None None in
  let portfolio :=
    Pdf.mkPortfolio "66f1a2b3c4d5e6f7a8b9c0d1" artist "Ama K. Portfolio" None [] None in
  let first := mkDate 1700000000000 2023 "11/14/2023" in
  let second := mkDate 1700000000000 2023 "11/14/2023" in
  Pdf.filename first portfolio = Pdf.filename second portfolio
  /\ Pdf.filename first portfolio = "portfolio-66f1a2b3c4d5e6f7a8b9c0d1-1700000000000.pdf"
  /\ pdfFilePath "0b5f7c1e" = "generated/pdfs/0b5f7c1e.pdf".
Proof. cbv zeta. repeat split; reflexivity. Qed.

(** C6, amended: in the MongoDB variant the name is
    [portfolio-<id>-<Date.now()>.pdf], and two generations of the same
    portfolio have distinct names exactly when their millisecond times
    differ; in the file-backed variant the path is [generated/pdfs/<id>.pdf]
    and depends on the portfolio alone, so a regeneration writes the same
    file again. *)
Theorem pdf_filenames :
  (forall (first second : Date) (portfolio : Pdf.Portfolio),
      Pdf.filename first portfolio <> Pdf.filename second portfolio
      <-> getTime first <> getTime second)
  /\ (forall (now : Date) (portfolio : Pdf.Portfolio),
        Pdf.filename now portfolio
        = "portfolio-" ++ Pdf._id portfolio ++ "-"
            ++ numberToString (getTime now) ++ ".pdf")
  /\ (forall id : string, pdfFilePath id = "generated/pdfs/" ++ id ++ ".pdf").
Proof.
  repeat split; try reflexivity.
  - intros Hne Ht. apply Hne. unfold Pdf.filename. now rewrite Ht.
  - intros Hne Hf. apply Hne. unfold Pdf.filename in Hf.
    apply append_cancel_l in Hf.
    rewrite <- !append_assoc in Hf.
    apply append_cancel_r in Hf.
    apply append_cancel_l in Hf.
    now apply numberToString_inj.
Qed.

(** ** Occurrences of a piece of markup in a document *)

Lemma prefixb_iff (p s : string) : prefixb p s = true <-> exists post, s = p ++ post.
Proof.
  revert s. induction p as [|a p IH]; intros s; simpl.
  - split; [intros _; now exists s | trivial].
  - destruct s as [|b s].
    + split; [discriminate | intros (post & E); discriminate].
    + rewrite andb_true_iff, Ascii.eqb_eq, IH. split.
      * intros (-> & post & ->). now exists post.
      * intros (post & [= -> ->]). split; [reflexivity | now exists post].
Qed.

Lemma occurs_iff (needle s : string) : occurs needle s = true <-> contains s needle.
Proof.
  induction s as [|c s IH]; simpl.
  - rewrite orb_false_r, prefixb_iff. split.
    + intros (post & E). now exists "", post.
    + intros (pre & post & E). destruct pre; [now exists post | discriminate].
  - rewrite orb_true_iff, prefixb_iff, IH. split.
    + intros [(post & E) | (pre & post & E)].
      * now exists "", post.
      * exists (String c pre), post. simpl. now rewrite E.
    + intros (pre & post & E). destruct pre as [|x pre].
      * left. now exists post.
      * right. injection E as _ E. now exists pre, post.
Qed.

Lemma append_eq_append (a b x y : string) :
  a ++ b = x ++ y ->
  (exists m, x = a ++ m /\ b = m ++ y) \/ (exists m, a = x ++ m /\ y = m ++ b).
Proof.
  revert x. induction a as [|c a IH]; intros x E; simpl in *.
  - left. now exists x.
  - destruct x as [|d x]; simpl in E.
    + right. now exists (String c a).
    + injection E as -> E. destruct (IH x E) as [(m & -> & ->) | (m & -> & ->)].
      * left. now exists m.
      * right. now exists m.
Qed.

(** An occurrence in [a ++ b] lies in [a], lies in [b], or straddles the
    seam. *)
Lemma contains_append (a b needle : string) :
  contains (a ++ b) needle ->
  contains a needle \/ contains b needle
  \/ exists u t q post,
       a = u ++ t /\ t <> "" /\ q <> "" /\ needle = t ++ q /\ b = q ++ post.
Proof.
  intros (pre & post & E).
  destruct (append_eq_append _ _ _ _ E) as [(m & -> & ->) | (m & -> & E')].
  - right. left. now exists m, post.
  - symmetry in E'.
    destruct (append_eq_append _ _ _ _ E') as [(m' & -> & ->) | (m' & -> & ->)].
    + destruct m as [|c m].
      * right. left. exists "", post. reflexivity.
      * destruct m' as [|c' m'].
        -- left. exists pre, "". now rewrite !append_nil_r.
        -- right. right. exists pre, (String c m), (String c' m'), post.
           repeat split; discriminate || reflexivity.
    + left. now exists pre, m'.
Qed.

Lemma contains_append_l (a b needle : string) :
  contains a needle -> contains (a ++ b) needle.
Proof.
  intros (pre & post & ->). exists pre, (post ++ b).
  now rewrite !append_assoc.
Qed.

Lemma contains_append_r (a b needle : string) :
  contains b needle -> contains (a ++ b) needle.
Proof.
  intros (pre & post & ->). exists (a ++ pre), post.
  now rewrite !append_assoc.
Qed.

Lemma memb_append (c : ascii) (u v : string) :
  memb c (u ++ String c v) = true.
Proof.
  induction u as [|x u IH]; simpl.
  - now rewrite Ascii.eqb_refl.
  - now rewrite IH, orb_true_r.
Qed.

Lemma length_append (a b : string) :
  String.length (a ++ b) = (String.length a + String.length b)%nat.
Proof. induction a as [|x a IH]; simpl; [reflexivity | now rewrite IH]. Qed.

Lemma has_border_complete (needle u t q : string) :
  t <> "" -> q <> "" -> needle = t ++ q -> has_border needle (u ++ t) = true.
Proof.
  intros Ht Hq ->. induction u as [|c u IH]; simpl.
  - destruct t as [|c t]; [congruence|]. cbn [has_border].
    apply orb_true_iff. left. apply andb_true_iff. split.
    + apply prefixb_iff. now exists q.
    + apply Nat.ltb_lt. rewrite length_append.
      destruct q; [congruence | simpl; lia].
  - now rewrite IH, orb_true_r.
Qed.

(** In a document whose substituted texts hold no [<], a piece of markup
    that starts with [<] and cannot straddle the end of a literal part
    occurs in the document exactly when a literal part holds it. *)
Lemma render_contains_iff (needle rest : string) (cs : list Html.chunk) :
  needle = String "<"%char rest ->
  markup_free cs = true ->
  border_free needle cs = true ->
  contains (Html.render cs) needle <-> emits needle cs = true.
Proof.
  intros Hn. induction cs as [|c cs IH]; simpl; intros Hm Hb.
  - split; [|discriminate].
    intros (pre & post & E). subst needle.
    destruct pre; discriminate.
  - apply andb_prop in Hm as [Hm1 Hm2]. apply andb_prop in Hb as [Hb1 Hb2].
    specialize (IH Hm2 Hb2). rewrite orb_true_iff, <- IH. split.
    + intros Hc. apply contains_append in Hc
        as [Hc | [Hc | (u & t & q & post & Ea & Ht & Hq & En & Eb)]].
      * destruct c as [l|t]; simpl in *.
        -- left. now apply occurs_iff.
        -- exfalso. destruct Hc as (pre & post & ->). subst needle.
           simpl in Hm1. rewrite memb_append in Hm1. discriminate.
      * now right.
      * exfalso. destruct c as [l|s]; simpl in *.
        -- subst l. rewrite (has_border_complete needle u t q Ht Hq En) in Hb1.
           discriminate.
        -- subst s. destruct t as [|x t]; [congruence|].
           rewrite Hn in En. injection En as <- _.
           rewrite memb_append in Hm1. discriminate.
    + intros [Hc | Hc].
      * destruct c as [l|t]; [|discriminate].
        apply contains_append_l. now apply occurs_iff.
      * now apply contains_append_r.
Qed.

Lemma suffixb_sound (t s : string) : suffixb t s = true -> exists u, s = u ++ t.
Proof.
  induction s as [|c s IH]; simpl; rewrite orb_true_iff.
  - intros [E | E]; [|discriminate]. apply String.eqb_eq in E. subst. now exists "".
  - intros [E | E].
    + apply String.eqb_eq in E. subst. now exists "".
    + destruct (IH E) as (u & ->). now exists (String c u).
Qed.

(** What lies between the end of one literal part and the beginning of a
    later one occurs in the text, with that end before it and that
    beginning after it. *)
Lemma contains_between (l1 l2 s1 p2 mid tail : string) :
  suffixb s1 l1 = true -> prefixb p2 l2 = true ->
  contains (l1 ++ mid ++ l2 ++ tail) (s1 ++ mid ++ p2).
Proof.
  intros Hs Hp.
  destruct (suffixb_sound _ _ Hs) as (u & ->).
  apply prefixb_iff in Hp as (v & ->).
  exists u, (v ++ tail). now rewrite !append_assoc.
Qed.

Lemma concat_empty_cons (x : string) (xs : list string) :
  String.concat "" (x :: xs) = x ++ String.concat "" xs.
Proof.
  destruct xs as [|y xs]; simpl; [now rewrite append_nil_r | reflexivity].
Qed.

(** The body of the composed document is the template's output. *)
Lemma document_contains_body (data : Html.ContentRecord) (colors : Html.Colors)
    (html needle : string) :
  contains html needle ->
  contains (Html.render (Html.document_parts data colors html)) needle.
Proof.
  intros Hc. unfold Html.document_parts.
  cbn [Html.render Html.chunk_text app].
  do 11 apply contains_append_r.
  now apply contains_append_l.
Qed.

(** ** The skills block *)

Lemma render_chips (skillsList : list string) :
  Html.render
    (flat_map (fun skill : string =>
       [ Html.Lit ("<span class=" ++ dq ++ "skill" ++ dq ++ ">");
         Html.Sub skill; Html.Lit "</span>" ]) skillsList)
  = String.concat "" (map chip skillsList).
Proof.
  induction skillsList as [|skill rest IH]; [reflexivity|].
  cbn [flat_map map]. rewrite render_app, IH, concat_empty_cons.
  unfold chip. cbn [Html.render Html.chunk_text].
  now rewrite append_nil_r, !append_assoc.
Qed.

(** The skills container of the modern template holds one chip for each
    skill of the list, in the order of the list, and nothing else. *)
Lemma modern_skills_block (now : Date) (data : Html.ContentRecord)
    (skillsList : list string) (colors : Html.Colors) :
  contains (Html.generateModernTemplate now data skillsList colors)
           (skillsBlock (map chip skillsList)).
Proof.
  unfold Html.generateModernTemplate, Html.generateModernTemplate_parts.
  rewrite !render_app.
  do 2 apply contains_append_r.
  rewrite render_chips.
  cbn [Html.render Html.chunk_text].
  rewrite !append_nil_r.
  unfold skillsBlock.
  apply contains_between; vm_compute; reflexivity.
Qed.

Lemma split_comma_nonempty (s : string) : split_comma s <> [].
Proof. unfold split_comma. destruct (split_pieces s). discriminate. Qed.

(** C9: when [skills] is absent, [null] or the empty string, the fallback
    splits the empty string, which gives the one-element list [['']] and
    not the empty list (for any string the list has at least one element);
    the modern template draws one chip for each element, so the skills
    container of the generated document holds exactly one chip, with empty
    text. *)
Theorem skills_fallback_one_empty_chip :
  forall (now : Date) (data : Html.ContentRecord) (v : jsval)
         (customizations : option Html.Customizations),
    Html.skills data = Html.SkOther v ->
    truthy v = false ->
    Html.skillsListOf (Html.skills data) = Ok [""]
    /\ (forall s, exists first others,
           Html.skillsListOf (Html.SkOther (JStr s)) = Ok (first :: others))
    /\ (forall colors,
           contains (Html.generateModernTemplate now data [""] colors)
                    (skillsBlock [chip ""]))
    /\ exists document,
         Html.generatePortfolioHTML now data (JStr "modern") customizations = Ok document
         /\ contains document
              ("<div class=" ++ dq ++ "skills" ++ dq ++ ">" ++ nl
               ++ "                <span class=" ++ dq ++ "skill" ++ dq ++ "></span>" ++ nl
               ++ "            </div>").
Proof.
  intros now data v customizations Hskills Hfalsy.
  assert (Hlist : Html.skillsListOf (Html.skills data) = Ok [""]).
  { rewrite Hskills. unfold Html.skillsListOf. rewrite Hfalsy. reflexivity. }
  split; [exact Hlist|]. split.
  { intros s. unfold Html.skillsListOf.
    destruct (truthy (JStr s)); unfold split_comma.
    - destruct (split_pieces s) as [piece others]. simpl. eauto.
    - simpl. eauto. }
  split.
  { intros colors. apply (modern_skills_block now data [""] colors). }
  unfold Html.generatePortfolioHTML. rewrite Hlist.
  eexists. split; [reflexivity|].
  apply document_contains_body.
  apply (modern_skills_block now data [""]).
Qed.

Lemma skills_fallback_one_empty_chip_witness :
  let now := mkDate 1700000000000 2023 "11/14/2023" in
  let data :=
    Html.mkContent (JStr "Ama K.") JUndefined JUndefined JUndefined (JStr "")
      JUndefined (Html.SkOther JUndefined) JUndefined JUndefined
      JUndefined JUndefined JUndefined JUndefined JUndefined JUndefined
      (JStr "ama@x.com") JUndefined in
  Html.skillsListOf (Html.skills data) = Ok [""].
Proof.
  intros now data.
  apply (skills_fallback_one_empty_chip now data JUndefined None);
    reflexivity.
Defined.

(** ** Fields that are interpolated unconditionally *)

Lemma modern_about_body (now : Date) (data : Html.ContentRecord)
    (skillsList : list string) (colors : Html.Colors) :
  contains (Html.generateModernTemplate now data skillsList colors)
           (aboutOpen ++ toString (Html.aboutMe data) ++ "</div>").
Proof.
  unfold Html.generateModernTemplate, Html.generateModernTemplate_parts.
  cbn [Html.render Html.chunk_text app].
  do 10 apply contains_append_r.
  apply contains_between; vm_compute; reflexivity.
Qed.

Lemma modern_experience_line (now : Date) (data : Html.ContentRecord)
    (skillsList : list string) (colors : Html.Colors) :
  contains (Html.generateModernTemplate now data skillsList colors)
           ("<p>" ++ toString (Html.experience data) ++ " • ").
Proof.
  unfold Html.generateModernTemplate, Html.generateModernTemplate_parts.
  cbn [Html.render Html.chunk_text app].
  do 6 apply contains_append_r.
  apply contains_between; vm_compute; reflexivity.
Qed.

Lemma document_title (data : Html.ContentRecord) (colors : Html.Colors) (html : string) :
  contains (Html.render (Html.document_parts data colors html))
           ("<title>" ++ toString (Html.name data) ++ " - "
            ++ toString (Html.title data) ++ "</title>").
Proof.
  unfold Html.document_parts.
  cbn [Html.render Html.chunk_text app].
  rewrite <- !(append_assoc " - " (toString (Html.title data))).
  rewrite <- !(append_assoc (toString (Html.name data))
                 (" - " ++ toString (Html.title data))).
  apply contains_between; vm_compute; reflexivity.
Qed.

Lemma toString_empty (v : jsval) : toString v = "" <-> v = JStr "".
Proof.
  split; [|intros ->; reflexivity].
  destruct v; simpl; try discriminate. now intros ->.
Qed.

Ltac find_between :=
  first [ apply contains_between; vm_compute; reflexivity
        | apply contains_append_r; find_between ].

Lemma classic_about_body (now : Date) (data : Html.ContentRecord)
    (skillsList : list string) (colors : Html.Colors) :
  contains (Html.generateClassicTemplate now data skillsList colors)
           (classicAboutOpen ++ toString (Html.aboutMe data) ++ "</div>").
Proof.
  unfold Html.generateClassicTemplate, Html.generateClassicTemplate_parts.
  cbn [Html.render Html.chunk_text app].
  find_between.
Qed.

Lemma artistic_about_body (now : Date) (data : Html.ContentRecord)
    (skillsList : list string) (colors : Html.Colors) :
  contains (Html.generateArtisticTemplate now data skillsList colors)
           (artisticAbout (toString (Html.aboutMe data))).
Proof.
  unfold Html.generateArtisticTemplate, Html.generateArtisticTemplate_parts.
  cbn [Html.render Html.chunk_text app].
  unfold artisticAbout.
  find_between.
Qed.

Lemma artistic_experience_line (now : Date) (data : Html.ContentRecord)
    (skillsList : list string) (colors : Html.Colors) :
  contains (Html.generateArtisticTemplate now data skillsList colors)
           (("font-size: 1.1rem;" ++ dq ++ ">") ++ toString (Html.experience data)
            ++ " Artist • ").
Proof.
  unfold Html.generateArtisticTemplate, Html.generateArtisticTemplate_parts.
  cbn [Html.render Html.chunk_text app].
  find_between.
Qed.

Lemma switch_template_strategy (now : Date) (template : jsval)
    (data : Html.ContentRecord) (skillsList : list string) (colors : Html.Colors) :
  Html.switch_template now template data skillsList colors
  = spec_run (spec_strategyOf template) now data skillsList colors.
Proof.
  destruct template as [| |t|]; try reflexivity.
  unfold Html.switch_template, spec_strategyOf, spec_select.
  destruct (String.eqb t "modern") eqn:Em.
  - apply String.eqb_eq in Em. subst. reflexivity.
  - destruct (String.eqb t "classic"); [reflexivity|].
    destruct (String.eqb t "artistic"); reflexivity.
Qed.

Lemma strategy_about_block (strategy : spec_strategy) (now : Date)
    (data : Html.ContentRecord) (skillsList : list string) (colors : Html.Colors) :
  contains (spec_run strategy now data skillsList colors)
           (aboutBlock strategy (toString (Html.aboutMe data))).
Proof.
  destruct strategy; cbn [spec_run aboutBlock].
  - apply modern_about_body.
  - apply classic_about_body.
  - apply artistic_about_body.
Qed.

Lemma strategy_experience_line (strategy : spec_strategy) (now : Date)
    (data : Html.ContentRecord) (skillsList : list string) (colors : Html.Colors)
    (line : string) :
  experienceLine strategy (toString (Html.experience data)) = Some line ->
  contains (spec_run strategy now data skillsList colors) line.
Proof.
  destruct strategy; cbn [spec_run experienceLine]; intros E;
    try discriminate E; injection E as <-.
  - apply modern_experience_line.
  - apply artistic_experience_line.
Qed.

Lemma skillsUsable_list (v : Html.skillsValue) :
  skillsUsable v <-> exists skillsList, Html.skillsListOf v = Ok skillsList.
Proof.
  destruct v as [items | n | b | v]; cbn [skillsUsable Html.skillsListOf].
  - split; [eauto | trivial].
  - destruct (Html.numberTruthy n).
    + split; [discriminate | intros (l & E); discriminate E].
    + split; [eauto | reflexivity].
  - destruct b.
    + split; [discriminate | intros (l & E); discriminate E].
    + split; [eauto | reflexivity].
  - destruct v as [| |t|]; cbn [truthy].
    + split; [eauto | trivial].
    + split; [eauto | trivial].
    + destruct (negb (String.eqb t "")); (split; [eauto | trivial]).
    + split; [intros [] | intros (l & E); discriminate E].
Qed.

(** C10: the composer returns a document whenever [skills] is an array, a
    string or falsy.  In that document, the title, the About block of the
    template that was selected and, in the modern and the artistic
    template, the experience line hold the text that the value of the field
    converts to: the word [undefined] for an absent [title], [aboutMe] or
    [experience], and an empty About body for the empty string and for no
    other value. *)
Theorem absent_fields_render_undefined :
  forall (now : Date) (data : Html.ContentRecord) (template : jsval)
         (customizations : option Html.Customizations),
    skillsUsable (Html.skills data) ->
    let strategy := spec_strategyOf template in
    exists document,
      Html.generatePortfolioHTML now data template customizations = Ok document
      /\ contains document
           ("<title>" ++ toString (Html.name data) ++ " - "
            ++ toString (Html.title data) ++ "</title>")
      /\ contains document (aboutBlock strategy (toString (Html.aboutMe data)))
      /\ (forall line,
            experienceLine strategy (toString (Html.experience data)) = Some line ->
            contains document line)
      /\ (Html.title data = JUndefined ->
          contains document
            ("<title>" ++ toString (Html.name data) ++ " - undefined</title>"))
      /\ (Html.aboutMe data = JUndefined ->
          contains document (aboutBlock strategy "undefined"))
      /\ (Html.aboutMe data = JStr "" ->
          contains document (aboutBlock strategy ""))
      /\ (Html.experience data = JUndefined ->
          forall line,
            experienceLine strategy "undefined" = Some line ->
            contains document line)
      /\ (toString (Html.aboutMe data) = "" <-> Html.aboutMe data = JStr "").
Proof.
  intros now data template customizations Hskills strategy.
  apply skillsUsable_list in Hskills. destruct Hskills as (items & Hlist).
  unfold Html.generatePortfolioHTML. rewrite Hlist.
  eexists. split; [reflexivity|].
  set (colors := Html.resolveColors customizations).
  assert (Htitle := document_title data colors
                      (Html.switch_template now template data items colors)).
  assert (Habout : contains
                     (Html.render
                        (Html.document_parts data colors
                           (Html.switch_template now template data items colors)))
                     (aboutBlock strategy (toString (Html.aboutMe data)))).
  { apply document_contains_body. rewrite switch_template_strategy.
    apply strategy_about_block. }
  assert (Hexp : forall line,
             experienceLine strategy (toString (Html.experience data)) = Some line ->
             contains
               (Html.render
                  (Html.document_parts data colors
                     (Html.switch_template now template data items colors)))
               line).
  { intros line E. apply document_contains_body. rewrite switch_template_strategy.
    now apply strategy_experience_line. }
  split; [exact Htitle|].
  split; [exact Habout|].
  split; [exact Hexp|].
  split; [intros E; rewrite E in Htitle; exact Htitle|].
  split; [intros E; rewrite E in Habout; exact Habout|].
  split; [intros E; rewrite E in Habout; exact Habout|].
  split; [intros E; rewrite E in Hexp; exact Hexp|].
  apply toString_empty.
Qed.

Lemma absent_fields_render_undefined_witness :
  let now := mkDate 1700000000000 2023 "11/14/2023" in
  let data :=
    Html.mkContent (JStr "Ama K.") JUndefined JUndefined JUndefined JUndefined
      JUndefined (Html.SkOther JUndefined) JUndefined JUndefined
      JUndefined JUndefined JUndefined JUndefined JUndefined JUndefined
      (JStr "ama@x.com") JUndefined in
  exists document,
    Html.generatePortfolioHTML now data (JStr "artistic") None = Ok document
    /\ contains document "<title>Ama K. - undefined</title>"
    /\ contains document (artisticAbout "undefined")
    /\ contains document (("font-size: 1.1rem;" ++ dq ++ ">") ++ "undefined Artist • ").
Proof.
  intros now data.
  destruct (absent_fields_render_undefined now data (JStr "artistic") None)
    as (document & Hdoc & _ & _ & _ & Htitle & Habout & _ & Hexp & _).
  - exact I.
  - exists document. split; [exact Hdoc|].
    split; [apply Htitle; reflexivity|].
    split; [apply Habout; reflexivity|].
    apply Hexp; reflexivity.
Defined.

(** ** Conditional sections *)

Lemma emits_app (needle : string) (xs ys : list Html.chunk) :
  emits needle (xs ++ ys) = emits needle xs || emits needle ys.
Proof. apply existsb_app. Qed.

Lemma emits_when (needle : string) (cond : bool) (cs : list Html.chunk) :
  emits needle (Html.when cond cs) = cond && emits needle cs.
Proof. destruct cond; reflexivity. Qed.

Lemma emits_flat_map (needle : string) (A : Type) (f : A -> list Html.chunk)
    (items : list A) :
  (forall item, emits needle (f item) = false) ->
  emits needle (flat_map f items) = false.
Proof.
  intros Hf. induction items as [|item items IH]; simpl; [reflexivity|].
  now rewrite emits_app, Hf, IH.
Qed.

Lemma border_free_app (needle : string) (xs ys : list Html.chunk) :
  border_free needle (xs ++ ys) = border_free needle xs && border_free needle ys.
Proof. apply forallb_app. Qed.

Lemma border_free_when (needle : string) (cond : bool) (cs : list Html.chunk) :
  border_free needle cs = true -> border_free needle (Html.when cond cs) = true.
Proof. destruct cond; [trivial | reflexivity]. Qed.

Lemma border_free_flat_map (needle : string) (A : Type) (f : A -> list Html.chunk)
    (items : list A) :
  (forall item, border_free needle (f item) = true) ->
  border_free needle (flat_map f items) = true.
Proof.
  intros Hf. induction items as [|item items IH]; simpl; [reflexivity|].
  now rewrite border_free_app, Hf, IH.
Qed.

Lemma section_rule_intro (parts : list Html.chunk) (markup : string) (shown : bool) :
  prefixb "<" markup = true ->
  emits markup parts = shown ->
  border_free markup parts = true ->
  section_rule parts markup shown.
Proof.
  intros Hp He Hb. split; [exact He|]. intros Hm.
  apply prefixb_iff in Hp as (rest & Hp). simpl in Hp.
  rewrite (render_contains_iff markup rest parts Hp Hm Hb), He. reflexivity.
Qed.

(** Gives a name to each run of parts of a template, so that the text of
    the template is looked at once only. *)
Ltac name_pieces H :=
  repeat match type of H with
         | context [@cons Html.chunk ?c ?cs] =>
             let P := fresh "piece" in
             set (P := @cons Html.chunk c cs) in H
         end.

Ltac eval_parts :=
  repeat first
    [ rewrite emits_app
    | rewrite emits_when
    | rewrite emits_flat_map by (intros; vm_compute; reflexivity)
    | rewrite border_free_app
    | rewrite border_free_when by (vm_compute; reflexivity)
    | rewrite border_free_flat_map by (intros; vm_compute; reflexivity) ];
  repeat match goal with
         | |- context [emits ?n ?p] =>
             is_var p;
             let t := constr:(emits n p) in
             let v := eval vm_compute in t in
             replace t with v by (vm_compute; reflexivity)
         | |- context [border_free ?n ?p] =>
             is_var p;
             let t := constr:(border_free n p) in
             let v := eval vm_compute in t in
             replace t with v by (vm_compute; reflexivity)
         end;
  rewrite ?andb_false_r, ?andb_true_r, ?orb_false_r, ?orb_false_l;
  try reflexivity.

Ltac prove_rule H :=
  apply section_rule_intro;
  [ vm_compute; reflexivity | rewrite H; eval_parts | rewrite H; eval_parts ].

Ltac prove_emits H := rewrite H; eval_parts.

Ltac prove_section H :=
  match goal with
  | |- section_rule _ _ _ => prove_rule H
  | |- emits _ _ = _ => prove_emits H
  end.

Ltac split_rules := repeat match goal with |- _ /\ _ => split end.

Lemma modern_sections (now : Date) (data : Html.ContentRecord)
    (skillsList : list string) (colors : Html.Colors) :
  forall parts,
    parts = Html.generateModernTemplate_parts now data skillsList colors ->
    section_rule parts (heading "About Me") true
    /\ section_rule parts (heading "Skills") true
    /\ section_rule parts (heading "Experience") (truthy (Html.jobs data))
    /\ section_rule parts (heading "Services") (truthy (Html.services data))
    /\ section_rule parts (heading "Testimonials") (truthy (Html.testimonials data))
    /\ section_rule parts (icon "fab fa-instagram") (truthy (Html.instagram data))
    /\ section_rule parts (icon "fab fa-youtube") (truthy (Html.youtube data))
    /\ section_rule parts (icon "fab fa-tiktok") (truthy (Html.tiktok data))
    /\ section_rule parts (icon "fab fa-facebook") (truthy (Html.facebook data))
    /\ section_rule parts (icon "fab fa-twitter") (truthy (Html.twitter data))
    /\ section_rule parts (icon "fas fa-globe") (truthy (Html.website data))
    /\ emits "<p>Phone: " parts = truthy (Html.phone data).
Proof.
  intros parts Hparts.
  unfold Html.generateModernTemplate_parts in Hparts.
  name_pieces Hparts.
  split_rules; prove_section Hparts.
Qed.

Lemma classic_sections (now : Date) (data : Html.ContentRecord)
    (skillsList : list string) (colors : Html.Colors) :
  forall parts,
    parts = Html.generateClassicTemplate_parts now data skillsList colors ->
    section_rule parts (heading "About Me") true
    /\ section_rule parts (heading "Skills") true
    /\ section_rule parts (heading "Experience") (truthy (Html.jobs data))
    /\ section_rule parts (heading "Services") (truthy (Html.services data))
    /\ section_rule parts (heading "Testimonials") (truthy (Html.testimonials data))
    /\ section_rule parts (icon "fab fa-instagram") (truthy (Html.instagram data))
    /\ section_rule parts (icon "fab fa-youtube") (truthy (Html.youtube data))
    /\ section_rule parts (icon "fab fa-tiktok") (truthy (Html.tiktok data))
    /\ section_rule parts "<strong>Phone:</strong>" (truthy (Html.phone data)).
Proof.
  intros parts Hparts.
  unfold Html.generateClassicTemplate_parts in Hparts.
  name_pieces Hparts.
  split_rules; prove_section Hparts.
Qed.

Lemma artistic_sections (now : Date) (data : Html.ContentRecord)
    (skillsList : list string) (colors : Html.Colors) :
  forall parts,
    parts = Html.generateArtisticTemplate_parts now data skillsList colors ->
    section_rule parts
      (styledHeading "font-size: 2.5rem; margin-bottom: 2rem;" "My Artistic Journey") true
    /\ section_rule parts (styledHeading "font-size: 2rem;" "Artistic Skills") true
    /\ section_rule parts
         (styledHeading "text-align: center; font-size: 2rem;" "Performance History")
         (truthy (Html.jobs data))
    /\ section_rule parts (styledHeading "font-size: 2rem;" "Voices of Appreciation")
         (truthy (Html.testimonials data))
    /\ section_rule parts (icon "fab fa-instagram") (truthy (Html.instagram data))
    /\ section_rule parts (icon "fab fa-youtube") (truthy (Html.youtube data))
    /\ section_rule parts (icon "fab fa-tiktok") (truthy (Html.tiktok data))
    /\ emits ("<p style=" ++ dq ++ "font-size: 1.1rem;" ++ dq ++ ">Phone: ") parts
       = truthy (Html.phone data).
Proof.
  intros parts Hparts.
  unfold Html.generateArtisticTemplate_parts in Hparts.
  name_pieces Hparts.
  split_rules; prove_section Hparts.
Qed.

(** C4, as stated, fails: the About block is written whatever [aboutMe]
    holds, so an empty [aboutMe] gives a heading over an empty container;
    and the artistic template has no Services block, so a non-empty
    [services] does not always produce its section. *)
Lemma about_block_rendered_when_empty :
  let now := mkDate 1700000000000 2023 "11/14/2023" in
  let data :=
    Html.mkContent (JStr "Ama K.") (JStr "Singer") (JStr "advanced") JUndefined
      (JStr "") JUndefined (Html.SkArray ["vocals"]) (JStr "Studio recording")
      JUndefined JUndefined JUndefined JUndefined JUndefined JUndefined JUndefined
      (JStr "ama@x.com") JUndefined in
  truthy (Html.aboutMe data) = false
  /\ contains (Html.generateModernTemplate now data ["vocals"] Html.defaultColors)
       ("<h2>About Me</h2>" ++ nl
        ++ "            <div class=" ++ dq ++ "section-content" ++ dq ++ "></div>")
  /\ truthy (Html.services data) = true
  /\ ~ contains (Html.generateArtisticTemplate now data ["vocals"] Html.defaultColors)
         "Services".
Proof.
  intros now data. split; [reflexivity|]. split.
  - apply (modern_about_body now data ["vocals"] Html.defaultColors).
  - split; [reflexivity|].
    intros Hc. apply occurs_iff in Hc. vm_compute in Hc. discriminate.
Qed.

(** C4, amended: each conditional block of a template is written exactly
    when its field is non-empty.  These are, in the modern template, the
    Experience, Services and Testimonials sections, the links of the six
    platforms and the phone line; in the classic template the same three
    sections, the instagram, youtube and tiktok links and the phone line;
    in the artistic template the Performance History and Voices of
    Appreciation sections, the same three links and the phone line.  The
    About block and the Skills block are not conditional: every template
    writes them whatever the record holds. *)
Theorem sections_follow_their_fields :
  forall (now : Date) (data : Html.ContentRecord) (skillsList : list string)
         (colors : Html.Colors),
    (let parts := Html.generateModernTemplate_parts now data skillsList colors in
     Html.generateModernTemplate now data skillsList colors = Html.render parts
     /\ section_rule parts (heading "About Me") true
     /\ section_rule parts (heading "Skills") true
     /\ section_rule parts (heading "Experience") (truthy (Html.jobs data))
     /\ section_rule parts (heading "Services") (truthy (Html.services data))
     /\ section_rule parts (heading "Testimonials") (truthy (Html.testimonials data))
     /\ section_rule parts (icon "fab fa-instagram") (truthy (Html.instagram data))
     /\ section_rule parts (icon "fab fa-youtube") (truthy (Html.youtube data))
     /\ section_rule parts (icon "fab fa-tiktok") (truthy (Html.tiktok data))
     /\ section_rule parts (icon "fab fa-facebook") (truthy (Html.facebook data))
     /\ section_rule parts (icon "fab fa-twitter") (truthy (Html.twitter data))
     /\ section_rule parts (icon "fas fa-globe") (truthy (Html.website data))
     /\ emits "<p>Phone: " parts = truthy (Html.phone data))
    /\ (let parts := Html.generateClassicTemplate_parts now data skillsList colors in
        Html.generateClassicTemplate now data skillsList colors = Html.render parts
        /\ section_rule parts (heading "About Me") true
        /\ section_rule parts (heading "Skills") true
        /\ section_rule parts (heading "Experience") (truthy (Html.jobs data))
        /\ section_rule parts (heading "Services") (truthy (Html.services data))
        /\ section_rule parts (heading "Testimonials") (truthy (Html.testimonials data))
        /\ section_rule parts (icon "fab fa-instagram") (truthy (Html.instagram data))
        /\ section_rule parts (icon "fab fa-youtube") (truthy (Html.youtube data))
        /\ section_rule parts (icon "fab fa-tiktok") (truthy (Html.tiktok data))
        /\ section_rule parts "<strong>Phone:</strong>" (truthy (Html.phone data)))
    /\ (let parts := Html.generateArtisticTemplate_parts now data skillsList colors in
        Html.generateArtisticTemplate now data skillsList colors = Html.render parts
        /\ section_rule parts
             (styledHeading "font-size: 2.5rem; margin-bottom: 2rem;" "My Artistic Journey")
             true
        /\ section_rule parts (styledHeading "font-size: 2rem;" "Artistic Skills") true
        /\ section_rule parts
             (styledHeading "text-align: center; font-size: 2rem;" "Performance History")
             (truthy (Html.jobs data))
        /\ section_rule parts (styledHeading "font-size: 2rem;" "Voices of Appreciation")
             (truthy (Html.testimonials data))
        /\ section_rule parts (icon "fab fa-instagram") (truthy (Html.instagram data))
        /\ section_rule parts (icon "fab fa-youtube") (truthy (Html.youtube data))
        /\ section_rule parts (icon "fab fa-tiktok") (truthy (Html.tiktok data))
        /\ emits ("<p style=" ++ dq ++ "font-size: 1.1rem;" ++ dq ++ ">Phone: ") parts
           = truthy (Html.phone data)).
Proof.
  intros now data skillsList colors.
  split; [|split]; cbv zeta; (split; [reflexivity|]).
  - exact (modern_sections now data skillsList colors _ eq_refl).
  - exact (classic_sections now data skillsList colors _ eq_refl).
  - exact (artistic_sections now data skillsList colors _ eq_refl).
Qed.

Lemma sections_follow_their_fields_witness :
  let now := mkDate 1700000000000 2023 "11/14/2023" in
  let data :=
    Html.mkContent (JStr "Ama K.") (JStr "Singer") (JStr "advanced") JUndefined
      (JStr "") (JStr "Lead vocalist, 2019 to 2023") (Html.SkArray ["vocals"])
      JUndefined (JStr "") (JStr "https://instagram.com/ama") JUndefined JUndefined
      JUndefined JUndefined JUndefined (JStr "ama@x.com") JUndefined in
  let document := Html.generateModernTemplate now data ["vocals"] Html.defaultColors in
  contains document "<h2>Experience</h2>"
  /\ ~ contains document "<h2>Services</h2>"
  /\ ~ contains document "<h2>Testimonials</h2>".
Proof.
  intros now data document.
  destruct (sections_follow_their_fields now data ["vocals"] Html.defaultColors)
    as ((_ & _ & _ & (_ & Hexp) & (_ & Hserv) & (_ & Htest) & _) & _).
  assert (Hfree : markup_free
            (Html.generateModernTemplate_parts now data ["vocals"] Html.defaultColors)
          = true) by (vm_compute; reflexivity).
  split; [|split].
  - apply (Hexp Hfree). reflexivity.
  - intros Hc. apply (Hserv Hfree) in Hc. discriminate.
  - intros Hc. apply (Htest Hfree) in Hc. discriminate.
Defined.

(** ** The PDF composer: what the drawing code does to the document *)

Section PdfProperties.

Import Pdf.
Context `{Runtime}.
Local Open Scope float_scope.
Local Open Scope list_scope.

Lemma appends_ret (A : Type) (a : A) : appends (ret a).
Proof. intros [i cs s]. unfold ret, drawn, blank. simpl. now rewrite app_nil_r. Qed.

Lemma appends_record (c : call) : appends (record c).
Proof. intros [i cs s]. reflexivity. Qed.

Lemma appends_fontSize (size : float) : appends (doc_fontSize size).
Proof. intros [i cs s]. reflexivity. Qed.

Lemma appends_widthOfString (s : string) : appends (doc_widthOfString s).
Proof.
  intros [i cs sz]. unfold doc_widthOfString, drawn, blank. simpl.
  now rewrite app_nil_r.
Qed.

Lemma appends_bind (A B : Type) (m : Draw A) (k : A -> Draw B) :
  appends m -> (forall a, appends (k a)) -> appends (bind m k).
Proof.
  intros Hm Hk doc.
  pose proof (Hm doc) as E. pose proof (Hm (blank doc)) as E0.
  unfold drawn in *. change (blank (blank doc)) with (blank doc) in E0.
  unfold bind. rewrite E. clear E.
  destruct (m (blank doc)) as [a [i0 c0 s0]]. simpl in *.
  injection E0 as Ei. subst i0.
  rewrite (Hk a (mkDocument (info doc) (calls doc ++ c0) s0)).
  rewrite (Hk a (mkDocument (info doc) c0 s0)).
  unfold drawn, blank. simpl. now rewrite app_assoc.
Qed.

Lemma appends_whenM (cond : bool) (m : Draw unit) :
  appends m -> appends (whenM cond m).
Proof. destruct cond; [trivial | intros _; apply appends_ret]. Qed.

Lemma appends_forEach (A : Type) (f : A -> Draw unit) (items : list A) :
  (forall item, appends (f item)) -> appends (forEach f items).
Proof.
  intros Hf. induction items as [|item items IH]; simpl.
  - apply appends_ret.
  - apply appends_bind; auto.
Qed.

Lemma appends_forEachWith (A V : Type) (f : V -> A -> Draw V) (items : list A) :
  (forall vars item, appends (f vars item)) ->
  forall vars, appends (forEachWith f vars items).
Proof.
  intros Hf. induction items as [|item items IH]; intros vars; simpl.
  - apply appends_ret.
  - apply appends_bind; auto.
Qed.

Ltac appends_step :=
  lazymatch goal with
  | |- appends (bind _ _) => apply appends_bind; [|intros]
  | |- appends (ret _) => apply appends_ret
  | |- appends (record _) => apply appends_record
  | |- appends (doc_fontSize _) => apply appends_fontSize
  | |- appends (doc_widthOfString _) => apply appends_widthOfString
  | |- appends (whenM _ _) => apply appends_whenM
  | |- appends (forEach _ _) => apply appends_forEach; intros
  | |- appends (forEachWith _ _ _) => apply appends_forEachWith; intros
  | |- appends (if ?c then _ else _) => destruct c
  | |- appends (match ?x with _ => _ end) => destruct x
  | |- appends (let _ := _ in _) => cbv zeta
  | |- appends _ => solve [auto]
  end.

Ltac appends_tac := repeat appends_step.

Lemma appends_coverPage portfolio primaryRgb accentRgb :
  appends (coverPage portfolio primaryRgb accentRgb).
Proof. unfold coverPage. appends_tac. Qed.

Lemma appends_aboutPage portfolio accentRgb :
  appends (aboutPage portfolio accentRgb).
Proof. unfold aboutPage. appends_tac. Qed.

Lemma appends_sectionPage accentRgb section :
  appends (sectionPage accentRgb section).
Proof. unfold sectionPage. appends_tac. Qed.

Lemma appends_skillChip primaryRgb cursor genre :
  appends (skillChip primaryRgb cursor genre).
Proof. unfold skillChip. appends_tac. Qed.

Lemma appends_socialLine contactY entry :
  appends (socialLine contactY entry).
Proof. unfold socialLine. appends_tac. Qed.

Lemma appends_skillsPage portfolio primaryRgb accentRgb :
  appends (skillsPage portfolio primaryRgb accentRgb).
Proof.
  pose proof (appends_skillChip primaryRgb) as Hchip.
  unfold skillsPage. appends_tac.
Qed.

Lemma appends_contactPage now portfolio primaryRgb accentRgb :
  appends (contactPage now portfolio primaryRgb accentRgb).
Proof.
  pose proof appends_socialLine as Hline.
  unfold contactPage. appends_tac.
Qed.

Lemma appends_drawPortfolio now portfolio : appends (drawPortfolio now portfolio).
Proof.
  unfold drawPortfolio. cbv zeta.
  apply appends_bind; [apply appends_coverPage | intros _].
  apply appends_bind; [apply appends_aboutPage | intros _].
  apply appends_bind;
    [apply appends_forEach; intros; apply appends_sectionPage | intros _].
  apply appends_bind; [apply appends_skillsPage | intros _].
  apply appends_bind; [apply appends_contactPage | intros _].
  apply appends_record.
Qed.

Lemma calls_run (A : Type) (m : Draw A) (doc : Document) :
  appends m -> calls (snd (m doc)) = calls doc ++ drawn m doc.
Proof. intros Hm. now rewrite (Hm doc). Qed.

Lemma drawn_bind (A B : Type) (m : Draw A) (k : A -> Draw B) (doc : Document) :
  appends m -> (forall a, appends (k a)) ->
  drawn (bind m k) doc
  = drawn m doc ++ drawn (k (fst (m (blank doc)))) (snd (m (blank doc))).
Proof.
  intros Hm Hk. unfold drawn at 1. unfold bind.
  destruct (m (blank doc)) as [a d] eqn:E. simpl.
  rewrite (calls_run _ (k a) d (Hk a)).
  unfold drawn at 2. now rewrite E.
Qed.

(** The calls on the document that the route hands over: the file is
    named first and the listener registered last. *)
Lemma calls_generated (now : Date) (portfolio : Portfolio) (file : string)
    (doc : Document) :
  calls doc = [] ->
  calls (snd ((record (Pipe file) ;;
               drawPortfolio now portfolio ;;
               record OnEnd) doc))
  = Pipe file :: drawn (drawPortfolio now portfolio) doc ++ [OnEnd].
Proof.
  intros Hnew. unfold bind, record. cbn [fst snd].
  rewrite (appends_drawPortfolio now portfolio
             (mkDocument (info doc) (calls doc ++ [Pipe file]) (currentFontSize doc))).
  cbn [calls info currentFontSize]. rewrite Hnew. cbn [app].
  reflexivity.
Qed.

(** *** The skills page *)




Lemma noAddPage_chips (primaryRgb : rgb) (placed : list placedChip) :
  noAddPage (flat_map (chipCalls primaryRgb) placed) = true.
Proof. induction placed as [|chip rest IH]; simpl; [reflexivity | exact IH]. Qed.

(** One round of the loop, on a document without calls. *)
Lemma skillChip_run (primaryRgb : rgb) (x y : float) (genre : string) (doc : Document) :
  skillChip primaryRgb (x, y) genre (blank doc)
  = let w := widthOfString (currentFontSize doc) genre + 20 in
    if pageWidth - 50 <? x + w
    then ((50 + (w + 10), y + 35),
          mkDocument (info doc) (chipCalls primaryRgb (mkPlaced genre 50 (y + 35) w)) 10)
    else ((x + (w + 10), y),
          mkDocument (info doc) (chipCalls primaryRgb (mkPlaced genre x y w)) 10).
Proof.
  unfold skillChip, doc_widthOfString, bind, blank. cbv zeta.
  cbn [currentFontSize info calls fst snd].
  destruct (pageWidth - 50 <? x + (widthOfString (currentFontSize doc) genre + 20));
    reflexivity.
Qed.

(** What the loop over the genres draws. *)
Lemma drawn_skillChips (primaryRgb : rgb) (genres : list string) (x y : float)
    (doc : Document) :
  drawn (forEachWith (skillChip primaryRgb) (x, y) genres) doc
  = flat_map (chipCalls primaryRgb) (spec_place (currentFontSize doc) x y genres).
Proof.
  revert x y doc. induction genres as [|genre rest IH]; intros x y doc.
  - reflexivity.
  - cbn [forEachWith spec_place].
    rewrite drawn_bind;
      [ | apply appends_skillChip
        | intros; apply appends_forEachWith; intros; apply appends_skillChip ].
    unfold drawn at 1. rewrite skillChip_run. cbv zeta.
    destruct (pageWidth - 50 <? x + (widthOfString (currentFontSize doc) genre + 20));
      cbn [fst snd calls]; rewrite IH; reflexivity.
Qed.

(** A page opened by [addPage] and headed by a band, followed by [rest]. *)
Lemma drawn_headed_page (A : Type) (accentRgb : rgb) (label : string)
    (rest : Draw A) (doc : Document) :
  appends rest ->
  drawn (record AddPage ;;
         record (Rect 50 50 (pageWidth - 100) 40) ;;
         record (Fill (channels accentRgb)) ;;
         doc_fontSize 18 ;;
         record (FillColor (Named "white")) ;;
         record (Text label 60 (At 65) noOptions) ;;
         rest) doc
  = AddPage :: headerBand accentRgb label
      ++ drawn rest (mkDocument (info doc) [] 18).
Proof.
  intros Hrest. unfold drawn at 1, blank, bind, record, doc_fontSize.
  cbn [fst snd calls info currentFontSize app].
  rewrite (calls_run _ rest _ Hrest). reflexivity.
Qed.

Lemma quiet_ret (A : Type) (a : A) : quiet (ret a).
Proof. split; [apply appends_ret | reflexivity]. Qed.

Lemma quiet_record (c : call) : isAddPage c = false -> quiet (record c).
Proof.
  intros Hc. split; [apply appends_record|].
  intros doc. unfold drawn, record, noAddPage. simpl. now rewrite Hc.
Qed.

Lemma quiet_fontSize (size : float) : quiet (doc_fontSize size).
Proof. split; [apply appends_fontSize | reflexivity]. Qed.

Lemma quiet_bind (A B : Type) (m : Draw A) (k : A -> Draw B) :
  quiet m -> (forall a, quiet (k a)) -> quiet (bind m k).
Proof.
  intros [Hm Qm] Hk. split.
  - apply appends_bind; [exact Hm | intros a; apply Hk].
  - intros doc. rewrite drawn_bind; [|exact Hm | intros a; apply Hk].
    unfold noAddPage. rewrite forallb_app. apply andb_true_iff. split.
    + apply Qm.
    + apply Hk.
Qed.

Lemma quiet_whenM (cond : bool) (m : Draw unit) : quiet m -> quiet (whenM cond m).
Proof. destruct cond; [trivial | intros _; apply quiet_ret]. Qed.

Lemma quiet_forEachWith (A V : Type) (f : V -> A -> Draw V) (items : list A) :
  (forall vars item, quiet (f vars item)) ->
  forall vars, quiet (forEachWith f vars items).
Proof.
  intros Hf. induction items as [|item items IH]; intros vars; simpl.
  - apply quiet_ret.
  - apply quiet_bind; auto.
Qed.

Ltac quiet_step :=
  lazymatch goal with
  | |- quiet (bind _ _) => apply quiet_bind; [|intros]
  | |- quiet (ret _) => apply quiet_ret
  | |- quiet (record _) => apply quiet_record; reflexivity
  | |- quiet (doc_fontSize _) => apply quiet_fontSize
  | |- quiet (whenM _ _) => apply quiet_whenM
  | |- quiet (forEachWith _ _ _) => apply quiet_forEachWith; intros
  | |- quiet (if ?c then _ else _) => destruct c
  | |- quiet (match ?x with _ => _ end) => destruct x
  | |- quiet (let _ := _ in _) => cbv zeta
  | |- quiet _ => solve [auto]
  end.

Ltac quiet_tac := repeat quiet_step.

Lemma quiet_coverPage portfolio primaryRgb accentRgb :
  quiet (coverPage portfolio primaryRgb accentRgb).
Proof. unfold coverPage. quiet_tac. Qed.

Lemma quiet_socialLine contactY entry : quiet (socialLine contactY entry).
Proof. unfold socialLine. quiet_tac. Qed.

(** *** Pages *)

Lemma page_run_nil : page_run [] [].
Proof. exists []. repeat split. Qed.

Lemma page_run_app (l1 l2 : list string) (c1 c2 : list call) :
  page_run l1 c1 -> page_run l2 c2 -> page_run (l1 ++ l2) (c1 ++ c2).
Proof.
  intros (b1 & -> & N1 & L1) (b2 & -> & N2 & L2). exists (b1 ++ b2).
  unfold pageCalls. rewrite flat_map_app, forallb_app, !map_app, N1, N2, L1, L2.
  repeat split.
Qed.

Lemma page_run_headed (accentRgb : rgb) (label : string) (body : list call) :
  noAddPage body = true ->
  page_run [label] (AddPage :: headerBand accentRgb label ++ body).
Proof.
  intros Hb. exists [headerBand accentRgb label ++ body].
  unfold pageCalls. simpl. rewrite app_nil_r, Hb. repeat split.
Qed.

Lemma pagesFrom_quiet (current cs : list call) :
  noAddPage cs = true -> pagesFrom current cs = [current ++ cs].
Proof.
  revert current. induction cs as [|c cs IH]; intros current Hq; simpl.
  - now rewrite app_nil_r.
  - simpl in Hq. apply andb_prop in Hq as [Hc Hq].
    destruct c; try discriminate;
      rewrite (IH _ Hq), <- app_assoc; reflexivity.
Qed.

Lemma pagesFrom_addPage (current cs rest : list call) :
  noAddPage cs = true ->
  pagesFrom current (cs ++ AddPage :: rest) = (current ++ cs) :: pagesFrom [] rest.
Proof.
  revert current. induction cs as [|c cs IH]; intros current Hq; simpl.
  - now rewrite app_nil_r.
  - simpl in Hq. apply andb_prop in Hq as [Hc Hq].
    destruct c; try discriminate;
      rewrite (IH _ Hq), <- app_assoc; reflexivity.
Qed.

Lemma pagesFrom_pageCalls (first : list call) (bodies : list (list call)) :
  noAddPage first = true ->
  forallb noAddPage bodies = true ->
  pagesFrom [] (first ++ pageCalls bodies) = first :: bodies.
Proof.
  revert first. induction bodies as [|body bodies IH]; intros first Hf Hb.
  - unfold pageCalls. simpl. rewrite app_nil_r. now apply pagesFrom_quiet.
  - simpl in Hb. apply andb_prop in Hb as [Hbody Hb].
    unfold pageCalls. cbn [flat_map app].
    rewrite (pagesFrom_addPage [] first _ Hf). simpl.
    f_equal. now apply IH.
Qed.

Lemma pages_about (portfolio : Portfolio) (accentRgb : rgb) (doc : Document) :
  page_run (if present (bio (artist portfolio)) then ["ABOUT THE ARTIST"] else [])
           (drawn (aboutPage portfolio accentRgb) doc).
Proof.
  unfold aboutPage. destruct (present (bio (artist portfolio))); cbn [whenM].
  - rewrite drawn_headed_page by appends_tac.
    apply page_run_headed. reflexivity.
  - apply page_run_nil.
Qed.

Lemma pages_section (accentRgb : rgb) (section : Sec.t) (doc : Document) :
  page_run [sectionLabel section] (drawn (sectionPage accentRgb section) doc).
Proof.
  unfold sectionPage.
  rewrite drawn_headed_page by appends_tac.
  apply page_run_headed.
  destruct (present (Sec.content section)); reflexivity.
Qed.

Lemma pages_sections (accentRgb : rgb) (sections : list Sec.t) (doc : Document) :
  page_run (map sectionLabel sections)
           (drawn (forEach (sectionPage accentRgb) sections) doc).
Proof.
  revert doc. induction sections as [|section rest IH]; intros doc.
  - apply page_run_nil.
  - cbn [forEach map].
    rewrite drawn_bind;
      [ | apply appends_sectionPage
        | intros; apply appends_forEach; intros; apply appends_sectionPage ].
    apply (page_run_app [_]); [apply pages_section | apply IH].
Qed.

Lemma pages_skills (portfolio : Portfolio) (primaryRgb accentRgb : rgb) (doc : Document) :
  page_run (match genres (artist portfolio) with
            | Some (_ :: _) => ["SKILLS & SPECIALTIES"]
            | _ => []
            end)
           (drawn (skillsPage portfolio primaryRgb accentRgb) doc).
Proof.
  unfold skillsPage. destruct (genres (artist portfolio)) as [[|genre others]|];
    try apply page_run_nil.
  pose proof (appends_skillChip primaryRgb) as Hchip.
  rewrite drawn_headed_page by appends_tac.
  apply page_run_headed.
  rewrite drawn_bind; [ | appends_tac | intros; appends_tac ].
  rewrite drawn_skillChips. unfold noAddPage. rewrite forallb_app.
  fold (noAddPage (flat_map (chipCalls primaryRgb)
                     (spec_place 18 50 120 (genre :: others)))).
  now rewrite noAddPage_chips.
Qed.

Lemma pages_contact (now : Date) (portfolio : Portfolio) (primaryRgb accentRgb : rgb)
    (doc : Document) :
  page_run ["CONTACT INFORMATION"]
           (drawn (contactPage now portfolio primaryRgb accentRgb) doc ++ [End]).
Proof.
  pose proof quiet_socialLine as Hline.
  pose proof appends_socialLine as Hline'.
  unfold contactPage.
  rewrite drawn_headed_page by appends_tac.
  cbn [app]. rewrite <- app_assoc.
  apply page_run_headed.
  unfold noAddPage. rewrite forallb_app. apply andb_true_iff. split; [|reflexivity].
  match goal with
  | |- forallb _ (drawn ?rest ?d) = true =>
      assert (Hq : quiet rest) by quiet_tac; apply Hq
  end.
Qed.

Lemma length_pagesFrom (current cs : list call) :
  length (pagesFrom current cs) = S (length (filter isAddPage cs)).
Proof.
  revert current. induction cs as [|c cs IH]; intros current; [reflexivity|].
  destruct c; simpl; now rewrite IH.
Qed.

Lemma drawn_drawPortfolio (now : Date) (portfolio : Portfolio) (doc : Document) :
  exists cover rest,
    drawn (drawPortfolio now portfolio) doc = cover ++ rest
    /\ noAddPage cover = true
    /\ pageLabel cover = Some (name (artist portfolio))
    /\ page_run (spec_pageLabels portfolio) rest.
Proof.
  unfold drawPortfolio. cbv zeta.
  set (primaryRgb := hexToRgb _). set (accentRgb := hexToRgb _).
  pose proof (appends_coverPage portfolio primaryRgb accentRgb) as A1.
  pose proof (appends_aboutPage portfolio accentRgb) as A2.
  assert (A3 : appends (forEach (sectionPage accentRgb) (sections portfolio)))
    by (apply appends_forEach; intros; apply appends_sectionPage).
  pose proof (appends_skillsPage portfolio primaryRgb accentRgb) as A4.
  pose proof (appends_contactPage now portfolio primaryRgb accentRgb) as A5.
  pose proof (appends_sectionPage accentRgb) as A6.
  rewrite drawn_bind; [ | exact A1 | intros; appends_tac ].
  rewrite drawn_bind; [ | exact A2 | intros; appends_tac ].
  rewrite drawn_bind; [ | exact A3 | intros; appends_tac ].
  rewrite drawn_bind; [ | exact A4 | intros; appends_tac ].
  rewrite drawn_bind; [ | exact A5 | intros; appends_tac ].
  eexists _, _. split; [reflexivity|].
  split; [apply quiet_coverPage|].
  split.
  - unfold drawn, blank, coverPage.
    destruct (present (description portfolio)); reflexivity.
  - unfold spec_pageLabels.
    apply page_run_app; [apply pages_about|].
    apply page_run_app; [apply pages_sections|].
    apply page_run_app; [apply pages_skills|].
    apply pages_contact.
Qed.

Lemma filter_isAddPage_drawn (file : string) (drawing : list call) :
  filter isAddPage (Pipe file :: drawing ++ [OnEnd]) = filter isAddPage drawing.
Proof.
  cbn [filter isAddPage]. rewrite filter_app. cbn [filter isAddPage].
  apply app_nil_r.
Qed.

(** C1, amended: the route answers a found portfolio with a document on
    which it starts these pages itself: the cover, on the page the document
    starts with, then one page for the biography when it is non-empty, then
    one page for each section in the order of the array (whether its
    content is empty or not), then one page for the skills when the list of
    genres is non-empty, then the contact page; each of them after the
    cover is opened by one [addPage], and there are no other [addPage]
    calls. *)
Theorem pdf_page_count :
  forall (now : Date) (portfolio : Portfolio),
  exists (file : string) (doc : Document) (drawing : list call),
    generatePdf now (Found portfolio) = Generated file doc
    /\ calls doc = Pipe file :: drawing ++ [OnEnd]
    /\ length (pagesFrom [] drawing) = spec_pageCount portfolio
    /\ S (length (filter isAddPage (calls doc))) = spec_pageCount portfolio
    /\ map pageLabel (pagesFrom [] drawing)
       = Some (name (artist portfolio)) :: map Some (spec_pageLabels portfolio)
    /\ (forall section,
          In section (sections portfolio) ->
          In (Some (sectionLabel section)) (map pageLabel (pagesFrom [] drawing))).
Proof.
  intros now portfolio. unfold generatePdf.
  set (doc0 := newDocument _).
  eexists (filename now portfolio), _, (drawn (drawPortfolio now portfolio) doc0).
  split; [reflexivity|].
  assert (Hcalls := calls_generated now portfolio (filename now portfolio) doc0 eq_refl).
  split; [exact Hcalls|].
  rewrite Hcalls, filter_isAddPage_drawn.
  assert (Hlabels : map pageLabel (pagesFrom [] (drawn (drawPortfolio now portfolio) doc0))
                    = Some (name (artist portfolio))
                        :: map Some (spec_pageLabels portfolio)).
  { destruct (drawn_drawPortfolio now portfolio doc0)
      as (cover & rest & -> & Hq & Hl & bodies & -> & Hb & Hls).
    rewrite (pagesFrom_pageCalls cover bodies Hq Hb).
    cbn [map]. now rewrite Hl, Hls. }
  assert (Hlen : length (pagesFrom [] (drawn (drawPortfolio now portfolio) doc0))
                 = spec_pageCount portfolio).
  { rewrite <- (length_map pageLabel), Hlabels. cbn [length].
    rewrite length_map. unfold spec_pageLabels, spec_pageCount.
    rewrite !length_app, length_map.
    destruct (present (bio (artist portfolio)));
      destruct (genres (artist portfolio)) as [[|? ?]|]; simpl; lia. }
  split; [exact Hlen|].
  split; [rewrite <- Hlen; now rewrite length_pagesFrom|].
  split; [exact Hlabels|].
  intros section Hin. rewrite Hlabels. right.
  apply in_map. unfold spec_pageLabels.
  apply in_or_app. right. apply in_or_app. left. now apply in_map.
Qed.



(** ** The year of the footer *)

Lemma html_depends_on_year (first second : Date) (data : Html.ContentRecord)
    (template : jsval) (customizations : option Html.Customizations) :
  getFullYear first = getFullYear second ->
  Html.generatePortfolioHTML first data template customizations
  = Html.generatePortfolioHTML second data template customizations.
Proof.
  intros Hyear.
  unfold Html.generatePortfolioHTML, Html.switch_template,
    Html.generateModernTemplate, Html.generateClassicTemplate,
    Html.generateArtisticTemplate, Html.generateModernTemplate_parts,
    Html.generateClassicTemplate_parts, Html.generateArtisticTemplate_parts.
  rewrite Hyear. reflexivity.
Qed.

End PdfProperties.

(** ** Evaluations on the sample portfolios *)

Lemma pdf_page_count_witness :
  exists file doc drawing,
    Pdf.generatePdf (H := sampleRuntime) (mkDate 1700000000000 2023 "11/14/2023")
      (Pdf.Found samplePortfolio) = Pdf.Generated file doc
    /\ Pdf.calls doc = Pdf.Pipe file :: drawing ++ [Pdf.OnEnd]
    /\ length (pagesFrom [] drawing) = 6%nat
    /\ map pageLabel (pagesFrom [] drawing)
       = [ Some "Ama K."; Some "ABOUT THE ARTIST"; Some "STAGE"; Some "PRESS";
           Some "SKILLS & SPECIALTIES"; Some "CONTACT INFORMATION" ].
Proof.
  destruct (@pdf_page_count sampleRuntime (mkDate 1700000000000 2023 "11/14/2023")
              samplePortfolio)
    as (file & doc & drawing & Hgen & Hcalls & Hlen & _ & Hlabels & _).
  exists file, doc, drawing.
  split; [exact Hgen|]. split; [exact Hcalls|]. split; [exact Hlen | exact Hlabels].
Defined.

(** C1, as stated, fails: the document of the crowded portfolio has more
    pages than the count gives.  The route starts six pages itself, five of
    them by [addPage]; PDFKit starts three more, for the texts of the last
    two chips and for the footer, which lie below the bottom margin. *)
Lemma pdf_pages_exceed_count :
  exists file doc,
    Pdf.generatePdf (H := sampleRuntime) (mkDate 1700000000000 2023 "11/14/2023")
      (Pdf.Found crowdedPortfolio) = Pdf.Generated file doc
    /\ spec_pageCount crowdedPortfolio = 6%nat
    /\ length (filter isAddPage (Pdf.calls doc)) = 5%nat
    /\ map textHeight
         (filter (fun c => negb (isAddPage c))
                 (pageStarts (H := sampleRuntime) 12 (Pdf.calls doc)))
       = [ Some 793; Some 828; Some (841.89 - 30) ]%float
    /\ (spec_pageCount crowdedPortfolio
        < S (length (pageStarts (H := sampleRuntime) 12 (Pdf.calls doc))))%nat.
Proof.
  eexists _, _. split; [reflexivity|].
  vm_compute. repeat split; lia.
Qed.



Lemma theme_resolved_as_a_whole_witness :
  spec_populated
    (Html.resolveColors
       (Some (Html.mkCustomizations
                (Some (Html.mkColors (JStr "#112233") (JStr "#445566") (JStr "#778899"))))))
  /\ (let theme := Pdf.resolveColors (Pdf.customizations (Pdf.hydrate tintedPortfolio)) in
      Pdf.primary theme = JStr "#112233" /\ Pdf.accent theme = JStr "#FFD23F").
Proof.
  destruct theme_resolved_as_a_whole as (_ & _ & _ & _ & _ & Hiff & Hpdf).
  split.
  - apply (Hiff (Some (Html.mkCustomizations
                         (Some (Html.mkColors (JStr "#112233") (JStr "#445566")
                                              (JStr "#778899")))))).
    repeat split; reflexivity.
  - destruct (Hpdf tintedPortfolio) as (_ & Hprimary & Haccent & _).
    split; [apply Hprimary; discriminate | apply Haccent; reflexivity].
Defined.

Lemma pdf_filenames_witness :
  Pdf.filename (mkDate 1700000000000 2023 "11/14/2023") samplePortfolio
  <> Pdf.filename (mkDate 1700000000001 2023 "11/14/2023") samplePortfolio.
Proof.
  apply (proj1 pdf_filenames). simpl. discriminate.
Defined.

(** * Further properties *)

(** ** The comma-separated skills string *)

Lemma split_pieces_concat (s : string) :
  String.concat "," (fst (split_pieces s) :: snd (split_pieces s)) = s.
Proof.
  induction s as [|c s IH]; [reflexivity|].
  cbn [split_pieces]. destruct (split_pieces s) as [piece others].
  cbn [fst snd] in IH.
  destruct (Ascii.eqb c ","%char) eqn:Ec.
  - apply Ascii.eqb_eq in Ec. subst c. cbn [fst snd].
    change (String.concat "," ("" :: piece :: others))
      with ("" ++ "," ++ String.concat "," (piece :: others)).
    now rewrite IH.
  - cbn [fst snd]. destruct others as [|other others]; simpl in *.
    + now rewrite IH.
    + now rewrite <- IH.
Qed.

Lemma split_pieces_length (s : string) :
  length (snd (split_pieces s)) = commas s.
Proof.
  induction s as [|c s IH]; [reflexivity|].
  cbn [split_pieces commas]. destruct (split_pieces s) as [piece others].
  cbn [snd] in IH. destruct (Ascii.eqb c ","%char); simpl; now rewrite IH.
Qed.

Lemma split_pieces_no_comma (s : string) :
  Forall (fun piece => memb ","%char piece = false)
         (fst (split_pieces s) :: snd (split_pieces s)).
Proof.
  induction s as [|c s IH]; [repeat constructor|].
  cbn [split_pieces]. destruct (split_pieces s) as [piece others].
  cbn [fst snd] in *. inversion IH as [|? ? Hp Ho]; subst.
  destruct (Ascii.eqb c ","%char) eqn:Ec; cbn [fst snd].
  - constructor; [reflexivity | now constructor].
  - constructor; [|assumption]. simpl. now rewrite Ec.
Qed.

Lemma dropSpace_fixed (fwd : bool) (l : list ascii) :
  headSpace fwd l = false -> dropSpace fwd l = l.
Proof.
  destruct l as [|c1 [|c2 [|c3 l]]]; cbn [headSpace dropSpace]; trivial;
    destruct (ws1 c1); cbn [orb]; try discriminate; trivial.
  - destruct (if fwd then ws2 c1 c2 else ws2 c2 c1); [discriminate | trivial].
  - destruct (if fwd then ws2 c1 c2 else ws2 c2 c1); cbn [orb]; [discriminate|].
    destruct (if fwd then ws3 c1 c2 c3 else ws3 c3 c2 c1); [discriminate | trivial].
Qed.

Lemma dropSpace_spec (fwd : bool) (n : nat) (l : list ascii) :
  (length l <= n)%nat ->
  (exists dropped, l = dropped ++ dropSpace fwd l)%list
  /\ headSpace fwd (dropSpace fwd l) = false.
Proof.
  revert l. induction n as [|n IH]; intros l Hn.
  - destruct l; [|simpl in Hn; lia]. split; [now exists []|reflexivity].
  - destruct l as [|c1 l1]; [split; [now exists []|reflexivity]|].
    simpl in Hn.
    assert (Hrec : forall pre rest,
               (c1 :: l1 = pre ++ rest)%list -> (length rest <= n)%nat ->
               (exists dropped, c1 :: l1 = dropped ++ dropSpace fwd rest)%list
               /\ headSpace fwd (dropSpace fwd rest) = false).
    { intros pre rest E Hlen. destruct (IH rest Hlen) as [(d & Hd) Hh].
      split; [|exact Hh]. exists (pre ++ d)%list.
      rewrite <- app_assoc, <- Hd. exact E. }
    cbn [dropSpace]. destruct (ws1 c1) eqn:E1.
    { apply (Hrec [c1]); [reflexivity | lia]. }
    destruct l1 as [|c2 l2].
    { split; [now exists []|]. simpl. now rewrite E1. }
    destruct (if fwd then ws2 c1 c2 else ws2 c2 c1) eqn:E2.
    { apply (Hrec [c1; c2]); [reflexivity | simpl in Hn; lia]. }
    destruct l2 as [|c3 l3].
    { split; [now exists []|]. simpl. now rewrite E1, E2. }
    destruct (if fwd then ws3 c1 c2 c3 else ws3 c3 c2 c1) eqn:E3.
    { apply (Hrec [c1; c2; c3]); [reflexivity | simpl in Hn; lia]. }
    split; [now exists []|]. simpl. now rewrite E1, E2, E3.
Qed.

Lemma headSpace_prefix (fwd : bool) (a b : list ascii) :
  headSpace fwd (a ++ b) = false -> headSpace fwd a = false.
Proof.
  destruct a as [|c1 [|c2 [|c3 a]]]; cbn [headSpace app]; trivial;
    destruct (ws1 c1); cbn [orb]; try discriminate; trivial.
  destruct b; trivial.
  destruct (if fwd then ws2 c1 c2 else ws2 c2 c1); [discriminate | trivial].
Qed.

(** What [trim] leaves: a stretch of the string with no white space at
    either end. *)
Lemma trim_spec (s : string) :
  exists before after t,
    list_ascii_of_string s = (before ++ t ++ after)%list
    /\ trim s = string_of_list_ascii t
    /\ headSpace true t = false
    /\ headSpace false (rev t) = false.
Proof.
  unfold trim. set (l := list_ascii_of_string s).
  destruct (dropSpace_spec true (length l) l (le_n _)) as [(before & Hb) Hh].
  set (a := dropSpace true l) in *.
  destruct (dropSpace_spec false (length (rev a)) (rev a) (le_n _)) as [(d & Hd) Hh'].
  set (b := dropSpace false (rev a)) in *.
  exists before, (rev d), (rev b).
  assert (Ha : a = (rev b ++ rev d)%list).
  { rewrite <- rev_app_distr, <- Hd. now rewrite rev_involutive. }
  repeat split.
  - now rewrite <- Ha.
  - apply (headSpace_prefix true (rev b) (rev d)). now rewrite <- Ha.
  - now rewrite rev_involutive.
Qed.

Lemma trim_idempotent (s : string) : trim (trim s) = trim s.
Proof.
  destruct (trim_spec s) as (before & after & t & _ & -> & Hh & Ht).
  unfold trim. rewrite list_ascii_of_string_of_list_ascii.
  rewrite (dropSpace_fixed true t Hh), (dropSpace_fixed false (rev t) Ht).
  now rewrite rev_involutive.
Qed.

Lemma memb_list (c : ascii) (s : string) :
  memb c s = existsb (Ascii.eqb c) (list_ascii_of_string s).
Proof.
  induction s as [|x s IH]; [reflexivity|]. simpl.
  now rewrite IH, (Ascii.eqb_sym x c).
Qed.

Lemma trim_keeps_out (c : ascii) (s : string) :
  memb c s = false -> memb c (trim s) = false.
Proof.
  destruct (trim_spec s) as (before & after & t & Hs & -> & _).
  rewrite !memb_list, list_ascii_of_string_of_list_ascii, Hs, !existsb_app.
  intros E. apply orb_false_iff in E as [_ E].
  now apply orb_false_iff in E as [E _].
Qed.

(** X1: a skills string is cut at its commas and each piece is trimmed.
    The pieces of [split(',')] joined by commas give the string back; there
    is one piece more than there are commas, so the list is never empty;
    and each skill of the list is free of commas and is its own trim.  An
    array is taken as it is, untrimmed. *)
Theorem skills_string_is_split_and_trimmed :
  forall s : string,
    String.concat "," (split_comma s) = s
    /\ length (split_comma s) = S (commas s)
    /\ (forall items : list string,
          Html.skillsListOf (Html.SkArray items) = Ok items)
    /\ exists skillsList,
         Html.skillsListOf (Html.SkOther (JStr s)) = Ok skillsList
         /\ length skillsList = (if String.eqb s "" then 1%nat else S (commas s))
         /\ forall skill, In skill skillsList ->
              trim skill = skill /\ memb ","%char skill = false.
Proof.
  intros s.
  assert (Hconcat : String.concat "," (split_comma s) = s).
  { unfold split_comma. pose proof (split_pieces_concat s) as E.
    destruct (split_pieces s). exact E. }
  assert (Hlen : length (split_comma s) = S (commas s)).
  { unfold split_comma. pose proof (split_pieces_length s) as E.
    destruct (split_pieces s). simpl in *. now rewrite E. }
  assert (Hitems : forall t skill, In skill (map trim (split_comma t)) ->
                     trim skill = skill /\ memb ","%char skill = false).
  { intros t skill Hin. apply in_map_iff in Hin as (piece & <- & Hin).
    split; [apply trim_idempotent|]. apply trim_keeps_out.
    pose proof (split_pieces_no_comma t) as Hall.
    unfold split_comma in Hin. destruct (split_pieces t).
    rewrite Forall_forall in Hall. now apply Hall. }
  split; [exact Hconcat|]. split; [exact Hlen|]. split; [reflexivity|].
  unfold Html.skillsListOf, truthy.
  destruct (String.eqb s "") eqn:Es; cbn [negb].
  - eexists. split; [reflexivity|]. split; [reflexivity|]. apply Hitems.
  - eexists. split; [reflexivity|]. split; [now rewrite length_map|]. apply Hitems.
Qed.

(** ** One chip for each skill *)

Lemma render_artistic_chips (colors : Html.Colors) (skillsList : list string) :
  Html.render
    (flat_map (fun skill : string =>
       [ Html.Lit ("<span class=" ++ dq ++ "skill" ++ dq ++ " style=" ++ dq
                   ++ "background: linear-gradient(135deg, ");
         Html.Sub (toString (Html.primary colors));
         Html.Lit ", ";
         Html.Sub (toString (Html.accent colors));
         Html.Lit ("); font-size: 1rem; padding: 0.75rem 1.5rem;" ++ dq ++ ">");
         Html.Sub skill;
         Html.Lit "</span>" ]) skillsList)
  = String.concat "" (map (artisticChip colors) skillsList).
Proof.
  induction skillsList as [|skill rest IH]; [reflexivity|].
  cbn [flat_map map]. rewrite render_app, IH, concat_empty_cons.
  unfold artisticChip. cbn [Html.render Html.chunk_text].
  now rewrite append_nil_r, !append_assoc.
Qed.

(** Moves to the skills container of a template. *)
Ltac find_chips :=
  repeat lazymatch goal with
         | |- contains (Html.render [Html.Lit _]
                        ++ Html.render (flat_map _ _) ++ _) _ => fail
         | |- contains (_ ++ _) _ => apply contains_append_r
         end.

(** X2: in each of the three templates the skills container holds one chip
    for each skill of the list, in the order of the list, and nothing
    else. *)
Theorem skills_chips_in_order :
  forall (now : Date) (data : Html.ContentRecord) (skillsList : list string)
         (colors : Html.Colors),
    contains (Html.generateModernTemplate now data skillsList colors)
             (skillsBlock (map chip skillsList))
    /\ contains (Html.generateClassicTemplate now data skillsList colors)
                (classicSkillsBlock (map chip skillsList))
    /\ contains (Html.generateArtisticTemplate now data skillsList colors)
                (artisticSkillsBlock (map (artisticChip colors) skillsList)).
Proof.
  intros now data skillsList colors. split; [|split].
  - apply modern_skills_block.
  - unfold Html.generateClassicTemplate, Html.generateClassicTemplate_parts.
    rewrite !render_app. find_chips.
    rewrite render_chips. cbn [Html.render Html.chunk_text].
    rewrite !append_nil_r. unfold classicSkillsBlock.
    change (?a ++ dq ++ ?b ++ dq ++ ?c ++ nl ++ ?d ++ ?chips ++ nl ++ ?e)
      with ((a ++ dq ++ b ++ dq ++ c ++ nl ++ d) ++ chips ++ (nl ++ e)).
    apply contains_between; vm_compute; reflexivity.
  - unfold Html.generateArtisticTemplate, Html.generateArtisticTemplate_parts.
    rewrite !render_app. find_chips.
    rewrite render_artistic_chips. cbn [Html.render Html.chunk_text].
    rewrite !append_nil_r. unfold artisticSkillsBlock.
    change (?a ++ dq ++ ?b ++ dq ++ ?c ++ dq ++ ?d ++ dq ++ ?e ++ nl ++ ?f
            ++ ?chips ++ nl ++ ?g)
      with ((a ++ dq ++ b ++ dq ++ c ++ dq ++ d ++ dq ++ e ++ nl ++ f)
            ++ chips ++ (nl ++ g)).
    apply contains_between; vm_compute; reflexivity.
Qed.

(** ** Substituted text *)

Lemma contains_trans (a b c : string) :
  contains a b -> contains b c -> contains a c.
Proof.
  intros (pre & post & ->) (pre' & post' & ->).
  exists (pre ++ pre'), (post' ++ post). now rewrite !append_assoc.
Qed.

Lemma sub_in_render (cs : list Html.chunk) (s : string) :
  In (Html.Sub s) cs -> contains (Html.render cs) s.
Proof.
  induction cs as [|c cs IH]; intros Hin; [contradiction|].
  destruct Hin as [-> | Hin]; cbn [Html.render].
  - apply contains_append_l. exists "", "". cbn [append Html.chunk_text].
    now rewrite append_nil_r.
  - apply contains_append_r. now apply IH.
Qed.

Ltac sub_here := solve [cbn [In]; repeat first [left; reflexivity | right]].

Ltac find_sub :=
  first [ apply in_or_app; left; sub_here
        | apply in_or_app; right; find_sub
        | sub_here ].

Lemma template_fields (now : Date) (template : jsval) (data : Html.ContentRecord)
    (skillsList : list string) (colors : Html.Colors) (text : string) :
  In text [ toString (Html.name data); toString (Html.title data);
            toString (Html.aboutMe data); toString (Html.email data) ] ->
  contains (Html.switch_template now template data skillsList colors) text.
Proof.
  assert (Hm : In text [ toString (Html.name data); toString (Html.title data);
                         toString (Html.aboutMe data); toString (Html.email data) ] ->
               contains (Html.generateModernTemplate now data skillsList colors) text).
  { intros Hin. apply sub_in_render. unfold Html.generateModernTemplate_parts.
    cbn [In] in Hin. destruct Hin as [<-|[<-|[<-|[<-|[]]]]]; find_sub. }
  assert (Hc : In text [ toString (Html.name data); toString (Html.title data);
                         toString (Html.aboutMe data); toString (Html.email data) ] ->
               contains (Html.generateClassicTemplate now data skillsList colors) text).
  { intros Hin. apply sub_in_render. unfold Html.generateClassicTemplate_parts.
    cbn [In] in Hin. destruct Hin as [<-|[<-|[<-|[<-|[]]]]]; find_sub. }
  assert (Ha : In text [ toString (Html.name data); toString (Html.title data);
                         toString (Html.aboutMe data); toString (Html.email data) ] ->
               contains (Html.generateArtisticTemplate now data skillsList colors) text).
  { intros Hin. apply sub_in_render. unfold Html.generateArtisticTemplate_parts.
    cbn [In] in Hin. destruct Hin as [<-|[<-|[<-|[<-|[]]]]]; find_sub. }
  intros Hin. unfold Html.switch_template.
  destruct template as [| |t|]; auto.
  destruct (String.eqb t "modern"); auto.
  destruct (String.eqb t "classic"); auto.
  destruct (String.eqb t "artistic"); auto.
Qed.

Ltac find_skill H :=
  first [ apply in_or_app; left; apply H; intros; sub_here
        | apply in_or_app; right; find_skill H ].

Lemma template_skill (now : Date) (template : jsval) (data : Html.ContentRecord)
    (skillsList : list string) (colors : Html.Colors) (skill : string) :
  In skill skillsList ->
  contains (Html.switch_template now template data skillsList colors) skill.
Proof.
  intros Hin.
  assert (Hchip : forall (f : string -> list Html.chunk),
             (forall s, In (Html.Sub s) (f s)) ->
             In (Html.Sub skill) (flat_map f skillsList)).
  { intros f Hf. apply in_flat_map. exists skill. split; [exact Hin | apply Hf]. }
  assert (Hm : contains (Html.generateModernTemplate now data skillsList colors) skill).
  { apply sub_in_render. unfold Html.generateModernTemplate_parts.
    find_skill Hchip. }
  assert (Hc : contains (Html.generateClassicTemplate now data skillsList colors) skill).
  { apply sub_in_render. unfold Html.generateClassicTemplate_parts.
    find_skill Hchip. }
  assert (Ha : contains (Html.generateArtisticTemplate now data skillsList colors) skill).
  { apply sub_in_render. unfold Html.generateArtisticTemplate_parts.
    find_skill Hchip. }
  unfold Html.switch_template.
  destruct template as [| |t|]; auto.
  destruct (String.eqb t "modern"); auto.
  destruct (String.eqb t "classic"); auto.
  destruct (String.eqb t "artistic"); auto.
Qed.

(** X3: substituted text is not escaped.  Whatever the template, the
    document holds the name, the title, the About text, the e-mail address
    and every skill character for character as the record gives them, so
    markup inside one of them is markup of the page. *)
Theorem substituted_text_not_escaped :
  forall (now : Date) (data : Html.ContentRecord) (template : jsval)
         (customizations : option Html.Customizations) (document : string),
    Html.generatePortfolioHTML now data template customizations = Ok document ->
    exists skillsList : list string,
      Html.skillsListOf (Html.skills data) = Ok skillsList
      /\ forall text markup : string,
           In text (writtenFields data ++ skillsList) ->
           contains text markup ->
           contains document markup.
Proof.
  intros now data template customizations document Hdoc.
  unfold Html.generatePortfolioHTML in Hdoc.
  destruct (Html.skillsListOf (Html.skills data)) as [skillsList|e]; [|discriminate].
  injection Hdoc as <-.
  exists skillsList. split; [reflexivity|].
  intros text markup Hin Hmarkup.
  apply contains_trans with (b := text); [|exact Hmarkup].
  apply document_contains_body.
  apply in_app_or in Hin. destruct Hin as [Hin|Hin].
  - now apply template_fields.
  - now apply template_skill.
Qed.

Lemma contains_between3 (l1 s1 m1 l2 m2 l3 m3 l4 p4 tail : string) :
  suffixb s1 l1 = true -> prefixb p4 l4 = true ->
  contains (l1 ++ m1 ++ l2 ++ m2 ++ l3 ++ m3 ++ l4 ++ tail)
           (s1 ++ m1 ++ l2 ++ m2 ++ l3 ++ m3 ++ p4).
Proof.
  intros Hs Hp.
  destruct (suffixb_sound _ _ Hs) as (u & ->).
  apply prefixb_iff in Hp as (v & ->).
  exists u, (v ++ tail). now rewrite !append_assoc.
Qed.

Lemma document_theme (data : Html.ContentRecord) (colors : Html.Colors) (html : string) :
  contains (Html.render (Html.document_parts data colors html))
    (themeRule (toString (Html.primary colors)) (toString (Html.accent colors))
               (toString (Html.background colors))).
Proof.
  unfold Html.document_parts. cbn [Html.render Html.chunk_text app].
  do 4 apply contains_append_r.
  unfold themeRule.
  apply contains_between3; vm_compute; reflexivity.
Qed.

(** X4: the stylesheet of a document opens with the three colours of
    the resolved theme, each written as its value converts to text and
    none checked: the default palette without a [colors] object, and with
    one its own values, the word [undefined] for a colour it leaves out. *)
Theorem stylesheet_carries_theme :
  forall (now : Date) (data : Html.ContentRecord) (template : jsval)
         (customizations : option Html.Customizations) (document : string),
    Html.generatePortfolioHTML now data template customizations = Ok document ->
    let colors := Html.resolveColors customizations in
    contains document
      (themeRule (toString (Html.primary colors)) (toString (Html.accent colors))
                 (toString (Html.background colors)))
    /\ (match customizations with
        | Some (Html.mkCustomizations (Some _)) => False
        | _ => True
        end ->
        contains document (themeRule "#B026FF" "#FFD23F" "#0a0a12"))
    /\ (forall primary : string,
          customizations
          = Some (Html.mkCustomizations
                    (Some (Html.mkColors (JStr primary) JUndefined JUndefined))) ->
          contains document (themeRule primary "undefined" "undefined")).
Proof.
  intros now data template customizations document Hdoc colors.
  assert (Hrule : contains document
            (themeRule (toString (Html.primary colors)) (toString (Html.accent colors))
                       (toString (Html.background colors)))).
  { unfold Html.generatePortfolioHTML in Hdoc.
    destruct (Html.skillsListOf (Html.skills data)) as [skillsList|e]; [|discriminate].
    injection Hdoc as <-. apply document_theme. }
  split; [exact Hrule|]. split.
  - intros Hdefault.
    assert (E : colors = Html.defaultColors).
    { subst colors. destruct customizations as [[[supplied|]]|];
        [contradiction | reflexivity | reflexivity]. }
    rewrite E in Hrule. exact Hrule.
  - intros primary ->. exact Hrule.
Qed.

Lemma substituted_text_not_escaped_witness :
  let data :=
    Html.mkContent (JStr "Ama K.") (JStr "Singer") JUndefined JUndefined
      (JStr ("Born in Accra." ++ heading "Experience")) JUndefined
      (Html.SkArray ["vocals"]) JUndefined JUndefined JUndefined JUndefined
      JUndefined JUndefined JUndefined JUndefined (JStr "ama@x.com") JUndefined in
  truthy (Html.jobs data) = false
  /\ exists document,
       Html.generatePortfolioHTML (mkDate 1700000000000 2023 "11/14/2023") data
         (JStr "classic") None = Ok document
       /\ contains document (heading "Experience").
Proof.
  intros data. split; [reflexivity|].
  destruct (Html.generatePortfolioHTML (mkDate 1700000000000 2023 "11/14/2023") data
              (JStr "classic") None) as [document|e] eqn:Hdoc; [|discriminate Hdoc].
  exists document. split; [reflexivity|].
  destruct (substituted_text_not_escaped _ _ _ _ _ Hdoc) as (skillsList & _ & Hall).
  apply (Hall ("Born in Accra." ++ heading "Experience")).
  - cbn [writtenFields app In Html.name Html.title Html.aboutMe Html.email toString].
    right. right. left. reflexivity.
  - exists "Born in Accra.", "". now rewrite append_nil_r.
Defined.

Lemma stylesheet_carries_theme_witness :
  exists document,
    Html.generatePortfolioHTML (mkDate 1700000000000 2023 "11/14/2023")
      (Html.mkContent (JStr "Ama K.") (JStr "Singer") JUndefined JUndefined
         (JStr "Born in Accra.") JUndefined (Html.SkArray ["vocals"]) JUndefined
         JUndefined JUndefined JUndefined JUndefined JUndefined JUndefined JUndefined
         (JStr "ama@x.com") JUndefined)
      (JStr "modern")
      (Some (Html.mkCustomizations
               (Some (Html.mkColors (JStr "#112233") JUndefined JUndefined))))
    = Ok document
    /\ contains document (themeRule "#112233" "undefined" "undefined").
Proof.
  destruct (Html.generatePortfolioHTML _ _ _ _) as [document|e] eqn:Hdoc;
    [|discriminate Hdoc].
  exists document. split; [reflexivity|].
  destruct (stylesheet_carries_theme _ _ _ _ _ Hdoc) as (_ & _ & Hpartial).
  exact (Hpartial "#112233" eq_refl).
Defined.

(** ** Uploads *)

Lemma startsWith_iff (s prefix : string) :
  Upload.startsWith s prefix = true <-> exists rest, s = prefix ++ rest.
Proof.
  revert s. induction prefix as [|p prefix IH]; intros s; cbn [Upload.startsWith].
  - split; [intros _; now exists s | reflexivity].
  - destruct s as [|c s].
    + split; [discriminate | intros (rest & E); discriminate].
    + rewrite andb_true_iff, IH. split.
      * intros (Hc & rest & ->). apply Ascii.eqb_eq in Hc as ->. now exists rest.
      * intros (rest & E). cbn [append] in E. injection E as -> ->.
        split; [apply Ascii.eqb_refl | now exists rest].
Qed.

(** X5: uploads.  The filter accepts a file exactly when its type starts
    with [image/] or [video/] or is [application/pdf], and refuses every
    other file with an error.  An accepted file goes to the directory of
    its kind, one that the server created at its start; the directory of
    the PDFs, which is where the storage puts what is neither image nor
    video, gets PDFs alone. *)
Theorem uploads_sorted_by_kind :
  forall file : Upload.File,
    let type := Upload.mimetype file in
    (Upload.fileFilter file = Ok true
     <-> Upload.startsWith type "image/" = true
         \/ Upload.startsWith type "video/" = true
         \/ type = "application/pdf")
    /\ (Upload.fileFilter file = Ok true
        \/ Upload.fileFilter file
           = Raise "Invalid file type. Only images, videos, and PDFs are allowed.")
    /\ (Upload.fileFilter file = Ok true ->
        exists kind : string,
          Upload.destination file = "uploads/" ++ kind ++ "/"
          /\ In ("uploads/" ++ kind) Upload.dirs
          /\ (kind = "images" <-> Upload.startsWith type "image/" = true)
          /\ (kind = "videos" <-> Upload.startsWith type "video/" = true)
          /\ (kind = "pdfs" <-> type = "application/pdf")).
Proof.
  intros file type. subst type.
  unfold Upload.fileFilter, Upload.destination. cbv zeta.
  assert (Hexcl : Upload.startsWith (Upload.mimetype file) "image/" = true ->
                  Upload.startsWith (Upload.mimetype file) "video/" = true -> False).
  { intros H1 H2. apply startsWith_iff in H1 as (r1 & E1).
    apply startsWith_iff in H2 as (r2 & E2). rewrite E1 in E2. discriminate. }
  assert (Hpdf : Upload.mimetype file = "application/pdf" ->
                 Upload.startsWith (Upload.mimetype file) "image/" = false
                 /\ Upload.startsWith (Upload.mimetype file) "video/" = false).
  { intros ->. split; reflexivity. }
  destruct (Upload.startsWith (Upload.mimetype file) "image/") eqn:Ei;
    destruct (Upload.startsWith (Upload.mimetype file) "video/") eqn:Ev;
    destruct (String.eqb (Upload.mimetype file) "application/pdf") eqn:Ep;
    cbn [orb];
    try (exfalso; now apply Hexcl);
    try (apply String.eqb_eq in Ep; destruct (Hpdf Ep); congruence);
    try apply String.eqb_neq in Ep.
  - split; [tauto|]. split; [now left|]. intros _.
    exists "images". unfold Upload.dirs. cbn [In].
    repeat split; auto; try discriminate; try tauto.
  - split; [tauto|]. split; [now left|]. intros _.
    exists "videos". unfold Upload.dirs. cbn [In].
    repeat split; auto; try discriminate; try tauto.
  - apply String.eqb_eq in Ep.
    split; [tauto|]. split; [now left|]. intros _.
    exists "pdfs". unfold Upload.dirs. cbn [In].
    repeat split; auto; try discriminate; try tauto.
  - split; [|split; [now right | discriminate]].
    split; [discriminate|]. intros [H1|[H1|H1]]; congruence.
Qed.

(** X6: the two upload filters.  The filter of the MongoDB variant accepts
    exactly the five types of its list; each of them is accepted by the
    filter of the file-backed variant too, which accepts more (any image
    and any video), and what either refuses it refuses with the same
    message. *)
Theorem upload_filters_compared :
  (forall file : Upload.File,
      MongoUpload.fileFilter file = Ok true
      <-> In (Upload.mimetype file) MongoUpload.allowedTypes)
  /\ (forall file : Upload.File,
        MongoUpload.fileFilter file = Ok true -> Upload.fileFilter file = Ok true)
  /\ (exists file : Upload.File,
        Upload.fileFilter file = Ok true /\ MongoUpload.fileFilter file <> Ok true)
  /\ (forall file e e',
        MongoUpload.fileFilter file = Raise e ->
        Upload.fileFilter file = Raise e' -> e = e').
Proof.
  assert (Hlist : forall file : Upload.File,
            MongoUpload.fileFilter file = Ok true
            <-> In (Upload.mimetype file) MongoUpload.allowedTypes).
  { intros file. unfold MongoUpload.fileFilter.
    destruct (existsb (String.eqb (Upload.mimetype file)) MongoUpload.allowedTypes)
      eqn:E.
    - split; [intros _|reflexivity].
      apply existsb_exists in E as (t & Hin & Ht).
      apply String.eqb_eq in Ht. now rewrite Ht.
    - split; [discriminate|]. intros Hin.
      assert (E' : existsb (String.eqb (Upload.mimetype file)) MongoUpload.allowedTypes
                   = true).
      { apply existsb_exists. exists (Upload.mimetype file).
        split; [exact Hin | apply String.eqb_refl]. }
      congruence. }
  split; [exact Hlist|]. split; [|split].
  - intros file Hok. apply Hlist in Hok. unfold Upload.fileFilter.
    unfold MongoUpload.allowedTypes in Hok. cbn [In] in Hok.
    destruct Hok as [<-|[<-|[<-|[<-|[<-|[]]]]]]; reflexivity.
  - exists (Upload.mkFile "image/webp" "cover.webp"). split; [reflexivity|].
    discriminate.
  - intros file e e'. unfold MongoUpload.fileFilter, Upload.fileFilter.
    destruct (existsb _ _); [discriminate|].
    destruct (_ || _)%bool; [discriminate|]. congruence.
Qed.

(** ** The routes of the file-backed server *)

Section RouteProperties.

Import Server.
Context `{Json}.
Local Open Scope list_scope.

Lemma find_snoc (A : Type) (f : A -> bool) (l : list A) (x : A) :
  find f (l ++ [x])
  = match find f l with
    | Some y => Some y
    | None => if f x then Some x else None
    end.
Proof.
  induction l as [|y l IH]; cbn [app find].
  - reflexivity.
  - destruct (f y); [reflexivity | exact IH].
Qed.

Lemma orDefault_given (v : option string) (d : string) :
  given v = true -> Some (orDefault v d) = v.
Proof.
  destruct v as [s|]; cbn; [|discriminate].
  destruct (String.eqb s ""); [discriminate | reflexivity].
Qed.

Ltac route_facts :=
  repeat match goal with
         | |- _ /\ _ => split
         | |- _ <-> _ => split
         end;
  intros;
  repeat match goal with
         | H : _ /\ _ |- _ => destruct H
         | H : _ \/ _ |- _ => destruct H
         | H : exists _, _ |- _ => destruct H
         end;
  try discriminate; try congruence; try tauto; try solve [eauto 10].

Lemma createArtist_created (env : Env) (form : Form.t)
    (files : option (list Uploaded.t)) (st : State) (response : Response) (st' : State) :
  createArtist env form files st = (response, st') ->
  status response = 201 ->
  exists artist : Artist.t,
    body response = ArtistCreated "Artist profile created successfully" artist
    /\ Artist.id artist = uuidv4 env
    /\ Some (Artist.name artist) = Form.name form
    /\ Some (Artist.email artist) = Form.email form
    /\ Artist.bio artist = orDefault (Form.bio form) ""
    /\ Artist.experience artist = orDefault (Form.experience form) "beginner"
    /\ parseOr parseSkills (Form.genres form) (Html.SkArray []) = Ok (Artist.genres artist)
    /\ parseOr parseValue (Form.location form) JObj = Ok (Artist.location artist)
    /\ st' = mkState (artists st ++ [artist]) (portfolios st)
                     (Some (artists st ++ [artist])) (portfoliosJson st) (pages st)
                     (pdfs st).
Proof.
  intros Hrun Hstatus.
  unfold createArtist in Hrun. cbv zeta in Hrun.
  destruct (given (Form.name form)) eqn:En; cbn [negb orb] in Hrun;
    [|injection Hrun as <- <-; discriminate].
  destruct (given (Form.email form)) eqn:Ee; cbn [negb orb] in Hrun;
    [|injection Hrun as <- <-; discriminate].
  destruct (parseOr parseSkills (Form.genres form) (Html.SkArray []))
    as [genres|e1] eqn:Eg; [|injection Hrun as <- <-; discriminate].
  destruct (parseOr parseValue (Form.location form) JObj)
    as [location|e2] eqn:El; [|injection Hrun as <- <-; discriminate].
  destruct (parseOr parseValue (Form.socialLinks form) JObj)
    as [socialLinks|e3] eqn:Es; [|injection Hrun as <- <-; discriminate].
  injection Hrun as <- <-.
  eexists. split; [reflexivity|].
  cbn [Artist.id Artist.name Artist.email Artist.bio Artist.experience
       Artist.genres Artist.location].
  repeat split; auto using orDefault_given.
Qed.

(** X7: creating an artist.  The route answers 400 exactly when the name
    or the e-mail address is missing or empty, and 500 when one of
    [genres], [location] and [socialLinks] is given and is not JSON; in
    both cases nothing is stored.  Otherwise it answers 201 with the new
    artist, which carries the identifier drawn for it and the name and
    address as sent, comes last in the array, and is in the file, which
    then holds the array as it is in memory. *)
Theorem artist_is_validated_then_stored :
  forall (env : Env) (form : Form.t) (files : option (list Uploaded.t))
         (st : State) (response : Response) (st' : State),
    createArtist env form files st = (response, st') ->
    (status response = 400
     <-> given (Form.name form) = false \/ given (Form.email form) = false)
    /\ (status response = 500
        <-> given (Form.name form) = true /\ given (Form.email form) = true
            /\ ((exists e, parseOr parseSkills (Form.genres form) (Html.SkArray []) = Raise e)
                \/ (exists e, parseOr parseValue (Form.location form) JObj = Raise e)
                \/ (exists e, parseOr parseValue (Form.socialLinks form) JObj = Raise e)))
    /\ (status response = 400 \/ status response = 500 \/ status response = 201)
    /\ (status response <> 201 -> st' = st)
    /\ (status response = 201 ->
        exists artist : Artist.t,
          body response = ArtistCreated "Artist profile created successfully" artist
          /\ Artist.id artist = uuidv4 env
          /\ Some (Artist.name artist) = Form.name form
          /\ Some (Artist.email artist) = Form.email form
          /\ artists st' = artists st ++ [artist]
          /\ artistsJson st' = Some (artists st')
          /\ portfolios st' = portfolios st
          /\ portfoliosJson st' = portfoliosJson st
          /\ pages st' = pages st).
Proof.
  intros env form files st response st' Hrun.
  unfold createArtist in Hrun. cbv zeta in Hrun.
  destruct (given (Form.name form)) eqn:En; cbn [negb orb] in Hrun;
    [|injection Hrun as <- <-; cbn [status]; route_facts].
  destruct (given (Form.email form)) eqn:Ee; cbn [negb orb] in Hrun;
    [|injection Hrun as <- <-; cbn [status]; route_facts].
  destruct (parseOr parseSkills (Form.genres form) (Html.SkArray []))
    as [genres|e1] eqn:Eg;
    [|injection Hrun as <- <-; cbn [status]; route_facts].
  destruct (parseOr parseValue (Form.location form) JObj)
    as [location|e2] eqn:El;
    [|injection Hrun as <- <-; cbn [status]; route_facts].
  destruct (parseOr parseValue (Form.socialLinks form) JObj)
    as [socialLinks|e3] eqn:Es;
    [|injection Hrun as <- <-; cbn [status]; route_facts].
  injection Hrun as <- <-.
  cbn [status body artists artistsJson portfolios portfoliosJson pages].
  route_facts.
  eexists. split; [reflexivity|].
  cbn [Artist.id Artist.name Artist.email].
  repeat split; auto using orDefault_given.
Qed.

(** X8: finding an artist.  After an artist was created, a request for
    an identifier that an earlier artist has answers as before, so that an
    earlier artist with the identifier of the new one hides it; otherwise
    the identifier of the new artist finds the new artist, and any other
    finds nothing.  The list of all artists ends with the new one, and a
    new process reads the same array from the file. *)
Theorem created_artist_is_found :
  forall (env : Env) (form : Form.t) (files : option (list Uploaded.t))
         (st : State) (response : Response) (st' : State),
    createArtist env form files st = (response, st') ->
    status response = 201 ->
    exists artist : Artist.t,
      body response = ArtistCreated "Artist profile created successfully" artist
      /\ (forall id : string,
            getArtist id st'
            = if existsb (hasId id) (artists st) then getArtist id st
              else if String.eqb (uuidv4 env) id
                   then mkResponse 200 (ArtistFound artist)
                   else mkResponse 404 (Error "Artist not found"))
      /\ ((forall earlier, In earlier (artists st) -> Artist.id earlier <> uuidv4 env) ->
          getArtist (uuidv4 env) st' = mkResponse 200 (ArtistFound artist))
      /\ getArtists st' = mkResponse 200 (ArtistList (artists st ++ [artist]))
      /\ artists (restart st') = artists st'.
Proof.
  intros env form files st response st' Hrun Hstatus.
  destruct (createArtist_created _ _ _ _ _ _ Hrun Hstatus)
    as (artist & Hbody & Hid & _ & _ & _ & _ & _ & _ & ->).
  exists artist. split; [exact Hbody|].
  assert (Hfind : forall id : string,
            getArtist id (mkState (artists st ++ [artist]) (portfolios st)
                                  (Some (artists st ++ [artist])) (portfoliosJson st)
                                  (pages st) (pdfs st))
            = if existsb (hasId id) (artists st) then getArtist id st
              else if String.eqb (uuidv4 env) id
                   then mkResponse 200 (ArtistFound artist)
                   else mkResponse 404 (Error "Artist not found")).
  { intros id. unfold getArtist. cbn [artists]. rewrite find_snoc.
    destruct (find (hasId id) (artists st)) as [found|] eqn:Ef.
    - apply find_some in Ef as (Hin & Hhas).
      assert (Hex : existsb (hasId id) (artists st) = true)
        by (apply existsb_exists; now exists found).
      now rewrite Hex.
    - assert (Hex : existsb (hasId id) (artists st) = false).
      { apply not_true_is_false. intros Hex.
        apply existsb_exists in Hex as (a & Hin & Hhas).
        pose proof (find_none _ _ Ef a Hin). congruence. }
      rewrite Hex. unfold hasId at 1. rewrite Hid.
      destruct (String.eqb (uuidv4 env) id); reflexivity. }
  split; [exact Hfind|].
  split.
  { intros Hfresh. rewrite Hfind.
    assert (Hex : existsb (hasId (uuidv4 env)) (artists st) = false).
    { apply not_true_is_false. intros Hex.
      apply existsb_exists in Hex as (a & Hin & Hhas).
      apply String.eqb_eq in Hhas. now apply (Hfresh a Hin). }
    now rewrite Hex, String.eqb_refl. }
  split; reflexivity.
Qed.

Lemma skillsListOf_raises (v : Html.skillsValue) :
  (exists e, Html.skillsListOf v = Raise e) <-> noSplit v.
Proof.
  destruct v as [items | n | b | v]; cbn [noSplit Html.skillsListOf].
  - split; [intros (e & He); discriminate He | intros []].
  - destruct (Html.numberTruthy n).
    + split; [reflexivity | eauto].
    + split; [intros (e & He); discriminate He | discriminate].
  - destruct b.
    + split; [reflexivity | eauto].
    + split; [intros (e & He); discriminate He | discriminate].
  - destruct v as [| |t|]; cbn [truthy].
    + split; [intros (e & He); discriminate He | intros []].
    + split; [intros (e & He); discriminate He | intros []].
    + destruct (negb (String.eqb t ""));
        (split; [intros (e & He); discriminate He | intros []]).
    + split; [trivial | eauto].
Qed.

Lemma generate_raises (now : Date) (data : Html.ContentRecord) (template : jsval)
    (customizations : option Html.Customizations) :
  (exists e, Html.generatePortfolioHTML now data template customizations = Raise e)
  <-> noSplit (Html.skills data).
Proof.
  rewrite <- skillsListOf_raises. unfold Html.generatePortfolioHTML.
  destruct (Html.skillsListOf (Html.skills data)) as [skillsList|e].
  - split; intros (e & He); discriminate.
  - split; intros _; now exists e.
Qed.


Lemma generated_title (now : Date) (data : Html.ContentRecord) (template : jsval)
    (customizations : option Html.Customizations) (document : string) :
  Html.generatePortfolioHTML now data template customizations = Ok document ->
  contains document
    ("<title>" ++ toString (Html.name data) ++ " - "
     ++ toString (Html.title data) ++ "</title>")%string.
Proof.
  unfold Html.generatePortfolioHTML.
  destruct (Html.skillsListOf (Html.skills data)) as [skillsList|e]; [|discriminate].
  intros Hdoc. injection Hdoc as <-. apply document_title.
Qed.

(** X10: the page of a portfolio.  When the route answers 201, the file
    [generated/portfolios/<id>.html] holds the document composed from the
    artist and the new portfolio, and no other file changed; the answer
    and the array give the portfolio the URL [/portfolios/<id>.html], the
    same file name under the mount point.  The title of the document is
    the name of the artist, a dash and the title of the portfolio, which
    is the name followed by [Portfolio] when none was sent.  The URL is set
    after the array was written: the file keeps the portfolio without it,
    and a new process reads it back without it, while the page is still
    there.  Under a fresh identifier the portfolio is found with its URL
    and with the name and address of its artist. *)
Theorem portfolio_page_and_url :
  forall (env : Env) (request : Request.t) (st : State)
         (response : Response) (st' : State),
    createPortfolio env request st = (response, st') ->
    status response = 201 ->
    exists (artist : Artist.t) (document : string),
      let portfolio := newPortfolio env request artist in
      let url := ("/portfolios/" ++ uuidv4 env ++ ".html")%string in
      let path := ("generated/portfolios/" ++ uuidv4 env ++ ".html")%string in
      find (sameId (Request.artistId request)) (artists st) = Some artist
      /\ Html.generatePortfolioHTML (today env) (pageData artist portfolio)
           (Portfolio.template portfolio) (Some (Portfolio.customizations portfolio))
         = Ok document
      /\ pages st' path = Some document
      /\ (forall other, other <> path -> pages st' other = pages st other)
      /\ body response
         = PortfolioCreated "Portfolio created successfully"
             (Portfolio.setHtmlUrl url portfolio)
      /\ portfolios st' = portfolios st ++ [Portfolio.setHtmlUrl url portfolio]
      /\ contains document
           ("<title>" ++ Artist.name artist ++ " - "
            ++ toString (Portfolio.title portfolio) ++ "</title>")%string
      /\ (truthy (Request.title request) = false ->
          contains document
            ("<title>" ++ Artist.name artist ++ " - "
             ++ Artist.name artist ++ " Portfolio</title>")%string)
      /\ Portfolio.htmlUrl portfolio = None
      /\ portfoliosJson st' = Some (portfolios st ++ [portfolio])
      /\ portfolios (restart st') = portfolios st ++ [portfolio]
      /\ pages (restart st') path = Some document
      /\ ((forall earlier, In earlier (portfolios st) ->
           Portfolio.id earlier <> uuidv4 env) ->
          getPortfolio (uuidv4 env) st'
          = mkResponse 200
              (PortfolioFound (Portfolio.setHtmlUrl url portfolio)
                 (Some (Artist.name artist, Artist.email artist)))).
Proof.
  intros env request st response st' Hrun Hstatus.
  unfold createPortfolio in Hrun.
  destruct (find (sameId (Request.artistId request)) (artists st)) as [artist|] eqn:Ef;
    [|injection Hrun as <- <-; discriminate].
  cbv zeta in Hrun.
  destruct (Html.generatePortfolioHTML (today env)
              (pageData artist (newPortfolio env request artist))
              (Portfolio.template (newPortfolio env request artist))
              (Some (Portfolio.customizations (newPortfolio env request artist))))
    as [htmlContent|e] eqn:Eg;
    injection Hrun as <- <-; [|discriminate].
  exists artist, htmlContent. cbv zeta.
  pose proof (generated_title _ _ _ _ _ Eg) as Htitle.
  cbn [pageData Html.name Html.title toString] in Htitle.
  cbn [artists portfolios portfoliosJson pages body restart loadInitialData].
  split; [reflexivity|]. split; [exact Eg|].
  split.
  { unfold writeFile, htmlFilePath. cbn [newPortfolio Portfolio.id].
    now rewrite String.eqb_refl. }
  split.
  { intros other Hother. unfold writeFile, htmlFilePath. cbn [newPortfolio Portfolio.id].
    apply String.eqb_neq in Hother. now rewrite Hother. }
  split; [reflexivity|]. split; [reflexivity|].
  split; [exact Htitle|].
  split.
  { intros Hnone. cbn [newPortfolio Portfolio.title] in Htitle.
    unfold valueOr in Htitle. rewrite Hnone in Htitle.
    cbn [toString] in Htitle. rewrite append_assoc in Htitle. exact Htitle. }
  split; [reflexivity|]. split; [reflexivity|]. split; [reflexivity|].
  split.
  { unfold writeFile, htmlFilePath. cbn [newPortfolio Portfolio.id].
    now rewrite String.eqb_refl. }
  intros Hfresh. unfold getPortfolio, artistOf. cbn [portfolios artists].
  rewrite find_snoc.
  destruct (find (isPortfolio (uuidv4 env)) (portfolios st)) as [earlier|] eqn:Ep.
  - apply find_some in Ep as (Hin & Hsame). apply String.eqb_eq in Hsame.
    now destruct (Hfresh earlier Hin).
  - unfold isPortfolio. cbn [Portfolio.setHtmlUrl newPortfolio Portfolio.id].
    rewrite String.eqb_refl.
    cbn [Portfolio.setHtmlUrl newPortfolio Portfolio.artistId]. now rewrite Ef.
Qed.

End RouteProperties.

Lemma artist_is_validated_then_stored_witness :
  let run := Server.createArtist (H := sampleJson) sampleEnv sampleForm None emptyState in
  Server.status (fst run) = 201
  /\ Server.artistsJson (snd run) = Some (Server.artists (snd run))
  /\ length (Server.artists (snd run)) = 1%nat.
Proof.
  intros run.
  destruct (@artist_is_validated_then_stored sampleJson sampleEnv sampleForm None
              emptyState (fst run) (snd run) (surjective_pairing _))
    as (_ & _ & _ & _ & Hcreated).
  destruct (Hcreated eq_refl) as (artist & _ & _ & _ & _ & Hall & Hfile & _).
  split; [reflexivity|]. split; [exact Hfile|].
  rewrite Hall. reflexivity.
Defined.

Lemma created_artist_is_found_witness :
  exists artist,
    Server.getArtist "0b5f7c1e" oneArtistState
    = Server.mkResponse 200 (Server.ArtistFound artist)
    /\ Server.Artist.name artist = "Ama K.".
Proof.
  destruct (@created_artist_is_found sampleJson sampleEnv sampleForm None emptyState
              _ _ (surjective_pairing _) eq_refl)
    as (artist & Hbody & _ & Hfound & _).
  exists artist. split.
  - apply Hfound. intros earlier [].
  - cbv in Hbody. injection Hbody as <-. reflexivity.
Defined.


Lemma portfolio_page_and_url_witness :
  exists document,
    Server.pages (snd (Server.createPortfolio laterEnv sampleRequest oneArtistState))
      "generated/portfolios/7d2a.html"
    = Some document
    /\ contains document "<title>Ama K. - Ama K. Portfolio</title>".
Proof.
  destruct (portfolio_page_and_url laterEnv sampleRequest oneArtistState
              _ _ (surjective_pairing _) eq_refl)
    as (artist & document & Hfind & _ & Hpage & _ & _ & _ & _ & Htitle & _).
  cbv in Hfind. injection Hfind as <-.
  exists document. split; [exact Hpage | exact (Htitle eq_refl)].
Defined.

(** ** What a served page shows *)

Lemma contains_between2 (l1 s1 m1 l2 m2 l3 p3 tail : string) :
  suffixb s1 l1 = true -> prefixb p3 l3 = true ->
  contains (l1 ++ m1 ++ l2 ++ m2 ++ l3 ++ tail) (s1 ++ m1 ++ l2 ++ m2 ++ p3).
Proof.
  intros Hs Hp.
  destruct (suffixb_sound _ _ Hs) as (u & ->).
  apply prefixb_iff in Hp as (v & ->).
  exists u, (v ++ tail). now rewrite !append_assoc.
Qed.

Lemma modern_experience_location (now : Date) (data : Html.ContentRecord)
    (skillsList : list string) (colors : Html.Colors) :
  contains (Html.generateModernTemplate now data skillsList colors)
           ("<p>" ++ toString (Html.experience data) ++ " • "
            ++ or_else (Html.location data) "Creative Professional" ++ "</p>").
Proof.
  unfold Html.generateModernTemplate, Html.generateModernTemplate_parts.
  cbn [Html.render Html.chunk_text app].
  do 6 apply contains_append_r.
  apply contains_between2; vm_compute; reflexivity.
Qed.

(** X11: what a served page shows.  The record that the routes hand to
    the composer has the name, the experience, the location and the
    address of the artist, the title of the portfolio and the genres as
    skills, and nothing else that a template reads.  So whatever the
    artist and the portfolio hold, the About block of each template shows
    the word [undefined], never the bio; no template writes any of its
    optional blocks (experience, services, testimonials, the links, the
    phone line); and a location that is an object, as the one an artist
    gets who sent none, is written [[object Object]]. *)
Theorem served_page_shows_no_profile :
  forall (artist : Server.Artist.t) (portfolio : Server.Portfolio.t) (now : Date)
         (skillsList : list string) (colors : Html.Colors),
    let data := Server.pageData artist portfolio in
    contains (Html.generateModernTemplate now data skillsList colors)
             (aboutOpen ++ "undefined</div>")
    /\ contains (Html.generateClassicTemplate now data skillsList colors)
                (classicAboutOpen ++ "undefined</div>")
    /\ contains (Html.generateArtisticTemplate now data skillsList colors)
                (artisticAbout "undefined")
    /\ Forall (fun markup =>
                 emits markup (Html.generateModernTemplate_parts now data skillsList colors)
                 = false) modernOptional
    /\ Forall (fun markup =>
                 emits markup (Html.generateClassicTemplate_parts now data skillsList colors)
                 = false) classicOptional
    /\ Forall (fun markup =>
                 emits markup (Html.generateArtisticTemplate_parts now data skillsList colors)
                 = false) artisticOptional
    /\ (Server.Artist.location artist = JObj ->
        contains (Html.generateModernTemplate now data skillsList colors)
                 ("<p>" ++ Server.Artist.experience artist ++ " • [object Object]</p>")).
Proof.
  intros artist portfolio now skillsList colors data.
  split; [exact (modern_about_body now data skillsList colors)|].
  split; [exact (classic_about_body now data skillsList colors)|].
  split; [exact (artistic_about_body now data skillsList colors)|].
  split.
  { destruct (modern_sections now data skillsList colors _ eq_refl)
      as (_ & _ & (E1 & _) & (E2 & _) & (E3 & _) & (E4 & _) & (E5 & _) & (E6 & _)
          & (E7 & _) & (E8 & _) & (E9 & _) & E10).
    unfold modernOptional.
    repeat (constructor; [first [exact E1 | exact E2 | exact E3 | exact E4 | exact E5
                                | exact E6 | exact E7 | exact E8 | exact E9
                                | exact E10]|]).
    constructor. }
  split.
  { destruct (classic_sections now data skillsList colors _ eq_refl)
      as (_ & _ & (E1 & _) & (E2 & _) & (E3 & _) & (E4 & _) & (E5 & _) & (E6 & _)
          & (E7 & _)).
    unfold classicOptional.
    repeat (constructor; [first [exact E1 | exact E2 | exact E3 | exact E4 | exact E5
                                | exact E6 | exact E7]|]).
    constructor. }
  split.
  { destruct (artistic_sections now data skillsList colors _ eq_refl)
      as (_ & _ & (E1 & _) & (E2 & _) & (E3 & _) & (E4 & _) & (E5 & _) & E6).
    unfold artisticOptional.
    repeat (constructor; [first [exact E1 | exact E2 | exact E3 | exact E4 | exact E5
                                | exact E6]|]).
    constructor. }
  intros Hlocation.
  pose proof (modern_experience_location now data skillsList colors) as Hline.
  subst data. cbn [Server.pageData Html.experience Html.location toString] in Hline.
  rewrite Hlocation in Hline. exact Hline.
Qed.

Lemma served_page_shows_no_profile_witness :
  exists document,
    Html.generatePortfolioHTML (mkDate 1700000000000 2023 "11/14/2023")
      (Server.pageData
         (Server.Artist.mk "0b5f7c1e" "Ama K." "ama@x.com" "Singer from Accra"
            "multi_disciplinary" "beginner" (Html.SkArray []) JObj JObj []
            "2023-11-14T22:13:20.000Z" "2023-11-14T22:13:20.000Z")
         (Server.Portfolio.mk "7d2a" (JStr "0b5f7c1e") (JStr "modern")
            (JStr "Ama K. Portfolio") (JStr "Singer from Accra") []
            (Html.mkCustomizations None)
            "2023-11-14T22:14:00.000Z" "2023-11-14T22:14:00.000Z" None None))
      (JStr "modern") None
    = Ok document
    /\ contains document "<p>beginner • [object Object]</p>".
Proof.
  eexists. split; [reflexivity|].
  apply document_contains_body.
  apply (served_page_shows_no_profile
           (Server.Artist.mk "0b5f7c1e" "Ama K." "ama@x.com" "Singer from Accra"
              "multi_disciplinary" "beginner" (Html.SkArray []) JObj JObj []
              "2023-11-14T22:13:20.000Z" "2023-11-14T22:13:20.000Z")).
  reflexivity.
Defined.

(** ** From the form of an artist to the page *)

Section Pipeline.

Import Server.
Context `{Json}.
Local Open Scope list_scope.

Lemma createPortfolio_found (env : Env) (request : Request.t) (st : State)
    (artist : Artist.t) :
  find (sameId (Request.artistId request)) (artists st) = Some artist ->
  createPortfolio env request st
  = let portfolio := newPortfolio env request artist in
    let pushed := portfolios st ++ [portfolio] in
    match Html.generatePortfolioHTML (today env) (pageData artist portfolio)
            (Portfolio.template portfolio)
            (Some (Portfolio.customizations portfolio)) with
    | Raise _ =>
        (mkResponse 500 (Error "Failed to create portfolio"),
         mkState (artists st) pushed (artistsJson st) (Some pushed) (pages st) (pdfs st))
    | Ok htmlContent =>
        (mkResponse 201
           (PortfolioCreated "Portfolio created successfully"
              (Portfolio.setHtmlUrl ("/portfolios/" ++ Portfolio.id portfolio ++ ".html")
                                    portfolio)),
         mkState (artists st)
           (portfolios st
            ++ [Portfolio.setHtmlUrl ("/portfolios/" ++ Portfolio.id portfolio ++ ".html")
                                     portfolio])
           (artistsJson st) (Some pushed)
           (writeFile (htmlFilePath (Portfolio.id portfolio)) htmlContent (pages st))
           (pdfs st))
    end.
Proof. intros Hfind. unfold createPortfolio. now rewrite Hfind. Qed.




End Pipeline.


(** ** What holds in every state of the server *)

Section RunProperties.

Import Server.
Context `{Json}.
Local Open Scope list_scope.

Lemma link_setHtmlUrl (url : string) (portfolio : Portfolio.t) :
  link (Portfolio.setHtmlUrl url portfolio) = link portfolio.
Proof. reflexivity. Qed.

Lemma link_updateFirst (test : Portfolio.t -> bool) (url : string)
    (l : list Portfolio.t) :
  map link (updateFirst test (Portfolio.setPdfUrl url) l) = map link l.
Proof.
  induction l as [|p l IH]; cbn [updateFirst map]; [reflexivity|].
  destruct (test p); cbn [map]; [reflexivity | now rewrite IH].
Qed.

Lemma artistOf_link (p q : Portfolio.t) (st st' : State) :
  link p = link q -> artists st = artists st' -> artistOf p st = artistOf q st'.
Proof.
  unfold link, artistOf. intros Hlink Hartists. injection Hlink as _ Hid.
  now rewrite Hid, Hartists.
Qed.

Lemma linked_artists (l l' : list Portfolio.t) (st st' : State) :
  map link l' = map link l ->
  artists st = artists st' ->
  (forall p, In p l -> artistOf p st <> None) ->
  forall q, In q l' -> artistOf q st' <> None.
Proof.
  intros Hmap Hartists Hall q Hq.
  apply (in_map link) in Hq. rewrite Hmap in Hq.
  apply in_map_iff in Hq as (p & Hlink & Hp).
  rewrite (artistOf_link q p st' st); [now apply Hall | now symmetry | now symmetry].
Qed.

Lemma artistOf_snoc (p : Portfolio.t) (st : State) (artist : Artist.t)
    (ps : list Portfolio.t) (aj : option (list Artist.t))
    (pj : option (list Portfolio.t)) (pg pd : string -> option string) :
  artistOf p st <> None ->
  artistOf p (mkState (artists st ++ [artist]) ps aj pj pg pd) <> None.
Proof.
  unfold artistOf. cbn [artists]. rewrite find_snoc.
  destruct (find (sameId (Portfolio.artistId p)) (artists st)); [discriminate|].
  intros Hnone. now contradiction Hnone.
Qed.

Lemma sound_createArtist (env : Env) (form : Form.t)
    (files : option (list Uploaded.t)) (st : State) :
  sound st -> sound (snd (createArtist env form files st)).
Proof.
  intros Hsound.
  destruct (createArtist env form files st) as [response st'] eqn:Hrun.
  cbn [snd].
  destruct (Z.eq_dec (status response) 201) as [Hcreated | Hnot].
  - destruct (createArtist_created _ _ _ _ _ _ Hrun Hcreated)
      as (artist & _ & _ & _ & _ & _ & _ & _ & _ & ->).
    destruct Hsound as (Hall & _ & Hsaved).
    split; [|split].
    + cbn [portfolios]. intros p Hp. apply artistOf_snoc. now apply Hall.
    + left. reflexivity.
    + exact Hsaved.
  - assert (Hsame : st' = st).
    { unfold createArtist in Hrun. cbv zeta in Hrun.
      destruct (negb (given (Form.name form)) || negb (given (Form.email form)));
        [now injection Hrun as _ <-|].
      destruct (parseOr parseSkills (Form.genres form) (Html.SkArray []));
        [|now injection Hrun as _ <-].
      destruct (parseOr parseValue (Form.location form) JObj);
        [|now injection Hrun as _ <-].
      destruct (parseOr parseValue (Form.socialLinks form) JObj);
        [|now injection Hrun as _ <-].
      injection Hrun as <- _. now contradiction Hnot. }
    now rewrite Hsame.
Qed.

Lemma sound_createPortfolio (env : Env) (body : Request.t) (st : State) :
  sound st -> sound (snd (createPortfolio env body st)).
Proof.
  intros Hsound.
  destruct (find (sameId (Request.artistId body)) (artists st)) as [artist|] eqn:Ef.
  2:{ unfold createPortfolio. now rewrite Ef. }
  rewrite (createPortfolio_found env body st artist Ef). cbv zeta.
  destruct Hsound as (Hall & Hartists & Hsaved).
  assert (Hnew : find (sameId (Portfolio.artistId (newPortfolio env body artist)))
                      (artists st) <> None).
  { cbn [newPortfolio Portfolio.artistId]. rewrite Ef. discriminate. }
  unfold artistOf in Hall.
  destruct (Html.generatePortfolioHTML (today env)
              (pageData artist (newPortfolio env body artist))
              (Portfolio.template (newPortfolio env body artist))
              (Some (Portfolio.customizations (newPortfolio env body artist))));
    cbn [snd]; (split; [|split]); unfold artistOf;
    cbn [portfolios artists artistsJson portfoliosJson];
    try exact Hartists.
  - intros p Hp. apply in_app_or in Hp as [Hp | [<- | []]].
    + now apply Hall.
    + destruct (find _ _); [discriminate | now contradiction Hnew].
  - rewrite !map_app. cbn [map]. now rewrite link_setHtmlUrl.
  - intros p Hp. apply in_app_or in Hp as [Hp | [<- | []]].
    + now apply Hall.
    + destruct (find _ _); [discriminate | now contradiction Hnew].
  - reflexivity.
Qed.

Lemma sound_generatePdf (env : Env) (id : string) (st : State) :
  sound st -> sound (snd (generatePdf env id st)).
Proof.
  intros Hsound. unfold generatePdf.
  destruct (find (isPortfolio id) (portfolios st)) as [portfolio|]; [|exact Hsound].
  destruct (find (sameId (Portfolio.artistId portfolio)) (artists st)) as [artist|];
    [|exact Hsound].
  destruct (Html.generatePortfolioHTML (today env) (pageData artist portfolio)
              (Portfolio.template portfolio)
              (Some (Portfolio.customizations portfolio))); [|exact Hsound].
  cbv zeta. cbn [snd].
  destruct Hsound as (Hall & Hartists & Hsaved).
  split; [|split]; cbn [portfolios artists artistsJson portfoliosJson].
  - apply (linked_artists (portfolios st) _ st); [apply link_updateFirst | reflexivity | exact Hall].
  - exact Hartists.
  - destruct (portfoliosJson st) as [saved|].
    + now rewrite link_updateFirst.
    + now rewrite Hsaved.
Qed.

Lemma sound_restart (st : State) : sound st -> sound (restart st).
Proof.
  intros (Hall & Hartists & Hsaved).
  assert (Ha : artists (restart st) = artists st).
  { unfold restart, loadInitialData. cbn [artists artistsJson].
    destruct Hartists as [-> | (-> & ->)]; reflexivity. }
  split; [|split].
  - apply (linked_artists (portfolios st) _ st); [|now symmetry | exact Hall].
    unfold restart, loadInitialData. cbn [portfolios portfoliosJson].
    destruct (portfoliosJson st) as [saved|]; [exact Hsaved | now rewrite Hsaved].
  - rewrite Ha. unfold restart, loadInitialData. cbn [artistsJson]. exact Hartists.
  - unfold restart, loadInitialData. cbn [portfolios portfoliosJson].
    destruct (portfoliosJson st) as [saved|]; reflexivity.
Qed.

Lemma reachable_sound (st : State) : reachable st -> sound st.
Proof.
  induction 1 as [|r st Hreach IH|st Hreach IH].
  - split; [intros p []|]. split; [right; split; reflexivity | reflexivity].
  - destruct r; cbn [serve snd]; auto using sound_createArtist,
      sound_createPortfolio, sound_generatePdf.
  - now apply sound_restart.
Qed.

(** X13: no portfolio without its artist.  In every state that a server
    which started without data can reach through its routes and through
    restarts, each portfolio of the array has its artist in the array of
    the artists.  So the answer [Artist not found] of the route that
    prints a PDF never occurs, and no portfolio is ever served with
    [artist: null], neither alone nor in the list. *)
Theorem portfolios_keep_their_artists :
  forall st : State,
    reachable st ->
    (forall portfolio,
        In portfolio (portfolios st) ->
        exists artist,
          find (sameId (Portfolio.artistId portfolio)) (artists st) = Some artist)
    /\ (forall env id,
          fst (generatePdf env id st) <> mkResponse 404 (Error "Artist not found"))
    /\ (forall id portfolio,
          getPortfolio id st <> mkResponse 200 (PortfolioFound portfolio None))
    /\ (forall all,
          getPortfolios st = mkResponse 200 (PortfolioList all) ->
          forall portfolio, ~ In (portfolio, None) all).
Proof.
  intros st Hreach. destruct (reachable_sound st Hreach) as (Hall & _ & _).
  assert (Hfound : forall portfolio,
            In portfolio (portfolios st) ->
            exists artist,
              find (sameId (Portfolio.artistId portfolio)) (artists st) = Some artist).
  { intros portfolio Hin. specialize (Hall portfolio Hin). unfold artistOf in Hall.
    destruct (find (sameId (Portfolio.artistId portfolio)) (artists st)) as [artist|];
      [now exists artist | now contradiction Hall]. }
  split; [exact Hfound|]. split; [|split].
  - intros env id. unfold generatePdf.
    destruct (find (isPortfolio id) (portfolios st)) as [portfolio|] eqn:Ep;
      [|discriminate].
    apply find_some in Ep as (Hin & _).
    destruct (Hfound portfolio Hin) as (artist & ->).
    destruct (Html.generatePortfolioHTML _ _ _ _); discriminate.
  - intros id portfolio. unfold getPortfolio.
    destruct (find (isPortfolio id) (portfolios st)) as [found|] eqn:Ep;
      [|discriminate].
    apply find_some in Ep as (Hin & _).
    intros Hnull. injection Hnull as _ Hnone. now apply (Hall found Hin).
  - intros all Hlist portfolio Hin. unfold getPortfolios in Hlist.
    injection Hlist as <-. apply in_map_iff in Hin as (p & Hp & Hin).
    injection Hp as _ Hnone. now apply (Hall p Hin).
Qed.

End RunProperties.

Lemma portfolios_keep_their_artists_witness :
  let st :=
    snd (serve (H := sampleJson) (PostPortfolio laterEnv sampleRequest)
           (snd (serve (H := sampleJson) (PostArtist sampleEnv sampleForm None)
                   emptyState))) in
  length (Server.portfolios st) = 1%nat
  /\ Forall (fun portfolio =>
               exists artist,
                 find (Server.sameId (Server.Portfolio.artistId portfolio))
                      (Server.artists st) = Some artist)
            (Server.portfolios st).
Proof.
  intros st. split; [reflexivity|].
  apply Forall_forall.
  apply (@portfolios_keep_their_artists sampleJson st).
  apply reach_serve, reach_serve, reach_start.
Defined.

Section PdfRouteProperties.

Import Server.
Context `{Json}.
Local Open Scope list_scope.

Lemma updateFirst_snoc (A : Type) (test : A -> bool) (change : A -> A)
    (l : list A) (x : A) :
  (forall y, In y l -> test y = false) ->
  test x = true ->
  updateFirst test change (l ++ [x]) = l ++ [change x].
Proof.
  intros Hl Hx. induction l as [|y l IH]; cbn [app updateFirst].
  - now rewrite Hx.
  - rewrite (Hl y (or_introl eq_refl)). f_equal. apply IH.
    intros z Hz. apply Hl. now right.
Qed.

Lemma find_snoc_fresh (A : Type) (test : A -> bool) (l : list A) (x : A) :
  (forall y, In y l -> test y = false) ->
  test x = true ->
  find test (l ++ [x]) = Some x.
Proof.
  intros Hl Hx. rewrite find_snoc.
  destruct (find test l) as [y|] eqn:Ef.
  - apply find_some in Ef as (Hin & Hy). rewrite (Hl y Hin) in Hy. discriminate.
  - now rewrite Hx.
Qed.

(** X14: printing the PDF of a portfolio.  For a portfolio created under
    a fresh identifier, the route that prints its PDF answers 200 with
    the URL [/pdfs/<id>.pdf]; the file [generated/pdfs/<id>.pdf] is
    printed from a document composed anew, which is the page written when
    the portfolio was created if both requests fall in the same year.
    The URL of the PDF is set on the portfolio in memory, beside the URL
    of the page, and is written to no file: a new process reads the
    portfolio back with neither. *)
Theorem pdf_printed_from_the_page :
  forall (env1 : Env) (body : Request.t) (st : State) (r1 : Response) (st1 : State)
         (env2 : Env) (r2 : Response) (st2 : State),
    createPortfolio env1 body st = (r1, st1) ->
    status r1 = 201 ->
    (forall earlier, In earlier (portfolios st) ->
       Portfolio.id earlier <> uuidv4 env1) ->
    generatePdf env2 (uuidv4 env1) st1 = (r2, st2) ->
    exists (artist : Artist.t) (document : string),
      let portfolio := newPortfolio env1 body artist in
      let htmlUrl := ("/portfolios/" ++ uuidv4 env1 ++ ".html")%string in
      let pdfUrl := ("/pdfs/" ++ uuidv4 env1 ++ ".pdf")%string in
      r2 = mkResponse 200 (PdfGenerated "PDF generated successfully" pdfUrl)
      /\ pdfs st2 (pdfFilePath (uuidv4 env1)) = Some document
      /\ Html.generatePortfolioHTML (today env2) (pageData artist portfolio)
           (Portfolio.template portfolio) (Some (Portfolio.customizations portfolio))
         = Ok document
      /\ (getFullYear (today env1) = getFullYear (today env2) ->
          pages st2 (htmlFilePath (uuidv4 env1)) = Some document)
      /\ portfolios st2
         = portfolios st
           ++ [Portfolio.setPdfUrl pdfUrl (Portfolio.setHtmlUrl htmlUrl portfolio)]
      /\ portfoliosJson st2 = Some (portfolios st ++ [portfolio])
      /\ portfolios (restart st2) = portfolios st ++ [portfolio]
      /\ Portfolio.htmlUrl portfolio = None
      /\ Portfolio.pdfUrl portfolio = None.
Proof.
  intros env1 body st r1 st1 env2 r2 st2 Hrun1 Hstatus Hfresh Hrun2.
  destruct (find (sameId (Request.artistId body)) (artists st)) as [artist|] eqn:Ef.
  2:{ unfold createPortfolio in Hrun1. rewrite Ef in Hrun1.
      injection Hrun1 as <- _. discriminate. }
  rewrite (createPortfolio_found env1 body st artist Ef) in Hrun1. cbv zeta in Hrun1.
  destruct (Html.generatePortfolioHTML (today env1)
              (pageData artist (newPortfolio env1 body artist))
              (Portfolio.template (newPortfolio env1 body artist))
              (Some (Portfolio.customizations (newPortfolio env1 body artist))))
    as [page|e] eqn:Eg1; injection Hrun1 as <- <-; [|discriminate].
  assert (Eg2 : exists document,
            Html.generatePortfolioHTML (today env2)
              (pageData artist (newPortfolio env1 body artist))
              (Portfolio.template (newPortfolio env1 body artist))
              (Some (Portfolio.customizations (newPortfolio env1 body artist)))
            = Ok document).
  { destruct (Html.generatePortfolioHTML (today env2)
                (pageData artist (newPortfolio env1 body artist))
                (Portfolio.template (newPortfolio env1 body artist))
                (Some (Portfolio.customizations (newPortfolio env1 body artist))))
      as [document|e] eqn:E2; [now exists document|].
    assert (Hs : noSplit (Html.skills (pageData artist (newPortfolio env1 body artist)))).
    { apply (generate_raises (today env2)
               (pageData artist (newPortfolio env1 body artist))
               (Portfolio.template (newPortfolio env1 body artist))
               (Some (Portfolio.customizations (newPortfolio env1 body artist)))).
      now exists e. }
    apply (generate_raises (today env1)
             (pageData artist (newPortfolio env1 body artist))
             (Portfolio.template (newPortfolio env1 body artist))
             (Some (Portfolio.customizations (newPortfolio env1 body artist))))
      in Hs as (e' & He').
    rewrite Eg1 in He'. discriminate. }
  destruct Eg2 as (document & Eg2).
  exists artist, document. cbv zeta.
  assert (Hold : forall y, In y (portfolios st) -> isPortfolio (uuidv4 env1) y = false).
  { intros y Hy. apply String.eqb_neq. now apply Hfresh. }
  unfold generatePdf in Hrun2. cbn [portfolios artists] in Hrun2.
  match type of Hrun2 with
  | context [portfolios st ++ [?p]] => set (created := p) in *
  end.
  assert (Hnew : isPortfolio (uuidv4 env1) created = true) by apply String.eqb_refl.
  rewrite (find_snoc_fresh _ _ (portfolios st) created Hold Hnew) in Hrun2.
  change (Portfolio.artistId created) with (Request.artistId body) in Hrun2.
  rewrite Ef in Hrun2.
  change (Html.generatePortfolioHTML (today env2) (pageData artist created)
            (Portfolio.template created) (Some (Portfolio.customizations created)))
    with (Html.generatePortfolioHTML (today env2)
            (pageData artist (newPortfolio env1 body artist))
            (Portfolio.template (newPortfolio env1 body artist))
            (Some (Portfolio.customizations (newPortfolio env1 body artist))))
    in Hrun2.
  rewrite Eg2 in Hrun2. cbv zeta in Hrun2. injection Hrun2 as <- <-.
  cbn [pdfs pages portfolios portfoliosJson restart loadInitialData].
  split; [reflexivity|].
  split; [unfold writeFile; now rewrite String.eqb_refl|].
  split; [exact Eg2|].
  split.
  { intros Hyear. unfold writeFile, htmlFilePath. cbn [newPortfolio Portfolio.id].
    rewrite String.eqb_refl.
    rewrite (html_depends_on_year (today env1) (today env2) _ _ _ Hyear) in Eg1.
    congruence. }
  split.
  { now rewrite (updateFirst_snoc _ _ _ (portfolios st) created Hold Hnew). }
  repeat split; reflexivity.
Qed.

End PdfRouteProperties.

Lemma pdf_printed_from_the_page_witness :
  let st1 := snd (Server.createPortfolio laterEnv sampleRequest oneArtistState) in
  let st2 := snd (Server.generatePdf sampleEnv "7d2a" st1) in
  Server.pdfs st2 "generated/pdfs/7d2a.pdf" = Server.pages st2 "generated/portfolios/7d2a.html"
  /\ Server.pdfs st2 "generated/pdfs/7d2a.pdf" <> None.
Proof.
  intros st1 st2.
  destruct (pdf_printed_from_the_page laterEnv sampleRequest oneArtistState _ _
              sampleEnv _ _ (surjective_pairing _) eq_refl
              (fun earlier (Hin : In earlier []) => match Hin with end)
              (surjective_pairing _))
    as (artist & document & _ & Hpdf & _ & Hpage & _).
  assert (Hpdf' : Server.pdfs st2 "generated/pdfs/7d2a.pdf" = Some document)
    by exact Hpdf.
  assert (Hpage' : Server.pages st2 "generated/portfolios/7d2a.html" = Some document)
    by exact (Hpage eq_refl).
  rewrite Hpdf', Hpage'. split; [reflexivity | discriminate].
Defined.

(** ** The category line of the cover *)

Lemma replaceFirstUnderscore_split (before after : string) :
  memb "_"%char before = false ->
  Pdf.replaceFirstUnderscore (before ++ "_" ++ after) = before ++ " " ++ after.
Proof.
  induction before as [|c before IH]; intros Hfree.
  - reflexivity.
  - cbn [memb] in Hfree. apply orb_false_iff in Hfree. destruct Hfree as [Hc Hrest].
    cbn [append Pdf.replaceFirstUnderscore]. rewrite Hc. f_equal. now apply IH.
Qed.

Lemma replaceFirstUnderscore_none (s : string) :
  memb "_"%char s = false -> Pdf.replaceFirstUnderscore s = s.
Proof.
  induction s as [|c s IH]; intros Hfree.
  - reflexivity.
  - cbn [memb] in Hfree. apply orb_false_iff in Hfree. destruct Hfree as [Hc Hrest].
    cbn [Pdf.replaceFirstUnderscore]. rewrite Hc. f_equal. now apply IH.
Qed.

(** X15: the category line of the cover is never empty: a missing category
    and one whose label comes out empty give [CREATIVE PROFESSIONAL].  Of
    the underscores of a category only the first becomes a space, the text
    before and after it is kept as it is, and a category without
    underscore is kept whole; each category of the schema has at most one,
    so none of them shows an underscore. *)
Theorem cover_category_label :
  forall (runtime : Pdf.Runtime),
    (forall category : option string, Pdf.categoryLabel category <> "")
    /\ (forall before after : string,
          memb "_"%char before = false ->
          Pdf.categoryLabel (Some (before ++ "_" ++ after))
          = if String.eqb (Pdf.toUpperCase (before ++ " " ++ after)) ""
            then "CREATIVE PROFESSIONAL"
            else Pdf.toUpperCase (before ++ " " ++ after))
    /\ (forall category : string,
          memb "_"%char category = false ->
          Pdf.categoryLabel (Some category)
          = if String.eqb (Pdf.toUpperCase category) ""
            then "CREATIVE PROFESSIONAL"
            else Pdf.toUpperCase category)
    /\ (forall category : string,
          In category categoryEnum ->
          memb "_"%char (Pdf.replaceFirstUnderscore category) = false).
Proof.
  intros runtime. split; [|split; [|split]].
  - intros [s|]; unfold Pdf.categoryLabel; [|discriminate].
    cbv zeta.
    destruct (String.eqb (Pdf.toUpperCase (Pdf.replaceFirstUnderscore s)) "") eqn:E.
    + discriminate.
    + intros Heq. rewrite Heq in E. discriminate.
  - intros before after Hfree. unfold Pdf.categoryLabel.
    now rewrite (replaceFirstUnderscore_split before after Hfree).
  - intros category Hfree. unfold Pdf.categoryLabel.
    now rewrite (replaceFirstUnderscore_none category Hfree).
  - intros category Hin. unfold categoryEnum in Hin. cbn [In] in Hin.
    destruct Hin as [<-|[<-|[<-|[<-|[]]]]]; reflexivity.
Qed.

Lemma cover_category_label_witness :
  Pdf.categoryLabel (H := sampleRuntime) (Some "visual_arts_and_crafts")
  = "VISUAL ARTS_AND_CRAFTS".
Proof.
  destruct (cover_category_label sampleRuntime) as (_ & Hfirst & _).
  exact (Hfirst "visual" "arts_and_crafts" eq_refl).
Defined.

(** ** More on the PDF composer *)

Section PdfPropertiesMore.

Import Pdf.
Context `{Runtime}.
Local Open Scope float_scope.
Local Open Scope list_scope.

Lemma keeps_ret (A : Type) (P : call -> bool) (a : A) : keeps P (ret a).
Proof. split; [apply appends_ret | reflexivity]. Qed.

Lemma keeps_record (P : call -> bool) (c : call) : P c = true -> keeps P (record c).
Proof.
  intros Hc. split; [apply appends_record|].
  intros doc. unfold drawn, record. simpl. now rewrite Hc.
Qed.

Lemma keeps_fontSize (P : call -> bool) (size : float) :
  P (FontSize size) = true -> keeps P (doc_fontSize size).
Proof.
  intros Hc. split; [apply appends_fontSize|].
  intros doc. unfold drawn, doc_fontSize. simpl. now rewrite Hc.
Qed.

Lemma keeps_widthOfString (P : call -> bool) (s : string) :
  keeps P (doc_widthOfString s).
Proof. split; [apply appends_widthOfString | reflexivity]. Qed.

Lemma keeps_bind (A B : Type) (P : call -> bool) (m : Draw A) (k : A -> Draw B) :
  keeps P m -> (forall a, keeps P (k a)) -> keeps P (bind m k).
Proof.
  intros [Hm Qm] Hk. split.
  - apply appends_bind; [exact Hm | intros a; apply Hk].
  - intros doc. rewrite drawn_bind; [|exact Hm | intros a; apply Hk].
    rewrite forallb_app. apply andb_true_iff. split; [apply Qm | apply Hk].
Qed.

Lemma keeps_whenM (P : call -> bool) (cond : bool) (m : Draw unit) :
  keeps P m -> keeps P (whenM cond m).
Proof. destruct cond; [trivial | intros _; apply keeps_ret]. Qed.

Lemma keeps_forEach (A : Type) (P : call -> bool) (f : A -> Draw unit)
    (items : list A) :
  (forall item, keeps P (f item)) -> keeps P (forEach f items).
Proof.
  intros Hf. induction items as [|item items IH]; simpl.
  - apply keeps_ret.
  - apply keeps_bind; auto.
Qed.

Lemma keeps_forEachWith (A V : Type) (P : call -> bool) (f : V -> A -> Draw V)
    (items : list A) :
  (forall vars item, keeps P (f vars item)) ->
  forall vars, keeps P (forEachWith f vars items).
Proof.
  intros Hf. induction items as [|item items IH]; intros vars; simpl.
  - apply keeps_ret.
  - apply keeps_bind; auto.
Qed.

Ltac keeps_step :=
  lazymatch goal with
  | |- keeps _ (bind _ _) => apply keeps_bind; [|intros]
  | |- keeps _ (ret _) => apply keeps_ret
  | |- keeps _ (record _) => apply keeps_record; first [reflexivity | solve [auto]]
  | |- keeps _ (doc_fontSize _) => apply keeps_fontSize; first [reflexivity | solve [auto]]
  | |- keeps _ (doc_widthOfString _) => apply keeps_widthOfString
  | |- keeps _ (whenM _ _) => apply keeps_whenM
  | |- keeps _ (forEach _ _) => apply keeps_forEach; intros
  | |- keeps _ (forEachWith _ _ _) => apply keeps_forEachWith; intros
  | |- keeps _ (if ?c then _ else _) => destruct c
  | |- keeps _ (match ?x with _ => _ end) => destruct x
  | |- keeps _ (let _ := _ in _) => cbv zeta
  | |- keeps _ _ => solve [auto]
  end.

Ltac keeps_tac := repeat keeps_step.

Ltac appends_chain :=
  repeat first
    [ assumption
    | apply appends_record
    | apply appends_bind; [|intros] ].

(** The drawing ends with [end], and every call before it satisfies [P],
    as soon as [P] holds of the calls that depend on the theme and of the
    fixed ones. *)
Lemma drawPortfolio_keeps (P : call -> bool) (now : Date) (portfolio : Portfolio)
    (doc : Document) :
  P AddPage = true ->
  (forall size, P (FontSize size) = true) ->
  (forall x y w h, P (Rect x y w h) = true) ->
  (forall s x y o, P (Text s x y o) = true) ->
  (forall n, P (MoveDown n) = true) ->
  (forall s, P (Fill (channels (hexToRgb s))) = true) ->
  (forall s, P (FillColor (channels (hexToRgb s))) = true) ->
  (forall s, colorOk (Named s) = true -> P (FillColor (Named s)) = true) ->
  exists before,
    drawn (drawPortfolio now portfolio) doc = before ++ [End]
    /\ forallb P before = true.
Proof.
  intros Hadd Hsize Hrect Htext Hdown Hfill Hink Hnamed.
  assert (Hw : P (FillColor (Named "white")) = true) by (apply Hnamed; reflexivity).
  assert (Hi : P (FillColor (Named "#333333")) = true) by (apply Hnamed; reflexivity).
  assert (Hb : P (FillColor (Named "#0066cc")) = true) by (apply Hnamed; reflexivity).
  assert (Hg : P (FillColor (Named "#666666")) = true) by (apply Hnamed; reflexivity).
  unfold drawPortfolio. cbv zeta.
  set (primaryRgb := hexToRgb _). set (accentRgb := hexToRgb _).
  assert (Hfp : P (Fill (channels primaryRgb)) = true) by apply Hfill.
  assert (Hfa : P (Fill (channels accentRgb)) = true) by apply Hfill.
  assert (Hip : P (FillColor (channels primaryRgb)) = true) by apply Hink.
  clearbody primaryRgb accentRgb.
  assert (Hcover : keeps P (coverPage portfolio primaryRgb accentRgb))
    by (unfold coverPage; keeps_tac).
  assert (Habout : keeps P (aboutPage portfolio accentRgb))
    by (unfold aboutPage; keeps_tac).
  assert (Hsection : forall section, keeps P (sectionPage accentRgb section))
    by (intros; unfold sectionPage; keeps_tac).
  assert (Hsections : keeps P (forEach (sectionPage accentRgb) (sections portfolio)))
    by (apply keeps_forEach; exact Hsection).
  assert (Hchip : forall cursor genre, keeps P (skillChip primaryRgb cursor genre))
    by (intros [x y] genre; unfold skillChip; keeps_tac).
  assert (Hskills : keeps P (skillsPage portfolio primaryRgb accentRgb))
    by (unfold skillsPage; keeps_tac).
  assert (Hline : forall y entry, keeps P (socialLine y entry))
    by (intros y [platform url]; unfold socialLine; keeps_tac).
  assert (Hcontact : keeps P (contactPage now portfolio primaryRgb accentRgb))
    by (unfold contactPage; keeps_tac).
  pose proof (proj1 Hcover) as A1. pose proof (proj1 Habout) as A2.
  pose proof (proj1 Hsections) as A3. pose proof (proj1 Hskills) as A4.
  pose proof (proj1 Hcontact) as A5.
  rewrite drawn_bind; [ | exact A1 | intros; appends_chain ].
  rewrite drawn_bind; [ | exact A2 | intros; appends_chain ].
  rewrite drawn_bind; [ | exact A3 | intros; appends_chain ].
  rewrite drawn_bind; [ | exact A4 | intros; appends_chain ].
  rewrite drawn_bind; [ | exact A5 | intros; appends_chain ].
  change (drawn (record End) _) with [End].
  rewrite !app_assoc. eexists. split; [reflexivity|].
  rewrite !forallb_app.
  rewrite (proj2 Hcover), (proj2 Habout), (proj2 Hsections), (proj2 Hskills),
    (proj2 Hcontact).
  reflexivity.
Qed.

Lemma colorOk_hexToRgb (s : string) : colorOk (channels (hexToRgb s)) = true.
Proof.
  destruct (hexToRgb_channels s) as (red & green & blue & -> & Hr & Hg & Hb).
  unfold channels, colorOk, channelOk. cbn [r g b].
  repeat (apply andb_true_iff; split); apply Z.leb_le; lia.
Qed.

(** X16: whatever strings the theme holds, every colour the route hands to
    [fill] and [fillColor] is one of the four fixed inks or an array of
    three channels between 0 and 255. *)
Theorem pdf_colours_are_valid :
  forall (now : Date) (portfolio : Portfolio),
  exists (file : string) (doc : Document),
    generatePdf now (Found portfolio) = Generated file doc
    /\ forallb callColorOk (calls doc) = true.
Proof.
  intros now portfolio. unfold generatePdf.
  eexists _, _. split; [reflexivity|].
  rewrite calls_generated by reflexivity.
  destruct (drawPortfolio_keeps callColorOk now portfolio
              (newDocument (mkInfo (title portfolio) (name (artist portfolio))
                                   "Professional Portfolio")))
    as (before & -> & Hbefore); try reflexivity.
  - intros s. apply colorOk_hexToRgb.
  - intros s. apply colorOk_hexToRgb.
  - intros s Hs. exact Hs.
  - cbn [forallb callColorOk andb]. rewrite !forallb_app, Hbefore. reflexivity.
Qed.

(** X17: the document is piped to its file before anything is drawn and
    ended once, after everything is drawn; the one call that the route
    makes on the document after [end] registers the listener of its
    ['end'] event. *)
Theorem pdf_document_ended_last :
  forall (now : Date) (portfolio : Portfolio),
  exists (file : string) (doc : Document) (before : list call),
    generatePdf now (Found portfolio) = Generated file doc
    /\ calls doc = Pipe file :: before ++ [End; OnEnd]
    /\ forallb (fun c => negb (isEnd c) && negb (isStream c)) before = true.
Proof.
  intros now portfolio. unfold generatePdf.
  destruct (drawPortfolio_keeps (fun c => negb (isEnd c) && negb (isStream c))
              now portfolio
              (newDocument (mkInfo (title portfolio) (name (artist portfolio))
                                   "Professional Portfolio")))
    as (before & Hdrawn & Hbefore); try reflexivity.
  eexists _, _, before. split; [reflexivity|]. split; [|exact Hbefore].
  rewrite calls_generated by reflexivity.
  rewrite Hdrawn, <- app_assoc. reflexivity.
Qed.

(** *** The contact page *)

Ltac appends_auto :=
  intros;
  repeat lazymatch goal with
         | |- appends (bind _ _) => apply appends_bind; [|intros]
         | |- appends (ret _) => apply appends_ret
         | |- appends (record _) => apply appends_record
         | |- appends (doc_fontSize _) => apply appends_fontSize
         | |- appends (forEachWith socialLine _ _) =>
             apply appends_forEachWith; intros; apply appends_socialLine
         | |- appends (if ?c then _ else _) => destruct c
         | |- appends (match ?x with _ => _ end) => destruct x
         | |- appends (let _ := _ in _) => cbv zeta
         end.

(** A line of text, followed by [rest]. *)
Lemma drawn_line (A : Type) (size : float) (ink : color) (text : string) (y : float)
    (rest : Draw A) (doc : Document) :
  appends rest ->
  drawn (doc_fontSize size ;;
         record (FillColor ink) ;;
         record (Text text 50 (At y) noOptions) ;;
         rest) doc
  = lineCalls size ink text y ++ drawn rest (mkDocument (info doc) [] size).
Proof.
  intros Hrest. unfold drawn at 1, blank, bind, record, doc_fontSize.
  cbn [fst snd calls info currentFontSize app].
  rewrite (calls_run _ rest _ Hrest). reflexivity.
Qed.

Lemma socialLine_run (y : float) (entry : string * option string) (doc : Document) :
  socialLine y entry (blank doc)
  = if populated entry
    then (y + 20,
          mkDocument (info doc) (lineCalls 12 (Named "#0066cc") (linkText entry) y) 12)
    else (y, blank doc).
Proof.
  destruct entry as [platform url]. unfold socialLine, populated, linkText.
  cbn [fst snd]. destruct (present url); reflexivity.
Qed.

(** The loop over the social links writes one line for each entry whose
    URL is non-empty, in the order of the entries, from the height the loop
    starts at and each 20 units below the one before; entries without URL
    take no room. *)
Lemma socialLinks_run :
  forall (links : list (string * option string)) (y : float) (doc : Document),
  exists lines : list (string * float),
    drawn (forEachWith socialLine y links) doc
    = linkCalls lines
    /\ map fst lines = map linkText (filter populated links)
    /\ map snd lines = heightsFrom y (length lines).
Proof.
  induction links as [|entry links IH]; intros y doc.
  - exists []. repeat split.
  - cbn [forEachWith filter].
    rewrite drawn_bind;
      [ | apply appends_socialLine
        | intros; apply appends_forEachWith; intros; apply appends_socialLine ].
    unfold drawn at 1. unfold bind. rewrite (socialLine_run y entry doc).
    destruct (populated entry) eqn:Ep; cbn [fst snd calls].
    + destruct (IH (y + 20)
                  (mkDocument (info doc)
                     (lineCalls 12 (Named "#0066cc") (linkText entry) y) 12))
        as (lines & Hd & Hm & Hy).
      exists ((linkText entry, y) :: lines). split; [|split].
      * unfold linkCalls. cbn [flat_map fst snd]. now rewrite Hd.
      * cbn [map fst]. now rewrite Hm.
      * cbn [map snd length heightsFrom]. now rewrite Hy.
    + destruct (IH y doc) as (lines & Hd & Hm & Hy).
      exists lines. split; [|split]; assumption.
Qed.

Lemma footer_past_margin (now : Date) (size : float) :
  pageHeight = 841.89 -> pageStarts size (footerCalls now) = [footerText now].
Proof.
  intros Hpage. unfold footerCalls, footerText.
  cbn [pageStarts]. unfold noRoom, maxY.
  rewrite Hpage. reflexivity.
Qed.

(** X18: the contact page.  Under the header band come the e-mail
    heading at height 120 and the address at 140; the location block at 170
    and 190 when the artist has a city or a country; then, when the artist
    has a [socialLinks] object, the heading [Connect Online:] at 170, or at
    220 below a location block, and one line for each link whose URL is
    non-empty, in the order of the entries, the first 25 below the heading
    and each of the others 20 below the one before; the footer is the last
    text, placed 30 above the lower edge of the page, which on an A4 page
    is below the bottom margin, so that PDFKit starts a page for it. *)
Theorem contact_page_layout :
  forall (now : Date) (portfolio : Portfolio) (primaryRgb accentRgb : rgb)
         (doc : Document),
    let top : float := if locationShown (location (artist portfolio)) then 220 else 170 in
    exists social : list call,
      drawn (contactPage now portfolio primaryRgb accentRgb) doc
      = AddPage :: headerBand accentRgb "CONTACT INFORMATION"
          ++ lineCalls 14 (channels primaryRgb) "Email:" 120
          ++ lineCalls 12 (Named "#333333") (email (artist portfolio)) 140
          ++ locationCalls primaryRgb (location (artist portfolio))
          ++ social
          ++ footerCalls now
      /\ match socialLinks (artist portfolio) with
         | None => social = []
         | Some links =>
             exists lines : list (string * float),
               social = lineCalls 14 (channels primaryRgb) "Connect Online:" top
                        ++ linkCalls lines
               /\ map fst lines = map linkText (filter populated links)
               /\ map snd lines = heightsFrom (top + 25) (length lines)
         end
      /\ (pageHeight = 841.89 ->
          forall size, pageStarts size (footerCalls now) = [footerText now]).
Proof.
  intros now portfolio primaryRgb accentRgb doc top.
  assert (Hfooter : forall d : Document,
            drawn (doc_fontSize 8 ;;
                   record (FillColor (Named "#666666")) ;;
                   record (Text ("Generated by KatikaNaMe Platform â€¢ "
                                 ++ toLocaleDateString now)
                                50 (At (pageHeight - 30))
                                (mkOptions (Some "center") (Some (pageWidth - 100))))) d
            = footerCalls now) by reflexivity.
  assert (Hsocial : forall (y : float) (d : Document),
            exists social : list call,
              drawn (match socialLinks (artist portfolio) with
                     | Some links =>
                         doc_fontSize 14 ;;
                         record (FillColor (channels primaryRgb)) ;;
                         record (Text "Connect Online:" 50 (At y) noOptions) ;;
                         forEachWith socialLine (y + 25) links ;;
                         ret tt
                     | None => ret tt
                     end) d = social
              /\ match socialLinks (artist portfolio) with
                 | None => social = []
                 | Some links =>
                     exists lines : list (string * float),
                       social = lineCalls 14 (channels primaryRgb) "Connect Online:" y
                                ++ linkCalls lines
                       /\ map fst lines = map linkText (filter populated links)
                       /\ map snd lines = heightsFrom (y + 25) (length lines)
                 end).
  { intros y d. eexists. split; [reflexivity|].
    destruct (socialLinks (artist portfolio)) as [links|]; [|reflexivity].
    rewrite drawn_line by appends_auto.
    destruct (socialLinks_run links (y + 25) (mkDocument (info d) [] 14))
      as (lines & Hd & Hm & Hy).
    exists lines. split; [|split; assumption].
    rewrite drawn_bind by appends_auto.
    rewrite Hd. cbn [drawn ret snd calls]. unfold drawn, ret. cbn [snd calls].
    now rewrite app_nil_r. }
  assert (Htail : forall (y : float) (d : Document),
            exists social : list call,
              drawn (match socialLinks (artist portfolio) with
                     | Some links =>
                         doc_fontSize 14 ;;
                         record (FillColor (channels primaryRgb)) ;;
                         record (Text "Connect Online:" 50 (At y) noOptions) ;;
                         forEachWith socialLine (y + 25) links ;;
                         ret tt
                     | None => ret tt
                     end ;;
                     doc_fontSize 8 ;;
                     record (FillColor (Named "#666666")) ;;
                     record (Text ("Generated by KatikaNaMe Platform â€¢ "
                                   ++ toLocaleDateString now)
                                  50 (At (pageHeight - 30))
                                  (mkOptions (Some "center") (Some (pageWidth - 100))))) d
              = social ++ footerCalls now
              /\ match socialLinks (artist portfolio) with
                 | None => social = []
                 | Some links =>
                     exists lines : list (string * float),
                       social = lineCalls 14 (channels primaryRgb) "Connect Online:" y
                                ++ linkCalls lines
                       /\ map fst lines = map linkText (filter populated links)
                       /\ map snd lines = heightsFrom (y + 25) (length lines)
                 end).
  { intros y d. destruct (Hsocial y d) as (social & Hs & Hrest).
    exists social. split; [|exact Hrest].
    rewrite drawn_bind by appends_auto. now rewrite Hs, Hfooter. }
  clear Hsocial Hfooter.
  unfold contactPage. cbv zeta.
  rewrite drawn_headed_page by appends_auto.
  rewrite drawn_line by appends_auto.
  rewrite drawn_line by appends_auto.
  rewrite drawn_bind by appends_auto.
  subst top. unfold locationShown, locationCalls.
  destruct (location (artist portfolio)) as [l|];
    [destruct (present (city l) || present (country l))%bool|].
  - rewrite drawn_line by appends_auto.
    rewrite drawn_line by appends_auto.
    destruct (Htail 220 (mkDocument (info doc) [] 12)) as (social & Hs & Hrest).
    exists social. split; [|split; [exact Hrest | intros Hpage size; now apply footer_past_margin]].
    rewrite <- Hs. reflexivity.
  - destruct (Htail 170 (mkDocument (info doc) [] 12)) as (social & Hs & Hrest).
    exists social. split; [|split; [exact Hrest | intros Hpage size; now apply footer_past_margin]].
    rewrite <- Hs. reflexivity.
  - destruct (Htail 170 (mkDocument (info doc) [] 12)) as (social & Hs & Hrest).
    exists social. split; [|split; [exact Hrest | intros Hpage size; now apply footer_past_margin]].
    rewrite <- Hs. reflexivity.
Qed.

End PdfPropertiesMore.

Lemma contact_page_layout_witness :
  pageStarts (H := sampleRuntime) 12
    (footerCalls (H := sampleRuntime) (mkDate 1700000000000 2023 "11/14/2023"))
  = [ footerText (H := sampleRuntime) (mkDate 1700000000000 2023 "11/14/2023") ].
Proof.
  destruct (@contact_page_layout sampleRuntime (mkDate 1700000000000 2023 "11/14/2023")
              samplePortfolio fallbackRgb fallbackRgb (Pdf.newDocument (Pdf.mkInfo "" "" "")))
    as (social & _ & _ & Hfooter).
  apply (Hfooter eq_refl).
Defined.
